(** * The MTConnect adapter of pomamo-cncmodules (Lemoine.Cnc.MTConnectAdapter)

    A shallow embedding of [adapter.cpp] and [PulseAdapter.cpp]: the cycle
    engine ([Start], [Finish]), the send path ([sendDatum], [sendBuffer],
    [sendInitialData], [sendChangedData], [flush], [unavailable]), the
    registry ([addDatum]) and the producer-facing setters of [PulseAdapter];
    and of [logger.cpp]: the four logging methods, [format] and [timestamp].

    The classes [StringBuffer], [Server]/[Client] and [DeviceDatum] are
    included by the sources ([string_buffer.hpp], [server.hpp],
    [device_datum.hpp]) but their code is not part of the source tree; they
    are modelled from the specification, each under a comment that says so. *)

From Stdlib Require Import ZArith Ascii.
From stdpp Require Import base tactics list strings pretty.

Set Default Proof Using "Type".

(** ** Text *)

(** The C string ["\n"]. *)
Definition LF : string := String (Ascii.ascii_of_nat 10) "".

(** ** Exceptions and the state monad of the managed code

    The adapter is a managed [ref class]: an access outside a managed array
    raises [IndexOutOfRangeException], and following a null pointer is
    reported as [NullReferenceException].  A computation returns either an
    exception or a value, together with the state reached at that point. *)

Inductive Exn : Type :=
  | IndexOutOfRangeException
  | NullReferenceException.

Definition M (St A : Type) : Type := St -> (Exn + A) * St.

Definition ret {St A : Type} (x : A) : M St A := fun s => (inr x, s).

Definition bind {St A B : Type} (m : M St A) (k : A -> M St B) : M St B :=
  fun s =>
    match m s with
    | (inr x, s') => k x s'
    | (inl e, s') => (inl e, s')
    end.

Definition throw {St A : Type} (e : Exn) : M St A := fun s => (inl e, s).

Definition gets {St A : Type} (f : St -> A) : M St A := fun s => (inr (f s), s).

Definition modify {St : Type} (f : St -> St) : M St unit := fun s => (inr tt, f s).

Declare Scope monad_scope.
Delimit Scope monad_scope with monad.
Notation "x <- m ;; k" := (bind m (fun x => k))
  (at level 100, m at next level, right associativity) : monad_scope.
Notation "m ;; k" := (bind m (fun _ => k))
  (at level 100, right associativity) : monad_scope.
Local Open Scope monad_scope.

(** [for (int i = i0; i < i0 + k; i++) body(i)] *)
Fixpoint for_from {St : Type} (i k : nat) (body : nat -> M St unit) : M St unit :=
  match k with
  | 0 => ret tt
  | S k' => body i ;; for_from (S i) k' body
  end.

(** ** StringBuffer *)

Module StringBuffer.

(** Modelled from the spec: [string_buffer.hpp]/[string_buffer.cpp] are
    missing.  "Timestamped Line Buffer: accumulates serialized datum text
    for one outbound message, prefixed with a cycle timestamp"; "holds
    accumulated serialized text for the in-progress transmission plus a
    leading timestamp; cleared after every successful send; a fresh
    timestamp is stamped at the start of every cycle"; a message "begins
    with [the] timestamp, followed by one or more field groups".  Hence the
    stamp is kept apart from the accumulated text: it is put in front of
    the text when the first piece is appended, it does not count as
    buffered text, and it stays for the whole cycle when the text is
    cleared. *)
Record t : Type := mk {
  mTimestamp : string;
  mBuffer : string
}.

(** Modelled from the spec: the buffer of [new StringBuffer ()], with no
    stamp and no text. *)
Definition new : t := mk "" "".

(** Modelled from the spec: [timestamp()], "a fresh timestamp is stamped";
    [now] is the reading of the clock, already formatted. *)
Definition timestamp (now : string) (b : t) : t := mk now (mBuffer b).

(** Modelled from the spec: [length()], the length of the accumulated text;
    "no-op if the buffer is empty". *)
Definition length (b : t) : nat := String.length (mBuffer b).

(** Modelled from the spec: [append(text)]; the text of a message is
    "prefixed with a cycle timestamp", put there with the first piece. *)
Definition append (s : string) (b : t) : t :=
  if decide (length b = 0)
  then mk (mTimestamp b) (mTimestamp b +:+ s)
  else mk (mTimestamp b) (mBuffer b +:+ s).

(** Modelled from the spec: [reset()], "cleared after every successful
    send"; the stamp of the cycle stays. *)
Definition reset (b : t) : t := mk (mTimestamp b) "".

End StringBuffer.

(** ** Server and Client *)

Module Server.

(** Modelled from the spec: [server.hpp]/[client.hpp] are missing (the
    external connection collaborator).  It offers "operations to accept new
    clients, read pending inbound bytes, broadcast a buffer, and report
    current client count".  A client is its identity and the lines it has
    received so far.  What the network does is an input: the identities of
    the clients waiting to be accepted, and which clients still answer when
    they are read. *)
Record Client : Type := mkClient {
  cid : nat;
  inbox : list string
}.

(** Modelled from the spec: the server, with its "configurable listening
    port ... and heartbeat interval" and the clients connected. *)
Record t : Type := mk {
  port : Z;
  heartbeat : Z;
  clients : list Client
}.

(** Modelled from the spec: [new Server (port, heartbeat)], no client yet. *)
Definition new (aPort aHeartbeat : Z) : t := mk aPort aHeartbeat [].

(** Modelled from the spec: "accept new clients".  The result is null
    ([None]) when no client is waiting, else the array of the clients just
    accepted, as [Start] reads it. *)
Definition connectToClients (pending : list nat) (s : t)
  : option (list Client) * t :=
  match pending with
  | [] => (None, s)
  | _ :: _ =>
      let cs := map (fun i => mkClient i []) pending in
      (Some cs, mk (port s) (heartbeat s) (clients s ++ cs))
  end.

(** Modelled from the spec: "read pending inbound bytes"; "a disconnect
    must be detected and the client removed from the active set". *)
Definition readFromClients (alive : nat -> bool) (s : t) : t :=
  mk (port s) (heartbeat s) (List.filter (fun c => alive (cid c)) (clients s)).

Definition receive (msg : string) (c : Client) : Client :=
  mkClient (cid c) (inbox c ++ [msg]).

(** Modelled from the spec: "broadcast a buffer": "all connected clients
    receive an identical byte sequence for that flush". *)
Definition sendToClients (msg : string) (s : t) : t :=
  mk (port s) (heartbeat s) (map (receive msg) (clients s)).

(** Modelled from the spec: "report current client count". *)
Definition numClients (s : t) : nat := List.length (clients s).

(** Every connected client receives [msgs], in this order. *)
Definition deliver (msgs : list string) (s : t) : t :=
  mk (port s) (heartbeat s)
     (map (fun c => mkClient (cid c) (inbox c ++ msgs)) (clients s)).

End Server.

(** ** Logger *)

Module Logger.

(** [enum LogLevel] of [logger.hpp]. *)
Inductive LogLevel : Type := eDEBUG | eINFO | eWARNING | eERROR.

(** The integer of an enumerator, which [mLogLevel > eWARNING] compares. *)
Definition rank (l : LogLevel) : nat :=
  match l with
  | eDEBUG => 0
  | eINFO => 1
  | eWARNING => 2
  | eERROR => 3
  end.

(** [class Logger], with what it has written to [stderr]. *)
Record t : Type := mk {
  mLogLevel : LogLevel;
  stderr : list string
}.

(** [Logger() { mLogLevel = eINFO; }] *)
Definition new : t := mk eINFO [].

Definition setLogLevel (aLevel : LogLevel) (g : t) : t := mk aLevel (stderr g).
Definition getLogLevel (g : t) : LogLevel := mLogLevel g.

(** [LOGGER_BUFFER_SIZE], and the size of [char ts[32]]. *)
Definition LOGGER_BUFFER_SIZE : nat := 1024.
Definition TS_SIZE : nat := 32.

(** A [char] array is the list of its bytes.  The C string it holds is made
    of the bytes before the first NUL. *)
Definition NUL : ascii := Ascii.zero.

Fixpoint c_str (b : list ascii) : string :=
  match b with
  | [] => ""
  | c :: b' => if decide (c = NUL) then "" else String c (c_str b')
  end.

Fixpoint bytes (s : string) : list ascii :=
  match s with
  | EmptyString => []
  | String c s' => c :: bytes s'
  end.

(** [sprintf (aBuffer, ...)] and [vsprintf (aBuffer, ...)], for the text
    [text] the format expands to with its arguments: the bytes of the text
    and a NUL are written from the start of the buffer.  The call checks no
    length: when they do not fit it writes past the end of the array, which
    is [None]. *)
Definition sprintf (aBuffer : list ascii) (text : string)
  : option (list ascii) :=
  let out := bytes text ++ [NUL] in
  if decide (length out <= length aBuffer)
  then Some (out ++ drop (length out) aBuffer)
  else None.

(** [Logger::format]: [vsprintf], then [aBuffer[aLen - 1] = '\0']. *)
Definition format (aBuffer : list ascii) (aLen : nat) (text : string)
  : option (list ascii) :=
  match sprintf aBuffer text with
  | Some b =>
      if decide (0 < aLen <= length b)
      then Some (<[aLen - 1 := NUL]> b)
      else None
  | None => None
  end.

(** [SYSTEMTIME], whose fields are of type [WORD]. *)
Record SYSTEMTIME : Type := mkSYSTEMTIME {
  wYear : N;
  wMonth : N;
  wDay : N;
  wHour : N;
  wMinute : N;
  wSecond : N;
  wMilliseconds : N
}.

Fixpoint fill (c : ascii) (n : nat) : string :=
  match n with
  | 0 => ""
  | S n' => String c (fill c n')
  end.

(** The conversions [%4d] and [%02d], [%04d] of a [WORD]: the decimal
    digits, filled on the left with blanks or zeros up to the width. *)
Definition pad (c : ascii) (width : nat) (x : N) : string :=
  fill c (width - String.length (pretty x)) +:+ pretty x.

(** The text of ["%4d-%02d-%02dT%02d:%02d:%02d.%04dZ"] in
    [Logger::timestamp] (the branch compiled under [WIN32]). *)
Definition timestamp_text (st : SYSTEMTIME) : string :=
  pad " " 4 (wYear st) +:+ "-" +:+ pad "0" 2 (wMonth st) +:+ "-" +:+
  pad "0" 2 (wDay st) +:+ "T" +:+ pad "0" 2 (wHour st) +:+ ":" +:+
  pad "0" 2 (wMinute st) +:+ ":" +:+ pad "0" 2 (wSecond st) +:+ "." +:+
  pad "0" 4 (wMilliseconds st) +:+ "Z".

(** [Logger::timestamp]; [st] is what [GetSystemTime] returns. *)
Definition timestamp (aBuffer : list ascii) (st : SYSTEMTIME)
  : option (list ascii) :=
  sprintf aBuffer (timestamp_text st).

(** What a call finds around it: the time, and the two arrays of the frame
    of the call, not initialized. *)
Record Frame : Type := mkFrame {
  clock : SYSTEMTIME;
  ts : list ascii;
  buffer : list ascii
}.

(** [fprintf (stderr, "%s - Error: %s\n", timestamp (ts),
    format (buffer, LOGGER_BUFFER_SIZE, aFormat, args))], for the label
    between the two strings. *)
Definition print (label : string) (fr : Frame) (text : string) (g : t)
  : option t :=
  match timestamp (ts fr) (clock fr),
        format (buffer fr) LOGGER_BUFFER_SIZE text with
  | Some t', Some b' =>
      Some (mk (mLogLevel g)
              (stderr g ++
               [c_str t' +:+ " - " +:+ label +:+ ": " +:+ c_str b' +:+ LF]))
  | _, _ => None
  end.

(** [Logger::error], [Logger::warning], [Logger::info], [Logger::debug];
    [text] is the expansion of [aFormat] with the arguments. *)
Definition error (fr : Frame) (text : string) (g : t) : option t :=
  print "Error" fr text g.

Definition warning (fr : Frame) (text : string) (g : t) : option t :=
  if decide (rank eWARNING < rank (mLogLevel g)) then Some g
  else print "Warning" fr text g.

Definition info (fr : Frame) (text : string) (g : t) : option t :=
  if decide (rank eINFO < rank (mLogLevel g)) then Some g
  else print "Info" fr text g.

Definition debug (fr : Frame) (text : string) (g : t) : option t :=
  if decide (rank eDEBUG < rank (mLogLevel g)) then Some g
  else print "Debug" fr text g.

(** The method that logs at a level, and the label it prints. *)
Definition log (v : LogLevel) : Frame -> string -> t -> option t :=
  match v with
  | eDEBUG => debug
  | eINFO => info
  | eWARNING => warning
  | eERROR => error
  end.

Definition label (v : LogLevel) : string :=
  match v with
  | eDEBUG => "Debug"
  | eINFO => "Info"
  | eWARNING => "Warning"
  | eERROR => "Error"
  end.

(** The fields of a [SYSTEMTIME] that [GetSystemTime] returns: a year up to
    30827, a month, a day, an hour, a minute, a second, milliseconds. *)
Definition valid (st : SYSTEMTIME) : Prop :=
  (wYear st <= 30827 /\ wMonth st <= 12 /\ wDay st <= 31 /\
   wHour st <= 23 /\ wMinute st <= 59 /\ wSecond st <= 59 /\
   wMilliseconds st <= 999)%N.

(** A frame with arrays of the declared sizes. *)
Definition sized (fr : Frame) : Prop :=
  length (ts fr) = TS_SIZE /\ length (buffer fr) = LOGGER_BUFFER_SIZE.

End Logger.

(** A native pointer to a [DeviceDatum]: null, or the address of the object
    in the heap of the adapter. *)
Abbreviation ptr := (option nat).

Section MTConnectAdapter.

(** The C type [double], its conversion from [long] and its printing by
    [DeviceDatum::toString] are left open. *)
Variable double : Type.
Variable fmt_double : double -> string.
Variable double_of_long : Z -> double.

(** ** DeviceDatum *)

Inductive EExecutionStates : Type := eACTIVE | eINTERRUPTED.
Inductive EMode : Type := eAUTOMATIC | eMANUAL.

(** Modelled from the spec: [device_datum.hpp]/[device_datum.cpp] are
    missing.  The value of a datum: a sample is a "continuous number", an
    event a "free-text state", the enumerated states a "fixed label set"
    ("availability {AVAILABLE, UNAVAILABLE}; execution {ACTIVE,
    INTERRUPTED}; mode {MANUAL, AUTOMATIC, ...}"), and [UNAVAILABLE] is the
    "reserved sentinel distinct from every domain value". *)
Inductive Value : Type :=
  | UNAVAILABLE
  | AVAILABLE
  | SampleValue (x : double)
  | EventValue (s : string)
  | ExecutionValue (e : EExecutionStates)
  | ModeValue (m : EMode).

(** Modelled from the spec: the datum of section 3, with [name],
    [hasValue], [dirty] and [requiresOwnLine] under the names the adapter
    calls them by ([changed()], [hasInitialValue()], [requiresFlush()]). *)
Record DeviceDatum : Type := mkDatum {
  mName : string;
  mValue : Value;
  mChanged : bool;
  mHasValue : bool;
  mRequiresFlush : bool
}.

Definition changed (d : DeviceDatum) : bool := mChanged d.
Definition hasInitialValue (d : DeviceDatum) : bool := mHasValue d.
Definition requiresFlush (d : DeviceDatum) : bool := mRequiresFlush d.

(** Modelled from the spec: a datum just constructed ("created lazily ...
    on the first attempt to write"): nothing written, nothing to send. *)
Definition newDatum (aName : string) (ownLine : bool) : DeviceDatum :=
  mkDatum aName UNAVAILABLE false false ownLine.

(** Modelled from the spec: "[hasValue] becomes true on first write; never
    resets"; "[dirty] ... set on every write (including the forced
    unavailable write)". *)
Definition setValue (v : Value) (d : DeviceDatum) : DeviceDatum :=
  mkDatum (mName d) v true true (mRequiresFlush d).

(** Modelled from the spec: [Availability::available()], the write of
    AVAILABLE. *)
Definition available (d : DeviceDatum) : DeviceDatum := setValue AVAILABLE d.

(** Modelled from the spec: "[forceUnavailable()]: sets the value to a
    reserved sentinel ... and marks dirty". *)
Definition datum_unavailable (d : DeviceDatum) : DeviceDatum :=
  setValue UNAVAILABLE d.

(** Modelled from the spec: the "current serialized value", with the labels
    of the enumerated states as the spec spells them. *)
Definition valueText (v : Value) : string :=
  match v with
  | UNAVAILABLE => "UNAVAILABLE"
  | AVAILABLE => "AVAILABLE"
  | SampleValue x => fmt_double x
  | EventValue s => s
  | ExecutionValue eACTIVE => "ACTIVE"
  | ExecutionValue eINTERRUPTED => "INTERRUPTED"
  | ModeValue eAUTOMATIC => "AUTOMATIC"
  | ModeValue eMANUAL => "MANUAL"
  end.

(** Modelled from the spec: a "|-style field group ... carrying the datum's
    name and current serialized value". *)
Definition toString (d : DeviceDatum) : string :=
  "|" +:+ mName d +:+ "|" +:+ valueText (mValue d).

(** Modelled from the spec: "[serialize()] produces the wire representation
    of the current value; has the side effect of clearing [dirty]". *)
Definition sent (d : DeviceDatum) : DeviceDatum :=
  mkDatum (mName d) (mValue d) false (mHasValue d) (mRequiresFlush d).

(** ** Adapter *)

(** [ref class Adapter], with the native heap that holds the datum objects
    its pointers lead to, and what it printed. *)
Record Adapter : Type := mkAdapter {
  mServer : option Server.t;        (* Server *mServer, 0 until Start *)
  mBuffer : StringBuffer.t;
  mDeviceData : list ptr;           (* array <DeviceDatum*>, 0 terminated *)
  mNumDeviceData : nat;
  mPort : Z;
  mDisableFlush : bool;
  mHeartbeatFrequency : Z;
  heap : list DeviceDatum;          (* the DeviceDatum objects, by address *)
  console : list string             (* what printf wrote *)
}.

Definition set_mServer (s : option Server.t) (a : Adapter) : Adapter :=
  mkAdapter s (mBuffer a) (mDeviceData a) (mNumDeviceData a) (mPort a)
    (mDisableFlush a) (mHeartbeatFrequency a) (heap a) (console a).
Definition set_mBuffer (b : StringBuffer.t) (a : Adapter) : Adapter :=
  mkAdapter (mServer a) b (mDeviceData a) (mNumDeviceData a) (mPort a)
    (mDisableFlush a) (mHeartbeatFrequency a) (heap a) (console a).
Definition set_mDeviceData (l : list ptr) (a : Adapter) : Adapter :=
  mkAdapter (mServer a) (mBuffer a) l (mNumDeviceData a) (mPort a)
    (mDisableFlush a) (mHeartbeatFrequency a) (heap a) (console a).
Definition set_mNumDeviceData (n : nat) (a : Adapter) : Adapter :=
  mkAdapter (mServer a) (mBuffer a) (mDeviceData a) n (mPort a)
    (mDisableFlush a) (mHeartbeatFrequency a) (heap a) (console a).
Definition set_mDisableFlush (f : bool) (a : Adapter) : Adapter :=
  mkAdapter (mServer a) (mBuffer a) (mDeviceData a) (mNumDeviceData a)
    (mPort a) f (mHeartbeatFrequency a) (heap a) (console a).
Definition set_heap (h : list DeviceDatum) (a : Adapter) : Adapter :=
  mkAdapter (mServer a) (mBuffer a) (mDeviceData a) (mNumDeviceData a)
    (mPort a) (mDisableFlush a) (mHeartbeatFrequency a) h (console a).
Definition set_console (o : list string) (a : Adapter) : Adapter :=
  mkAdapter (mServer a) (mBuffer a) (mDeviceData a) (mNumDeviceData a)
    (mPort a) (mDisableFlush a) (mHeartbeatFrequency a) (heap a) o.

(** [Adapter::Adapter()].  The fields of a ref class start zeroed, so
    [mDisableFlush] is false; [gcnew array <DeviceDatum*> (128)] is an array
    of 128 null pointers. *)
Definition Adapter_new : Adapter :=
  mkAdapter None StringBuffer.new (replicate 128 None) 0 7878 false 10000
    [] [].

(** [mDeviceData[i]] and [mDeviceData[i] = p], bounds-checked. *)
Definition array_get (i : nat) : M Adapter ptr :=
  fun a =>
    match mDeviceData a !! i with
    | Some p => ret p a
    | None => throw IndexOutOfRangeException a
    end.

Definition array_set (i : nat) (p : ptr) : M Adapter unit :=
  fun a =>
    if decide (i < length (mDeviceData a))
    then ret tt (set_mDeviceData (<[i:=p]> (mDeviceData a)) a)
    else throw IndexOutOfRangeException a.

(** [*p] read and written. *)
Definition load (p : ptr) : M Adapter DeviceDatum :=
  fun a =>
    match p ≫= (fun i => heap a !! i) with
    | Some d => ret d a
    | None => throw NullReferenceException a
    end.

Definition update (p : ptr) (f : DeviceDatum -> DeviceDatum) : M Adapter unit :=
  d <- load p ;;
  modify (fun a => set_heap (alter f (default 0 p) (heap a)) a).

(** [new T(...)]: a fresh address. *)
Definition alloc (d : DeviceDatum) : M Adapter ptr :=
  fun a => (inr (Some (length (heap a))), set_heap (heap a ++ [d]) a).

(** [Adapter::addDatum].  The subscript [mNumDeviceData++] is evaluated,
    and the counter incremented, before the element is stored. *)
Definition addDatum (aValue : ptr) : M Adapter unit :=
  n <- gets mNumDeviceData ;;
  modify (set_mNumDeviceData (S n)) ;;
  array_set n aValue ;;
  n' <- gets mNumDeviceData ;;
  array_set n' None.

(** [Adapter::sendBuffer] *)
Definition sendBuffer : M Adapter unit :=
  fun a =>
    match mServer a with
    | Some s =>
        if decide (0 < StringBuffer.length (mBuffer a)) then
          let b := StringBuffer.append LF (mBuffer a) in
          let s' := Server.sendToClients (StringBuffer.mBuffer b) s in
          (inr tt, set_mBuffer (StringBuffer.reset b) (set_mServer (Some s') a))
        else (inr tt, a)
    | None => (inr tt, a)
    end.

(** [aValue->append] on the buffer of the adapter *)
Definition DeviceDatum_append (aValue : ptr) : M Adapter unit :=
  d <- load aValue ;;
  modify (fun a => set_mBuffer (StringBuffer.append (toString d) (mBuffer a)) a) ;;
  update aValue sent.

(** [Adapter::sendDatum] *)
Definition sendDatum (aValue : ptr) : M Adapter unit :=
  d <- load aValue ;;
  (if requiresFlush d then sendBuffer else ret tt) ;;
  DeviceDatum_append aValue ;;
  d' <- load aValue ;;
  (if requiresFlush d' then sendBuffer else ret tt).

(** [Adapter::sendInitialData]; [aClient] is not used by the body. *)
Definition sendInitialData (now : string) (aClient : Server.Client)
  : M Adapter unit :=
  modify (set_mDisableFlush true) ;;
  modify (fun a => set_mBuffer (StringBuffer.timestamp now (mBuffer a)) a) ;;
  n <- gets mNumDeviceData ;;
  for_from 0 n (fun i =>
    value <- array_get i ;;
    d <- load value ;;
    if hasInitialValue d then sendDatum value else ret tt) ;;
  sendBuffer ;;
  modify (set_mDisableFlush false).

(** [Adapter::sendChangedData] *)
Definition sendChangedData : M Adapter unit :=
  n <- gets mNumDeviceData ;;
  for_from 0 n (fun i =>
    value <- array_get i ;;
    d <- load value ;;
    if changed d then sendDatum value else ret tt) ;;
  sendBuffer.

(** [Adapter::flush] *)
Definition flush (now : string) : M Adapter unit :=
  off <- gets mDisableFlush ;;
  if off then ret tt
  else
    sendChangedData ;;
    modify (fun a => set_mBuffer (StringBuffer.reset (mBuffer a)) a) ;;
    modify (fun a => set_mBuffer (StringBuffer.timestamp now (mBuffer a)) a).

(** [Adapter::clientsDisconnected] *)
Definition clientsDisconnected : M Adapter unit :=
  modify (fun a =>
    set_console (console a ++ ["All clients have disconnected" +:+ LF]) a).

(** [Adapter::unavailable] *)
Definition unavailable (now : string) : M Adapter unit :=
  n <- gets mNumDeviceData ;;
  for_from 0 n (fun i =>
    value <- array_get i ;;
    update value datum_unavailable) ;;
  flush now.

(** What the outside world does during one call of [Start]. *)
Record Env : Type := mkEnv {
  pending : list nat;       (* clients waiting to be accepted *)
  alive : nat -> bool;      (* clients that still answer when read *)
  now : string              (* the clock *)
}.

Fixpoint for_clients (cs : list Server.Client)
    (body : Server.Client -> M Adapter unit) : M Adapter unit :=
  match cs with
  | [] => ret tt
  | c :: cs' => body c ;; for_clients cs' body
  end.

(** The server, created by [Start] when there is none yet. *)
Definition the_server (a : Adapter) : Server.t :=
  match mServer a with
  | Some s => s
  | None => Server.new (mPort a) (mHeartbeatFrequency a)
  end.

(** [Adapter::Start] *)
Definition Start (e : Env) : M Adapter unit :=
  modify (fun a => set_mServer (Some (the_server a)) a) ;;
  clients <- (fun a =>
    let '(cs, s') := Server.connectToClients (pending e) (the_server a) in
    (inr cs, set_mServer (Some s') a)) ;;
  hasClients <-
    match clients with
    | Some cs => for_clients cs (sendInitialData (now e)) ;; ret true
    | None => ret false
    end ;;
  modify (fun a =>
    set_mServer (Some (Server.readFromClients (alive e) (the_server a))) a) ;;
  n <- gets (fun a => Server.numClients (the_server a)) ;;
  if decide (0 < n) then
    modify (fun a => set_mBuffer (StringBuffer.timestamp (now e) (mBuffer a)) a)
  else if (hasClients : bool) then clientsDisconnected
  else ret tt.

(** [Adapter::Finish]; [mServer->numClients()] follows the pointer. *)
Definition Finish : M Adapter unit :=
  s <- (fun a =>
    match mServer a with
    | Some s => (inr s, a)
    | None => (inl NullReferenceException, a)
    end) ;;
  if decide (0 < Server.numClients s) then
    sendChangedData ;;
    modify (fun a => set_mBuffer (StringBuffer.reset (mBuffer a)) a)
  else ret tt.

(** ** PulseAdapter *)

(** The pointer members of [PulseAdapter], one name per member. *)
Inductive Field : Type :=
  | f_availability | f_execution | f_mode | f_programName
  | f_x | f_y | f_z | f_u | f_v | f_w | f_a | f_b | f_c
  | f_feedrate | f_spindleLoad | f_spindleSpeed
  | f_feedrateOverride | f_spindleSpeedOverride.

#[global] Instance Field_eq_dec : EqDecision Field.
Proof. solve_decision. Defined.

(** [PulseAdapter : public Adapter]: the base object and the members. *)
Record PulseAdapter : Type := mkPulseAdapter {
  base : Adapter;
  member : Field -> ptr
}.

(** [PulseAdapter::PulseAdapter()]: every member is NULL. *)
Definition PulseAdapter_new : PulseAdapter :=
  mkPulseAdapter Adapter_new (fun _ => None).

(** A method of the base class run on the derived object. *)
Definition lift {A : Type} (m : M Adapter A) : M PulseAdapter A :=
  fun pa => let '(r, a') := m (base pa) in (r, mkPulseAdapter a' (member pa)).

Definition set_member (f : Field) (p : ptr) : M PulseAdapter unit :=
  modify (fun pa =>
    mkPulseAdapter (base pa) (fun g => if decide (g = f) then p else member pa g)).

(** [if (NULL == m) { m = new T (name); addDatum ( *m ); }].  None of the
    classes built here is a condition or an alarm, the items that the spec
    names as exclusive-line. *)
Definition create (f : Field) (aName : string) : M PulseAdapter unit :=
  p <- gets (fun pa => member pa f) ;;
  match p with
  | Some _ => ret tt
  | None =>
      q <- lift (alloc (newDatum aName false)) ;;
      set_member f q ;;
      lift (addDatum q)
  end.

(** [PulseAdapter::Available::set] *)
Definition Available_set (value : bool) : M PulseAdapter unit :=
  create f_availability "avail" ;;
  p <- gets (fun pa => member pa f_availability) ;;
  if value then lift (update p available)
  else lift (update p datum_unavailable).

(** [PulseAdapter::Error::set] and [PulseAdapter::ErrorCode::set] *)
Definition Error_set (clock : string) (value : bool) : M PulseAdapter unit :=
  if value then lift (unavailable clock) else ret tt.

Definition ErrorCode_set (clock : string) (value : Z) : M PulseAdapter unit :=
  if decide (0 = value)%Z then Error_set clock false else Error_set clock true.

(** The twelve setters of a [Sample] member share one body, up to the
    member and its name:
    [if (NULL == m) {...} m->setValue (value); Available = true;]. *)
Definition Sample_set (f : Field) (aName : string) (value : double)
  : M PulseAdapter unit :=
  create f aName ;;
  p <- gets (fun pa => member pa f) ;;
  lift (update p (setValue (SampleValue value))) ;;
  Available_set true.

Definition X_set := Sample_set f_x "Xact".
Definition Y_set := Sample_set f_y "Yact".
Definition Z_set := Sample_set f_z "Zact".
Definition U_set := Sample_set f_u "Uact".
Definition V_set := Sample_set f_v "Vact".
Definition W_set := Sample_set f_w "Wact".
Definition A_set := Sample_set f_a "Apos".
Definition B_set := Sample_set f_b "Bpos".
Definition C_set := Sample_set f_c "Cpos".
Definition Feedrate_set := Sample_set f_feedrate "path_feedrate".
Definition SpindleLoad_set := Sample_set f_spindleLoad "spindle_load".
Definition SpindleSpeed_set := Sample_set f_spindleSpeed "spindle_speed".

(** The overrides take a [long], converted by [setValue (double)]. *)
Definition FeedrateOverride_set (value : Z) : M PulseAdapter unit :=
  Sample_set f_feedrateOverride "feed_ovr" (double_of_long value).
Definition SpindleSpeedOverride_set (value : Z) : M PulseAdapter unit :=
  Sample_set f_spindleSpeedOverride "SspeedOvr" (double_of_long value).

(** [PulseAdapter::Manual::set] *)
Definition Manual_set (value : bool) : M PulseAdapter unit :=
  create f_mode "mode" ;;
  p <- gets (fun pa => member pa f_mode) ;;
  (if value then lift (update p (setValue (ModeValue eMANUAL)))
   else lift (update p (setValue (ModeValue eAUTOMATIC)))) ;;
  Available_set true.

(** [PulseAdapter::Running::set] *)
Definition Running_set (value : bool) : M PulseAdapter unit :=
  create f_execution "execution" ;;
  p <- gets (fun pa => member pa f_execution) ;;
  (if value then lift (update p (setValue (ExecutionValue eACTIVE)))
   else lift (update p (setValue (ExecutionValue eINTERRUPTED)))) ;;
  Available_set true.

(** [PulseAdapter::ProgramName::set] *)
Definition ProgramName_set (value : string) : M PulseAdapter unit :=
  create f_programName "program" ;;
  p <- gets (fun pa => member pa f_programName) ;;
  lift (update p (setValue (EventValue value))) ;;
  Available_set true.

(** [Lemoine::Cnc::Position] and the two setters made of axis setters. *)
Record Position : Type := mkPosition {
  pX : double; pY : double; pZ : double;
  pU : double; pV : double; pW : double;
  pA : double; pB : double; pC : double
}.

Definition PositionXYZ_set (value : Position) : M PulseAdapter unit :=
  X_set (pX value) ;; Y_set (pY value) ;; Z_set (pZ value).

Definition Position_set (value : Position) : M PulseAdapter unit :=
  X_set (pX value) ;; Y_set (pY value) ;; Z_set (pZ value) ;;
  U_set (pU value) ;; V_set (pV value) ;; W_set (pW value) ;;
  A_set (pA value) ;; B_set (pB value) ;; C_set (pC value).

(** The write operations on the monitored channels, with their argument. *)
Inductive Write : Type :=
  | WX (value : double) | WY (value : double) | WZ (value : double)
  | WU (value : double) | WV (value : double) | WW (value : double)
  | WA (value : double) | WB (value : double) | WC (value : double)
  | WFeedrate (value : double)
  | WSpindleSpeed (value : double)
  | WSpindleLoad (value : double)
  | WFeedrateOverride (value : Z)
  | WSpindleSpeedOverride (value : Z)
  | WManual (value : bool)
  | WRunning (value : bool)
  | WProgramName (value : string).

Definition write (w : Write) : M PulseAdapter unit :=
  match w with
  | WX v => X_set v | WY v => Y_set v | WZ v => Z_set v
  | WU v => U_set v | WV v => V_set v | WW v => W_set v
  | WA v => A_set v | WB v => B_set v | WC v => C_set v
  | WFeedrate v => Feedrate_set v
  | WSpindleSpeed v => SpindleSpeed_set v
  | WSpindleLoad v => SpindleLoad_set v
  | WFeedrateOverride v => FeedrateOverride_set v
  | WSpindleSpeedOverride v => SpindleSpeedOverride_set v
  | WManual v => Manual_set v
  | WRunning v => Running_set v
  | WProgramName v => ProgramName_set v
  end.

(** The member a write goes to and the value it leaves there. *)
Definition channel (w : Write) : Field :=
  match w with
  | WX _ => f_x | WY _ => f_y | WZ _ => f_z
  | WU _ => f_u | WV _ => f_v | WW _ => f_w
  | WA _ => f_a | WB _ => f_b | WC _ => f_c
  | WFeedrate _ => f_feedrate
  | WSpindleSpeed _ => f_spindleSpeed
  | WSpindleLoad _ => f_spindleLoad
  | WFeedrateOverride _ => f_feedrateOverride
  | WSpindleSpeedOverride _ => f_spindleSpeedOverride
  | WManual _ => f_mode
  | WRunning _ => f_execution
  | WProgramName _ => f_programName
  end.

Definition written (w : Write) : Value :=
  match w with
  | WX v | WY v | WZ v | WU v | WV v | WW v | WA v | WB v | WC v
  | WFeedrate v | WSpindleSpeed v | WSpindleLoad v => SampleValue v
  | WFeedrateOverride v | WSpindleSpeedOverride v =>
      SampleValue (double_of_long v)
  | WManual v => ModeValue (if v then eMANUAL else eAUTOMATIC)
  | WRunning v => ExecutionValue (if v then eACTIVE else eINTERRUPTED)
  | WProgramName v => EventValue v
  end.

(** ** The lines on the wire *)

(** The field groups of a list of datums, one after the other. *)
Fixpoint fields (ds : list DeviceDatum) : string :=
  match ds with
  | [] => ""
  | d :: ds' => toString d +:+ fields ds'
  end.

(** One message: the stamp, the field groups, the line terminator. *)
Definition line (ts : string) (fr : list DeviceDatum) : string :=
  ts +:+ fields fr +:+ LF.

(** The text of a buffer that holds the datums [cur]. *)
Definition body (ts : string) (cur : list DeviceDatum) : string :=
  match cur with
  | [] => ""
  | _ :: _ => ts +:+ fields cur
  end.

Definition closed (cur : list DeviceDatum) : list (list DeviceDatum) :=
  match cur with
  | [] => []
  | _ :: _ => [cur]
  end.

(** The grouping of datums into messages, in the words of the spec:
    "exclusive-line datums ... always appear alone in their own message;
    all other ... datums ... may be concatenated into a single message in
    registry order".  [pack cur ds] sends [ds] after [cur] is already
    buffered: the messages completed, and the datums left in the buffer. *)
Fixpoint pack (cur ds : list DeviceDatum)
  : list (list DeviceDatum) * list DeviceDatum :=
  match ds with
  | [] => ([], cur)
  | d :: ds' =>
      if requiresFlush d
      then (closed cur ++ [d] :: (pack [] ds').1, (pack [] ds').2)
      else pack (cur ++ [d]) ds'
  end.

Definition frames (ds : list DeviceDatum) : list (list DeviceDatum) :=
  (pack [] ds).1 ++ closed (pack [] ds).2.

(** The adapter [a] after a send: its server, buffer and datum objects. *)
Definition with_send (s : Server.t) (b : StringBuffer.t)
    (h : list DeviceDatum) (a : Adapter) : Adapter :=
  set_heap h (set_mBuffer b (set_mServer (Some s) a)).

(** The datum objects after the selected ones among [ps] were serialized. *)
Definition touch (sel : DeviceDatum -> bool) (d : DeviceDatum) : DeviceDatum :=
  if sel d then sent d else d.

Fixpoint alter_all (f : DeviceDatum -> DeviceDatum) (ps : list nat)
    (h : list DeviceDatum) : list DeviceDatum :=
  match ps with
  | [] => h
  | p :: ps' => alter_all f ps' (alter f p h)
  end.

Definition mark (sel : DeviceDatum -> bool) (ps : list nat)
    (h : list DeviceDatum) : list DeviceDatum :=
  alter_all (touch sel) ps h.

(** The registry of [a] holds, in order, the addresses [ps] of the datum
    objects [ds], each registered once. *)
Definition registered (a : Adapter) (ps : list nat) (ds : list DeviceDatum)
  : Prop :=
  length ps = mNumDeviceData a /\
  (forall j p, ps !! j = Some p -> mDeviceData a !! j = Some (Some p)) /\
  NoDup ps /\
  Forall2 (fun p d => heap a !! p = Some d) ps ds.

(** ** Predicates and states used by the statements *)

(** The datums objects in [h] at the addresses [ps] are [ds]. *)
Definition stored (h : list DeviceDatum) (ps : list nat)
    (ds : list DeviceDatum) : Prop :=
  Forall2 (fun p d => h !! p = Some d) ps ds.

(** A message is complete only with a datum in it; a datum that requires its
    own line is alone in its message. *)
Definition alone_if_exclusive (fr : list DeviceDatum) : Prop :=
  fr <> [] /\
  forall d, d ∈ fr -> requiresFlush d = true -> fr = [d].

(** The messages of a full sync at time [now]. *)
Definition sync_lines (now : string) (ds : list DeviceDatum) : list string :=
  map (line now) (frames (List.filter hasInitialValue ds)).

(** The adapter after [k] full syncs in a row at time [now]. *)
Definition synced (now : string) (ps : list nat) (ds : list DeviceDatum)
    (k : nat) (s : Server.t) (a : Adapter) : Adapter :=
  match k with
  | 0 => a
  | S _ =>
      set_mDisableFlush false
        (with_send
           (Server.deliver (concat (replicate k (sync_lines now ds))) s)
           (StringBuffer.mk now "")
           (Nat.iter k (mark hasInitialValue ps) (heap a)) a)
  end.

(** The adapter after [Start]: the clients accepted, a full sync for each
    of them, the clients read, then the stamp or the hook. *)
Definition started (e : Env) (ps : list nat) (ds : list DeviceDatum)
    (a : Adapter) : Adapter :=
  let s1 := (Server.connectToClients (pending e) (the_server a)).2 in
  let a2 :=
    synced (now e) ps ds (length (pending e)) s1 (set_mServer (Some s1) a) in
  let s2 := Server.readFromClients (alive e) (the_server a2) in
  let a3 := set_mServer (Some s2) a2 in
  if decide (0 < Server.numClients s2) then
    set_mBuffer (StringBuffer.timestamp (now e) (mBuffer a3)) a3
  else
    match pending e with
    | [] => a3
    | _ :: _ =>
        set_console (console a3 ++ ["All clients have disconnected" +:+ LF]) a3
    end.

(** A message made of the stamp [ts], the field groups of some datums of
    [pool], at least one, and the line terminator. *)
Definition framed (ts : string) (pool : list DeviceDatum) (m : string) : Prop :=
  exists fr, fr <> [] /\ fr ⊆ pool /\ m = ts +:+ fields fr +:+ LF.

(** The members point to distinct datum objects of the heap, each of them
    registered. *)
Definition members_ok (pa : PulseAdapter) : Prop :=
  (forall f p, member pa f = Some p ->
     p < length (heap (base pa)) /\
     exists j, j < mNumDeviceData (base pa) /\
               mDeviceData (base pa) !! j = Some (Some p)) /\
  (forall f g p, member pa f = Some p -> member pa g = Some p -> f = g).

(** The adapter between two operations: a well-formed registry, no text in
    the buffer, [flush] not disabled. *)
Definition ready (a : Adapter) (ps : list nat) (ds : list DeviceDatum) : Prop :=
  registered a ps ds /\
  StringBuffer.mBuffer (mBuffer a) = "" /\
  mDisableFlush a = false.

(** ** The registry of a PulseAdapter *)

(** The name each setter of [PulseAdapter.cpp] gives to the datum it creates
    ([new Sample ("Xact")], [new Availability ("avail")], ...). *)
Definition field_name (f : Field) : string :=
  match f with
  | f_availability => "avail"
  | f_execution => "execution"
  | f_mode => "mode"
  | f_programName => "program"
  | f_x => "Xact" | f_y => "Yact" | f_z => "Zact"
  | f_u => "Uact" | f_v => "Vact" | f_w => "Wact"
  | f_a => "Apos" | f_b => "Bpos" | f_c => "Cpos"
  | f_feedrate => "path_feedrate"
  | f_spindleLoad => "spindle_load"
  | f_spindleSpeed => "spindle_speed"
  | f_feedrateOverride => "feed_ovr"
  | f_spindleSpeedOverride => "SspeedOvr"
  end.

Definition all_fields : list Field :=
  [f_availability; f_execution; f_mode; f_programName;
   f_x; f_y; f_z; f_u; f_v; f_w; f_a; f_b; f_c;
   f_feedrate; f_spindleLoad; f_spindleSpeed;
   f_feedrateOverride; f_spindleSpeedOverride].

(** What the setters keep true of a [PulseAdapter]: the members created so
    far are [fs], in the order of their creation; the datum of the [i]-th is
    the [i]-th object of the heap and the [i]-th entry of the registry, and
    it carries the name of its member and does not require its own line. *)
Definition pulse_inv (pa : PulseAdapter) : Prop :=
  exists fs : list Field,
    NoDup fs /\
    (forall f i, member pa f = Some i <-> fs !! i = Some f) /\
    length (heap (base pa)) = length fs /\
    mNumDeviceData (base pa) = length fs /\
    length (mDeviceData (base pa)) = 128 /\
    (forall i, i < length fs -> mDeviceData (base pa) !! i = Some (Some i)) /\
    (forall i f d,
       fs !! i = Some f -> heap (base pa) !! i = Some d ->
       mName d = field_name f /\ requiresFlush d = false).

(** The datum of member [f] holds the value [v]. *)
Definition holds (pa : PulseAdapter) (f : Field) (v : Value) : Prop :=
  exists p d,
    member pa f = Some p /\ heap (base pa) !! p = Some d /\ mValue d = v.

(** Setter calls one after the other, as [Position::set] makes them. *)
Fixpoint run_writes (ws : list Write) : M PulseAdapter unit :=
  match ws with
  | [] => ret tt
  | [w] => write w
  | w :: ws' => write w ;; run_writes ws'
  end.

(** The writes of [Position::set] and of [PositionXYZ::set]. *)
Definition position_writes (value : Position) : list Write :=
  [WX (pX value); WY (pY value); WZ (pZ value);
   WU (pU value); WV (pV value); WW (pW value);
   WA (pA value); WB (pB value); WC (pC value)].

Definition positionXYZ_writes (value : Position) : list Write :=
  [WX (pX value); WY (pY value); WZ (pZ value)].

(** [Adapter::Port::set] and [Adapter::Port::get] *)
Definition Port_set (value : Z) (a : Adapter) : Adapter :=
  mkAdapter (mServer a) (mBuffer a) (mDeviceData a) (mNumDeviceData a) value
    (mDisableFlush a) (mHeartbeatFrequency a) (heap a) (console a).

Definition Port_get (a : Adapter) : Z := mPort a.

(** Nothing was sent, buffered or printed between [a] and [a']. *)
Definition same_wire (a a' : Adapter) : Prop :=
  mServer a' = mServer a /\
  mBuffer a' = mBuffer a /\
  console a' = console a /\
  mDisableFlush a' = mDisableFlush a.

(** The body the setters of the monitored channels have in common, for the
    member [f] and the value [v] to write. *)
Definition channel_body (f : Field) (v : Value) : M PulseAdapter unit :=
  create f (field_name f) ;;
  p <- gets (fun pa => member pa f) ;;
  lift (update p (setValue v)) ;;
  Available_set true.

(** The heap [h'] has the objects of [h], each with its name and its
    own-line flag; values and the flags of change may differ. *)
Definition same_shape (h h' : list DeviceDatum) : Prop :=
  length h' = length h /\
  forall i d', h' !! i = Some d' ->
    exists d, h !! i = Some d /\ mName d' = mName d /\
              requiresFlush d' = requiresFlush d.

(** A PulseAdapter at work: the invariant of the setters, no text in the
    buffer, [flush] not disabled, and the server created by a first [Start]. *)
Definition serving (pa : PulseAdapter) : Prop :=
  pulse_inv pa /\
  StringBuffer.mBuffer (mBuffer (base pa)) = "" /\
  mDisableFlush (base pa) = false /\
  mServer (base pa) <> None.

(** The calls a driver makes on a PulseAdapter. *)
Inductive Call : Type :=
  | Call_write (w : Write)
  | Call_Position (value : Position)
  | Call_PositionXYZ (value : Position)
  | Call_Available (value : bool)
  | Call_Error (clock : string) (value : bool)
  | Call_ErrorCode (clock : string) (value : Z)
  | Call_Start (e : Env)
  | Call_Finish.

Definition call (c : Call) : M PulseAdapter unit :=
  match c with
  | Call_write w => write w
  | Call_Position v => Position_set v
  | Call_PositionXYZ v => PositionXYZ_set v
  | Call_Available v => Available_set v
  | Call_Error clock v => Error_set clock v
  | Call_ErrorCode clock v => ErrorCode_set clock v
  | Call_Start e => lift (Start e)
  | Call_Finish => lift Finish
  end.

Fixpoint run_calls (cs : list Call) : M PulseAdapter unit :=
  match cs with
  | [] => ret tt
  | c :: cs' => call c ;; run_calls cs'
  end.

(** ** Concrete adapters *)

(** A dirty program name, a clean execution state and a dirty alarm; the
    alarm requires its own line. *)
Definition d_program : DeviceDatum :=
  mkDatum "program" (EventValue "O100") true true false.
Definition d_execution : DeviceDatum :=
  mkDatum "execution" (ExecutionValue eACTIVE) false true false.
Definition d_alarm : DeviceDatum :=
  mkDatum "alarm" (EventValue "E42") true true true.

(** One client, connected in an earlier cycle. *)
Definition one_client : Server.t :=
  Server.mk 7878 10000 [Server.mkClient 1 []].

(** An adapter in the middle of its life: three datums registered. *)
Definition busy : Adapter :=
  mkAdapter (Some one_client) (StringBuffer.mk "T0" "")
    ([Some 0; Some 1; Some 2] ++ replicate 125 None) 3 7878 false 10000
    [d_program; d_execution; d_alarm] [].

(** An adapter with nothing to send: one clean datum. *)
Definition idle : Adapter :=
  mkAdapter (Some one_client) (StringBuffer.mk "T0" "")
    ([Some 0] ++ replicate 127 None) 1 7878 false 10000 [d_execution] [].

(** An adapter with 127 datums registered one by one. *)
Definition crowded : Adapter :=
  (for_from 0 127 (fun i => addDatum (Some i))
     (set_heap (replicate 127 d_execution) Adapter_new)).2.

(** What the network does in a call of [Start]: nothing; client 7 joins; the
    clients are gone. *)
Definition quiet : Env := mkEnv [] (fun _ => true) "T1".
Definition joining : Env := mkEnv [7] (fun _ => true) "T1".
Definition dropping : Env := mkEnv [] (fun _ => false) "T1".
Definition join_and_drop : Env := mkEnv [7] (fun _ => false) "T1".

(** A printing of [double] for the concrete adapters, where [double] is
    [unit]. *)
Definition show_unit (x : unit) : string := "0".
Definition unit_of_long (z : Z) : unit := tt.

(** The lines received by the clients of identity [i]. *)
Definition inbox_of (i : nat) (a : Adapter) : list (list string) :=
  map Server.inbox
    (List.filter (fun c => Nat.eqb (Server.cid c) i)
       (Server.clients (the_server a))).

(** A PulseAdapter at work: X and the running state were written, then
    client 7 joined in a first [Start]. *)
Definition at_work : PulseAdapter :=
  ((run_writes [WX (double_of_long 0); WRunning true] ;;
    lift (Start joining)) PulseAdapter_new).2.

(** An adapter like [busy] before its first [Start], and one whose server
    has no client. *)
Definition unstarted : Adapter := set_mServer None busy.
Definition deserted : Adapter :=
  set_mServer (Some (Server.new 7878 10000)) busy.

(** ** Text lemmas *)

Lemma string_app_cons (c : Ascii.ascii) (s t : string) :
  String c s +:+ t = String c (s +:+ t).
Proof. reflexivity. Qed.

Lemma string_app_nil_r (s : string) : s +:+ "" = s.
Proof. induction s as [|c s IH]; [done | by rewrite string_app_cons, IH]. Qed.

Lemma string_app_assoc (s1 s2 s3 : string) :
  (s1 +:+ s2) +:+ s3 = s1 +:+ (s2 +:+ s3).
Proof.
  induction s1 as [|c s1 IH]; [done | by rewrite !string_app_cons, IH].
Qed.

Lemma string_length_app (s1 s2 : string) :
  String.length (s1 +:+ s2) = String.length s1 + String.length s2.
Proof.
  induction s1 as [|c s1 IH]; [done | rewrite string_app_cons; simpl; by rewrite IH].
Qed.

(** ** The server *)

Lemma deliver_nil (s : Server.t) : Server.deliver [] s = s.
Proof.
  destruct s as [p hb cs]. unfold Server.deliver. simpl. f_equal.
  induction cs as [|[i box] cs IH]; simpl; [done|].
  by rewrite app_nil_r, IH.
Qed.

Lemma deliver_deliver (ms1 ms2 : list string) (s : Server.t) :
  Server.deliver ms2 (Server.deliver ms1 s) = Server.deliver (ms1 ++ ms2) s.
Proof.
  destruct s as [p hb cs]. unfold Server.deliver. simpl. f_equal.
  rewrite map_map. apply map_ext. intros c. simpl. by rewrite app_assoc.
Qed.

Lemma sendToClients_deliver (m : string) (s : Server.t) :
  Server.sendToClients m s = Server.deliver [m] s.
Proof. reflexivity. Qed.

Lemma numClients_deliver (ms : list string) (s : Server.t) :
  Server.numClients (Server.deliver ms s) = Server.numClients s.
Proof. unfold Server.numClients, Server.deliver. simpl. apply length_map. Qed.

(** ** The buffer *)

Lemma fields_app (l1 l2 : list DeviceDatum) :
  fields (l1 ++ l2) = fields l1 +:+ fields l2.
Proof.
  induction l1 as [|d l1 IH]; simpl; [done|].
  by rewrite IH, string_app_assoc.
Qed.

Lemma toString_length (d : DeviceDatum) : 0 < String.length (toString d).
Proof. unfold toString. rewrite string_app_cons. simpl. lia. Qed.

Lemma body_length (ts : string) (cur : list DeviceDatum) :
  StringBuffer.length (StringBuffer.mk ts (body ts cur)) = 0 <-> cur = [].
Proof.
  unfold StringBuffer.length. simpl. destruct cur as [|d cur]; simpl; [done|].
  rewrite !string_length_app. pose proof (toString_length d). split; [lia|done].
Qed.

Lemma append_body (ts : string) (cur : list DeviceDatum) (d : DeviceDatum) :
  StringBuffer.append (toString d) (StringBuffer.mk ts (body ts cur))
  = StringBuffer.mk ts (body ts (cur ++ [d])).
Proof.
  unfold StringBuffer.append. case_decide as H.
  - apply body_length in H as ->. simpl. by rewrite string_app_nil_r.
  - destruct cur as [|d0 cur]; [by destruct H|]. simpl. f_equal.
    rewrite fields_app. simpl.
    by rewrite string_app_nil_r, !string_app_assoc.
Qed.

Lemma sent_toString (d : DeviceDatum) : toString (sent d) = toString d.
Proof. reflexivity. Qed.

Lemma sent_clean (d : DeviceDatum) : changed d = false -> sent d = d.
Proof. destruct d. simpl. by intros ->. Qed.

(** ** The send path *)

Lemma with_send_id (a : Adapter) (s : Server.t) :
  mServer a = Some s -> with_send s (mBuffer a) (heap a) a = a.
Proof. destruct a. simpl. by intros ->. Qed.

Lemma with_send_with_send (s1 s2 : Server.t) (b1 b2 : StringBuffer.t)
    (h1 h2 : list DeviceDatum) (a : Adapter) :
  with_send s2 b2 h2 (with_send s1 b1 h1 a) = with_send s2 b2 h2 a.
Proof. reflexivity. Qed.

(** [sendBuffer] on a buffer that holds [cur]: one line when [cur] is not
    empty, nothing otherwise; the buffer is empty afterwards. *)
Lemma sendBuffer_body (a : Adapter) (s : Server.t) (ts : string)
    (cur : list DeviceDatum) :
  mServer a = Some s ->
  mBuffer a = StringBuffer.mk ts (body ts cur) ->
  sendBuffer a
  = (inr tt, with_send (Server.deliver (map (line ts) (closed cur)) s)
               (StringBuffer.mk ts "") (heap a) a).
Proof.
  intros Hs Hb. unfold sendBuffer. rewrite Hs, Hb.
  case_decide as Hlen.
  - destruct cur as [|d cur].
    { exfalso. pose proof (proj2 (body_length ts []) eq_refl). lia. }
    unfold StringBuffer.append. case_decide as H0; [lia|].
    f_equal. destruct a. simpl in *. unfold with_send. simpl.
    unfold line. simpl. by rewrite string_app_assoc.
  - assert (cur = []) as -> by (apply (body_length ts); lia).
    simpl in *. rewrite deliver_nil. f_equal.
    rewrite <- Hb. symmetry. by apply with_send_id.
Qed.

(** Without a server [sendBuffer] does nothing. *)
Lemma sendBuffer_no_server (a : Adapter) :
  mServer a = None -> sendBuffer a = (inr tt, a).
Proof. intros H. unfold sendBuffer. by rewrite H. Qed.

Lemma load_Some (a : Adapter) (p : nat) (d : DeviceDatum) :
  heap a !! p = Some d -> load (Some p) a = (inr d, a).
Proof. intros H. unfold load. simpl. by rewrite H. Qed.

(** [sendDatum] on the datum [d] at address [p], with [cur] buffered. *)
Lemma sendDatum_body (a : Adapter) (s : Server.t) (ts : string)
    (cur : list DeviceDatum) (p : nat) (d : DeviceDatum) :
  mServer a = Some s ->
  mBuffer a = StringBuffer.mk ts (body ts cur) ->
  heap a !! p = Some d ->
  sendDatum (Some p) a
  = (inr tt,
     with_send (Server.deliver (map (line ts) (pack cur [d]).1) s)
       (StringBuffer.mk ts (body ts (pack cur [d]).2))
       (alter sent p (heap a)) a).
Proof.
  intros Hs Hb Hd.
  assert (Hd' : alter sent p (heap a) !! p = Some (sent d)).
  { by rewrite list_lookup_alter_eq, Hd. }
  unfold sendDatum, bind at 1. rewrite (load_Some _ _ _ Hd).
  simpl pack. destruct (requiresFlush d) eqn:Hfl.
  - unfold bind at 1. rewrite (sendBuffer_body a s ts cur Hs Hb).
    unfold DeviceDatum_append, update, bind, modify, load. simpl.
    rewrite Hd. simpl. rewrite Hd. simpl. rewrite Hd'. simpl.
    unfold requiresFlush in *. simpl. rewrite Hfl.
    change (StringBuffer.mk ts "") with (StringBuffer.mk ts (body ts [])).
    rewrite append_body.
    match goal with |- sendBuffer ?x = _ =>
      rewrite (sendBuffer_body x (Server.deliver (map (line ts) (closed cur)) s)
                 ts ([] ++ [d]) eq_refl eq_refl) end.
    simpl. rewrite deliver_deliver, map_app. reflexivity.
  - unfold bind, ret, DeviceDatum_append, update, bind, modify, load. simpl.
    rewrite Hd. simpl. rewrite Hd. simpl. rewrite Hd'. simpl.
    unfold requiresFlush in *. simpl. rewrite Hfl.
    rewrite Hb, append_body, deliver_nil. f_equal.
    destruct a. simpl in *. unfold with_send. simpl. by subst.
Qed.

(** ** The grouping into messages *)

Lemma pack_cons (cur : list DeviceDatum) (d : DeviceDatum)
    (l : list DeviceDatum) :
  pack cur (d :: l)
  = ((pack cur [d]).1 ++ (pack (pack cur [d]).2 l).1,
     (pack (pack cur [d]).2 l).2).
Proof.
  simpl. destruct (requiresFlush d); simpl.
  - by rewrite <- app_assoc.
  - by destruct (pack (cur ++ [d]) l).
Qed.

Lemma stored_alter_fresh (f : DeviceDatum -> DeviceDatum)
    (h : list DeviceDatum) (p : nat) (ps : list nat) (ds : list DeviceDatum) :
  p ∉ ps -> stored h ps ds -> stored (alter f p h) ps ds.
Proof.
  intros Hp Hst. induction Hst as [|q d ps ds Hq Hst IH]; [constructor|].
  apply not_elem_of_cons in Hp as [Hne Hp]. constructor; [|by apply IH].
  by rewrite list_lookup_alter_ne.
Qed.

Lemma bind_eq {St A B : Type} (m : M St A) (k : A -> M St B) (a a' : St)
    (x : A) :
  m a = (inr x, a') -> bind m k a = k x a'.
Proof. intros H. unfold bind. by rewrite H. Qed.

Lemma bind_throws {St A B : Type} (m : M St A) (k : A -> M St B) (a a' : St)
    (e : Exn) :
  m a = (inl e, a') -> bind m k a = (inl e, a').
Proof. intros H. unfold bind. by rewrite H. Qed.

Lemma array_get_Some (a : Adapter) (i : nat) (p : ptr) :
  mDeviceData a !! i = Some p -> array_get i a = (inr p, a).
Proof. intros H. unfold array_get. by rewrite H. Qed.

(** One turn of the loop of [sendInitialData] or [sendChangedData]. *)
Lemma send_turn (sel : DeviceDatum -> bool) (a : Adapter) (i p : nat)
    (d : DeviceDatum) :
  mDeviceData a !! i = Some (Some p) ->
  heap a !! p = Some d ->
  (value <- array_get i ;;
   d <- load value ;;
   if sel d then sendDatum value else ret tt) a
  = if sel d then sendDatum (Some p) a else (inr tt, a).
Proof.
  intros Hi Hd.
  rewrite (bind_eq _ _ _ _ _ (array_get_Some _ _ _ Hi)).
  rewrite (bind_eq _ _ _ _ _ (load_Some _ _ _ Hd)).
  by destruct (sel d).
Qed.

Lemma alter_touch_skip (sel : DeviceDatum -> bool) (h : list DeviceDatum)
    (p : nat) (d : DeviceDatum) :
  h !! p = Some d -> sel d = false -> alter (touch sel) p h = h.
Proof.
  intros Hd Hsel. apply list_eq. intros j. rewrite list_lookup_alter.
  case_decide as Hj; [subst j|done]. rewrite Hd. simpl.
  unfold touch. by rewrite Hsel.
Qed.

Lemma alter_touch_hit (sel : DeviceDatum -> bool) (h : list DeviceDatum)
    (p : nat) (d : DeviceDatum) :
  h !! p = Some d -> sel d = true -> alter (touch sel) p h = alter sent p h.
Proof.
  intros Hd Hsel. apply list_alter_ext; [|done]. intros x Hx.
  rewrite Hd in Hx. injection Hx as <-. unfold touch. by rewrite Hsel.
Qed.

(** The loop of [sendInitialData] and of [sendChangedData], for the test
    [sel] of the loop ([hasInitialValue] or [changed]): started at index [i]
    with [cur] in the buffer, over the registered addresses [ps]. *)
Lemma send_loop (sel : DeviceDatum -> bool) (ps : list nat) :
  forall (ds : list DeviceDatum) (i : nat) (a : Adapter) (s : Server.t)
         (ts : string) (cur : list DeviceDatum),
    NoDup ps ->
    stored (heap a) ps ds ->
    (forall j p, ps !! j = Some p -> mDeviceData a !! (i + j) = Some (Some p)) ->
    mServer a = Some s ->
    mBuffer a = StringBuffer.mk ts (body ts cur) ->
    for_from i (length ps) (fun i =>
      value <- array_get i ;;
      d <- load value ;;
      if sel d then sendDatum value else ret tt) a
    = (inr tt,
       with_send
         (Server.deliver (map (line ts) (pack cur (List.filter sel ds)).1) s)
         (StringBuffer.mk ts (body ts (pack cur (List.filter sel ds)).2))
         (mark sel ps (heap a)) a).
Proof.
  unfold mark.
  induction ps as [|p ps IH]; intros ds i a s ts cur Hnd Hst Hslots Hs Hb.
  - inversion Hst; subst. simpl. rewrite deliver_nil, <- Hb.
    unfold ret. f_equal. symmetry. by apply with_send_id.
  - inversion Hst as [|? d ? ds' Hd Hst']; subst.
    apply NoDup_cons in Hnd as [Hp Hnd].
    pose proof (Hslots 0 p eq_refl) as H0. rewrite Nat.add_0_r in H0.
    assert (Hnext : forall j q, ps !! j = Some q ->
              mDeviceData a !! (S i + j) = Some (Some q)).
    { intros j q Hq. simpl. rewrite <- Nat.add_succ_r. by apply Hslots. }
    simpl for_from. simpl List.filter. simpl alter_all.
    unfold bind at 1. rewrite (send_turn sel a i p d H0 Hd).
    destruct (sel d) eqn:Hsel.
    + rewrite (sendDatum_body a s ts cur p d Hs Hb Hd).
      rewrite (alter_touch_hit sel _ _ _ Hd Hsel).
      erewrite (IH ds'); [| done | | exact Hnext | reflexivity | reflexivity ].
      * rewrite with_send_with_send, deliver_deliver, <- map_app.
        by rewrite (pack_cons cur d (List.filter sel ds')).
      * by apply stored_alter_fresh.
    + rewrite (alter_touch_skip sel _ _ _ Hd Hsel).
      by apply IH.
Qed.

Lemma concat_closed (cur : list DeviceDatum) : concat (closed cur) = cur.
Proof. destruct cur; simpl; by rewrite ?app_nil_r. Qed.

Lemma pack_concat (ds cur : list DeviceDatum) :
  concat (pack cur ds).1 ++ (pack cur ds).2 = cur ++ ds.
Proof.
  revert cur. induction ds as [|d ds IH]; intros cur; simpl.
  - by rewrite app_nil_r.
  - destruct (requiresFlush d); simpl.
    + rewrite concat_app. simpl. rewrite <- !app_assoc. simpl.
      by rewrite (IH []), concat_closed.
    + by rewrite IH, <- app_assoc.
Qed.

(** Every datum is sent once, in order. *)
Lemma frames_concat (ds : list DeviceDatum) : concat (frames ds) = ds.
Proof.
  unfold frames. rewrite concat_app, concat_closed.
  apply (pack_concat ds []).
Qed.

Lemma closed_alone (cur : list DeviceDatum) :
  Forall (fun d => requiresFlush d = false) cur ->
  Forall alone_if_exclusive (closed cur).
Proof.
  intros H. destruct cur as [|d cur]; simpl; [constructor|].
  repeat constructor; [done|]. intros x Hx Hfl.
  rewrite Forall_forall in H. specialize (H x Hx). congruence.
Qed.

Lemma pack_alone (ds cur : list DeviceDatum) :
  Forall (fun d => requiresFlush d = false) cur ->
  Forall alone_if_exclusive (pack cur ds).1 /\
  Forall (fun d => requiresFlush d = false) (pack cur ds).2.
Proof.
  revert cur. induction ds as [|d ds IH]; intros cur Hcur; simpl.
  - by split; [constructor|].
  - destruct (requiresFlush d) eqn:Hfl; simpl.
    + destruct (IH [] (Forall_nil_2 _)) as [H1 H2]. split; [|done].
      apply Forall_app. split; [by apply closed_alone|].
      constructor; [|done]. split; [done|].
      by intros x ->%list_elem_of_singleton _.
    + apply IH. apply Forall_app. split; [done|]. by constructor.
Qed.

Lemma frames_alone (ds : list DeviceDatum) :
  Forall alone_if_exclusive (frames ds).
Proof.
  destruct (pack_alone ds [] (Forall_nil_2 _)) as [H1 H2].
  unfold frames. apply Forall_app. split; [done|]. by apply closed_alone.
Qed.

Lemma pack_batch (ds cur : list DeviceDatum) :
  Forall (fun d => requiresFlush d = false) ds ->
  pack cur ds = ([], cur ++ ds).
Proof.
  revert cur. induction ds as [|d ds IH]; intros cur Hds; simpl.
  - by rewrite app_nil_r.
  - apply Forall_cons in Hds as [-> Hds]. by rewrite IH, <- app_assoc.
Qed.

(** Without a datum that requires its own line, there is one message. *)
Lemma frames_batch (ds : list DeviceDatum) :
  Forall (fun d => requiresFlush d = false) ds -> frames ds = closed ds.
Proof. intros H. unfold frames. by rewrite pack_batch. Qed.

(** ** The datum objects after a send *)

Lemma alter_all_fresh (f : DeviceDatum -> DeviceDatum) (ps : list nat) :
  forall (h : list DeviceDatum) (q : nat),
    q ∉ ps -> alter_all f ps h !! q = h !! q.
Proof.
  induction ps as [|p ps IH]; intros h q Hq; simpl; [done|].
  apply not_elem_of_cons in Hq as [Hne Hq].
  rewrite IH by done. by rewrite list_lookup_alter_ne.
Qed.

Lemma stored_alter_all (f : DeviceDatum -> DeviceDatum) (ps : list nat) :
  forall (h : list DeviceDatum) (ds : list DeviceDatum),
    NoDup ps -> stored h ps ds ->
    stored (alter_all f ps h) ps (map f ds).
Proof.
  induction ps as [|p ps IH]; intros h ds Hnd Hst.
  - inversion Hst. constructor.
  - inversion Hst as [|? d ? ds' Hd Hst']; subst.
    apply NoDup_cons in Hnd as [Hp Hnd]. simpl. constructor.
    + rewrite alter_all_fresh by done. by rewrite list_lookup_alter_eq, Hd.
    + apply IH; [done|]. by apply stored_alter_fresh.
Qed.

Lemma registered_with_send (a : Adapter) (ps : list nat)
    (ds ds' : list DeviceDatum) (s : Server.t) (b : StringBuffer.t)
    (h : list DeviceDatum) :
  registered a ps ds -> stored h ps ds' ->
  registered (with_send s b h a) ps ds'.
Proof. intros (Hn & Hsl & Hnd & _) Hst. by repeat split. Qed.

(** ** The operations of the adapter *)

(** The loop and the last [sendBuffer] of [sendChangedData] (and of
    [sendInitialData]), from an empty buffer. *)
Lemma send_all (sel : DeviceDatum -> bool) (a : Adapter) (s : Server.t)
    (ps : list nat) (ds : list DeviceDatum) (ts : string) :
  registered a ps ds ->
  mServer a = Some s ->
  mBuffer a = StringBuffer.mk ts "" ->
  (for_from 0 (mNumDeviceData a) (fun i =>
     value <- array_get i ;;
     d <- load value ;;
     if sel d then sendDatum value else ret tt) ;;
   sendBuffer) a
  = (inr tt,
     with_send (Server.deliver (map (line ts) (frames (List.filter sel ds))) s)
       (StringBuffer.mk ts "") (mark sel ps (heap a)) a).
Proof.
  intros (Hn & Hsl & Hnd & Hst) Hs Hb. rewrite <- Hn.
  erewrite bind_eq; [|by apply (send_loop sel ps ds 0 a s ts [])].
  erewrite sendBuffer_body; [|reflexivity|reflexivity].
  rewrite with_send_with_send, deliver_deliver, <- map_app. reflexivity.
Qed.

Lemma sendChangedData_body (a : Adapter) (s : Server.t) (ps : list nat)
    (ds : list DeviceDatum) (ts : string) :
  registered a ps ds ->
  mServer a = Some s ->
  mBuffer a = StringBuffer.mk ts "" ->
  sendChangedData a
  = (inr tt,
     with_send
       (Server.deliver (map (line ts) (frames (List.filter changed ds))) s)
       (StringBuffer.mk ts "") (mark changed ps (heap a)) a).
Proof. intros Hr Hs Hb. by apply (send_all changed). Qed.

Lemma sendInitialData_body (a : Adapter) (s : Server.t) (ps : list nat)
    (ds : list DeviceDatum) (ts now : string) (c : Server.Client) :
  registered a ps ds ->
  mServer a = Some s ->
  mBuffer a = StringBuffer.mk ts "" ->
  sendInitialData now c a
  = (inr tt,
     set_mDisableFlush false
       (with_send (Server.deliver (sync_lines now ds) s)
          (StringBuffer.mk now "") (mark hasInitialValue ps (heap a)) a)).
Proof.
  intros Hr Hs Hb. unfold sendInitialData.
  unfold bind at 1, modify at 1. unfold bind at 1, modify at 1.
  unfold bind at 1, gets at 1.
  match goal with |- bind _ _ ?x = _ => set (a1 := x) end.
  assert (Hr1 : registered a1 ps ds) by (destruct Hr as (?&?&?&?); by repeat split).
  assert (Hb1 : mBuffer a1 = StringBuffer.mk now "").
  { subst a1. simpl. by rewrite Hb. }
  assert (Hs1 : mServer a1 = Some s) by done.
  destruct Hr1 as (Hn & Hsl & Hnd & Hst).
  change (mNumDeviceData (set_mBuffer
    (StringBuffer.timestamp now (mBuffer (set_mDisableFlush true a)))
    (set_mDisableFlush true a))) with (mNumDeviceData a1).
  rewrite <- Hn.
  erewrite bind_eq; [|by apply (send_loop hasInitialValue ps ds 0 a1 s now [])].
  erewrite bind_eq; [|by apply sendBuffer_body].
  unfold modify. rewrite with_send_with_send, deliver_deliver, <- map_app.
  reflexivity.
Qed.

(** Serializing a datum changes neither its text nor the tests on it. *)
Lemma fields_touch (sel : DeviceDatum -> bool) (fr : list DeviceDatum) :
  fields (map (touch sel) fr) = fields fr.
Proof.
  induction fr as [|d fr IH]; simpl; [done|]. rewrite IH. f_equal.
  unfold touch. by destruct (sel d).
Qed.

Lemma closed_map (f : DeviceDatum -> DeviceDatum) (cur : list DeviceDatum) :
  closed (map f cur) = map (map f) (closed cur).
Proof. by destruct cur. Qed.

Lemma pack_touch (sel : DeviceDatum -> bool) (ds cur : list DeviceDatum) :
  pack (map (touch sel) cur) (map (touch sel) ds)
  = (map (map (touch sel)) (pack cur ds).1, map (touch sel) (pack cur ds).2).
Proof.
  revert cur. induction ds as [|d ds IH]; intros cur; simpl; [done|].
  replace (requiresFlush (touch sel d)) with (requiresFlush d)
    by (unfold touch; by destruct (sel d)).
  destruct (requiresFlush d); simpl.
  - pose proof (IH []) as H. simpl in H. rewrite H. simpl.
    by rewrite map_app, closed_map.
  - rewrite <- IH. by rewrite map_app.
Qed.

Lemma frames_touch (sel : DeviceDatum -> bool) (ds : list DeviceDatum) :
  frames (map (touch sel) ds) = map (map (touch sel)) (frames ds).
Proof.
  unfold frames. pose proof (pack_touch sel ds []) as H. simpl in H.
  rewrite H. simpl. by rewrite map_app, closed_map.
Qed.

Lemma filter_touch (sel : DeviceDatum -> bool) (ds : list DeviceDatum) :
  List.filter hasInitialValue (map (touch sel) ds)
  = map (touch sel) (List.filter hasInitialValue ds).
Proof.
  induction ds as [|d ds IH]; simpl; [done|].
  replace (hasInitialValue (touch sel d)) with (hasInitialValue d)
    by (unfold touch; by destruct (sel d)).
  destruct (hasInitialValue d); simpl; by rewrite IH.
Qed.

Lemma sync_lines_touch (sel : DeviceDatum -> bool) (now : string)
    (ds : list DeviceDatum) :
  sync_lines now (map (touch sel) ds) = sync_lines now ds.
Proof.
  unfold sync_lines. rewrite filter_touch, frames_touch, map_map.
  apply map_ext. intros fr. unfold line. by rewrite fields_touch.
Qed.

Lemma stored_iter_mark (sel : DeviceDatum -> bool) (ps : list nat)
    (k : nat) (h : list DeviceDatum) (ds : list DeviceDatum) :
  NoDup ps -> stored h ps ds ->
  stored (Nat.iter k (mark sel ps) h) ps (Nat.iter k (map (touch sel)) ds).
Proof.
  intros Hnd Hst. induction k as [|k IH]; simpl; [done|].
  by apply stored_alter_all.
Qed.

Lemma for_clients_sync (now : string) (ps : list nat) (cs : list Server.Client) :
  forall (ds : list DeviceDatum) (a : Adapter) (s : Server.t) (ts : string),
    registered a ps ds ->
    mServer a = Some s ->
    mBuffer a = StringBuffer.mk ts "" ->
    for_clients cs (sendInitialData now) a
    = (inr tt, synced now ps ds (length cs) s a).
Proof.
  induction cs as [|c cs IH]; intros ds a s ts Hr Hs Hb; [done|].
  simpl for_clients.
  erewrite bind_eq; [|by eapply sendInitialData_body].
  erewrite IH; [| | reflexivity | reflexivity ]; cycle 1.
  { apply (registered_with_send _ _ ds); [by destruct Hr as (?&?&?&?)|].
    destruct Hr as (?&?&?&?). by apply stored_alter_all. }
  f_equal. destruct cs as [|c' cs]; simpl length.
  - simpl. by rewrite app_nil_r.
  - unfold synced. rewrite sync_lines_touch.
    change (set_mDisableFlush false (with_send ?s1 ?b1 ?h1
              (set_mDisableFlush false (with_send ?s0 ?b0 ?h0 a))))
      with (set_mDisableFlush false (with_send s1 b1 h1 a)).
    rewrite deliver_deliver. simpl heap.
    rewrite <- (Nat.iter_succ_r (S (length cs))). reflexivity.
Qed.

Lemma the_server_set (s : Server.t) (a : Adapter) :
  the_server (set_mServer (Some s) a) = s.
Proof. reflexivity. Qed.

Lemma Start_body (e : Env) (a : Adapter) (ps : list nat)
    (ds : list DeviceDatum) (ts : string) :
  registered a ps ds ->
  mBuffer a = StringBuffer.mk ts "" ->
  Start e a = (inr tt, started e ps ds a).
Proof.
  intros Hr Hb. unfold Start, started.
  unfold bind at 1, modify at 1. unfold bind at 1.
  destruct (pending e) as [|c0 cs0] eqn:Hp.
  - simpl. unfold bind, modify, gets, ret, clientsDisconnected. simpl.
    rewrite !the_server_set. by case_decide.
  - set (s1 := (Server.connectToClients (c0 :: cs0) (the_server a)).2).
    assert (Hc : Server.connectToClients (c0 :: cs0) (the_server a)
                 = (Some (map (fun i => Server.mkClient i []) (c0 :: cs0)), s1))
      by reflexivity.
    rewrite the_server_set, Hc. cbv iota beta.
    unfold bind at 1. unfold bind at 1.
    erewrite for_clients_sync; [| | reflexivity | exact Hb]; cycle 1.
    { destruct Hr as (?&?&?&?). by repeat split. }
    rewrite length_map. unfold ret at 1.
    unfold bind at 1, modify at 1. unfold bind at 1, gets at 1.
    rewrite !the_server_set.
    change (set_mServer (Some s1) (set_mServer (Some (the_server a)) a))
      with (set_mServer (Some s1) a).
    case_decide; reflexivity.
Qed.

Lemma Finish_body (a : Adapter) (s : Server.t) (ps : list nat)
    (ds : list DeviceDatum) (ts : string) :
  registered a ps ds ->
  mServer a = Some s ->
  mBuffer a = StringBuffer.mk ts "" ->
  Finish a
  = (inr tt,
     if decide (0 < Server.numClients s) then
       with_send
         (Server.deliver (map (line ts) (frames (List.filter changed ds))) s)
         (StringBuffer.mk ts "") (mark changed ps (heap a)) a
     else a).
Proof.
  intros Hr Hs Hb. unfold Finish. unfold bind at 1. rewrite Hs.
  case_decide; [|done].
  erewrite bind_eq; [|by eapply sendChangedData_body].
  reflexivity.
Qed.

Lemma update_Some (a : Adapter) (p : nat) (d : DeviceDatum)
    (f : DeviceDatum -> DeviceDatum) :
  heap a !! p = Some d ->
  update (Some p) f a = (inr tt, set_heap (alter f p (heap a)) a).
Proof.
  intros Hd. unfold update.
  by rewrite (bind_eq _ _ _ _ _ (load_Some _ _ _ Hd)).
Qed.

(** The first loop of [unavailable]. *)
Lemma unavailable_loop (ps : list nat) :
  forall (ds : list DeviceDatum) (i : nat) (a : Adapter),
    NoDup ps ->
    stored (heap a) ps ds ->
    (forall j p, ps !! j = Some p -> mDeviceData a !! (i + j) = Some (Some p)) ->
    for_from i (length ps) (fun i =>
      value <- array_get i ;;
      update value datum_unavailable) a
    = (inr tt, set_heap (alter_all datum_unavailable ps (heap a)) a).
Proof.
  induction ps as [|p ps IH]; intros ds i a Hnd Hst Hslots.
  - simpl. unfold ret. by destruct a.
  - inversion Hst as [|? d ? ds' Hd Hst']; subst.
    apply NoDup_cons in Hnd as [Hp Hnd].
    pose proof (Hslots 0 p eq_refl) as H0. rewrite Nat.add_0_r in H0.
    simpl for_from. unfold bind at 1.
    rewrite (bind_eq _ _ _ _ _ (array_get_Some _ _ _ H0)).
    rewrite (update_Some _ _ _ _ Hd).
    erewrite (IH ds'); [reflexivity | done | |].
    + by apply stored_alter_fresh.
    + intros j q Hq. simpl. rewrite <- Nat.add_succ_r. by apply Hslots.
Qed.

Lemma filter_changed_unavailable (ds : list DeviceDatum) :
  List.filter changed (map datum_unavailable ds) = map datum_unavailable ds.
Proof. induction ds as [|d ds IH]; simpl; by rewrite ?IH. Qed.

Lemma unavailable_body (now : string) (a : Adapter) (s : Server.t)
    (ps : list nat) (ds : list DeviceDatum) (ts : string) :
  registered a ps ds ->
  mServer a = Some s ->
  mDisableFlush a = false ->
  mBuffer a = StringBuffer.mk ts "" ->
  unavailable now a
  = (inr tt,
     with_send
       (Server.deliver (map (line ts) (frames (map datum_unavailable ds))) s)
       (StringBuffer.mk now "")
       (mark changed ps (alter_all datum_unavailable ps (heap a))) a).
Proof.
  intros Hr Hs Hoff Hb. pose proof Hr as (Hn & Hsl & Hnd & Hst).
  unfold unavailable. unfold bind at 1, gets at 1. rewrite <- Hn.
  erewrite bind_eq; [|by apply (unavailable_loop ps ds 0 a)].
  unfold flush. unfold bind at 1, gets at 1.
  change (mDisableFlush (set_heap ?h a)) with (mDisableFlush a).
  rewrite Hoff.
  erewrite bind_eq; cycle 1.
  { eapply (sendChangedData_body _ s ps (map datum_unavailable ds) ts);
      [|done|done].
    repeat split; [done..|]. by apply stored_alter_all. }
  rewrite filter_changed_unavailable. reflexivity.
Qed.

Lemma mark_none (sel : DeviceDatum -> bool) (ps : list nat) :
  forall (h : list DeviceDatum) (ds : list DeviceDatum),
    stored h ps ds -> Forall (fun d => sel d = false) ds -> mark sel ps h = h.
Proof.
  unfold mark. induction ps as [|p ps IH]; intros h ds Hst Hds; [done|].
  inversion Hst as [|? d ? ds' Hd Hst']; subst.
  apply Forall_cons in Hds as [Hsel Hds]. simpl.
  rewrite (alter_touch_skip sel _ _ _ Hd Hsel). by apply (IH h ds').
Qed.

Lemma filter_none (sel : DeviceDatum -> bool) (ds : list DeviceDatum) :
  Forall (fun d => sel d = false) ds -> List.filter sel ds = [].
Proof.
  induction 1 as [|d ds Hd _ IH]; simpl; [done|]. by rewrite Hd.
Qed.

Lemma touch_changed (d : DeviceDatum) : touch changed d = sent d.
Proof.
  unfold touch. destruct (changed d) eqn:H; [done|]. by rewrite sent_clean.
Qed.

Lemma map_touch_changed (ds : list DeviceDatum) :
  map (touch changed) ds = map sent ds.
Proof. apply map_ext, touch_changed. Qed.

(** With nothing dirty and an empty buffer, [Finish] changes nothing. *)
Lemma Finish_clean (a : Adapter) (s : Server.t) (ps : list nat)
    (ds : list DeviceDatum) (ts : string) :
  registered a ps ds ->
  mServer a = Some s ->
  mBuffer a = StringBuffer.mk ts "" ->
  Forall (fun d => changed d = false) ds ->
  Finish a = (inr tt, a).
Proof.
  intros Hr Hs Hb Hds. rewrite (Finish_body a s ps ds ts Hr Hs Hb).
  case_decide; [|done]. f_equal.
  rewrite (filter_none _ _ Hds). simpl. rewrite deliver_nil.
  destruct Hr as (_ & _ & _ & Hst). rewrite (mark_none _ _ _ _ Hst Hds).
  rewrite <- Hb. by apply with_send_id.
Qed.

(** C2.  [Finish] (endCycle) with a client connected serializes and
    transmits exactly the dirty datums, in registration order: the lines sent
    are the groups [frames] of the dirty datums of the registry, whose
    concatenation is the list of dirty datums itself, and every datum is left
    clean.  With no client connected [Finish] does nothing: the adapter, and
    so the dirty state of its datums, is unchanged. *)
Theorem Finish_sends_changed (a : Adapter) (s : Server.t) (ps : list nat)
    (ds : list DeviceDatum) (ts : string) :
  registered a ps ds ->
  mServer a = Some s ->
  mBuffer a = StringBuffer.mk ts "" ->
  (0 < Server.numClients s ->
   exists a',
     Finish a = (inr tt, a') /\
     mServer a'
     = Some (Server.deliver
               (map (line ts) (frames (List.filter changed ds))) s) /\
     concat (frames (List.filter changed ds)) = List.filter changed ds /\
     registered a' ps (map sent ds)) /\
  (Server.numClients s = 0 -> Finish a = (inr tt, a)).
Proof.
  intros Hr Hs Hb. rewrite (Finish_body a s ps ds ts Hr Hs Hb). split.
  - intros Hn. case_decide; [|done]. eexists. split; [reflexivity|].
    split; [done|]. split; [apply frames_concat|].
    rewrite <- map_touch_changed.
    apply (registered_with_send _ _ ds); [done|].
    destruct Hr as (_ & _ & Hnd & Hst). by apply stored_alter_all.
  - intros Hn. case_decide; [lia|done].
Qed.

(** C9.  Two calls of [Finish] in a row with a client connected: the first
    sends the changed data, the second leaves the adapter as it is, so it
    sends nothing. *)
Theorem Finish_twice (a : Adapter) (s : Server.t) (ps : list nat)
    (ds : list DeviceDatum) (ts : string) :
  registered a ps ds ->
  mServer a = Some s ->
  mBuffer a = StringBuffer.mk ts "" ->
  0 < Server.numClients s ->
  exists a1,
    Finish a = (inr tt, a1) /\
    mServer a1
    = Some (Server.deliver
              (map (line ts) (frames (List.filter changed ds))) s) /\
    Finish a1 = (inr tt, a1).
Proof.
  intros Hr Hs Hb Hn. pose proof (Finish_body a s ps ds ts Hr Hs Hb) as HF.
  case_decide; [|lia]. eexists. split; [exact HF|]. split; [done|].
  eapply (Finish_clean _ _ ps (map sent ds) ts); [|reflexivity|reflexivity|].
  - rewrite <- map_touch_changed.
    apply (registered_with_send _ _ ds); [done|].
    destruct Hr as (_ & _ & Hnd & Hst). by apply stored_alter_all.
  - apply Forall_map. by apply Forall_true.
Qed.

(** ** The adapter after [Start] *)

Lemma synced_server (now : string) (ps : list nat) (ds : list DeviceDatum)
    (k : nat) (s : Server.t) (a : Adapter) :
  the_server (synced now ps ds k s (set_mServer (Some s) a))
  = Server.deliver (concat (replicate k (sync_lines now ds))) s.
Proof. destruct k; simpl; [by rewrite deliver_nil|done]. Qed.

Lemma synced_buffer (now ts : string) (ps : list nat) (ds : list DeviceDatum)
    (k : nat) (s : Server.t) (a : Adapter) :
  mBuffer a = StringBuffer.mk ts "" ->
  StringBuffer.timestamp now (mBuffer (synced now ps ds k s a))
  = StringBuffer.mk now "".
Proof. intros Hb. destruct k; simpl; [by rewrite Hb|done]. Qed.

Lemma started_server (e : Env) (ps : list nat) (ds : list DeviceDatum)
    (a : Adapter) :
  mServer (started e ps ds a)
  = Some (Server.readFromClients (alive e)
            (Server.deliver
               (concat (replicate (length (pending e)) (sync_lines (now e) ds)))
               (Server.connectToClients (pending e) (the_server a)).2)).
Proof.
  unfold started. rewrite synced_server.
  case_decide; [done|]. by destruct (pending e).
Qed.

Lemma started_buffer (e : Env) (ps : list nat) (ds : list DeviceDatum)
    (a : Adapter) (ts : string) :
  mBuffer a = StringBuffer.mk ts "" ->
  0 < Server.numClients (the_server (started e ps ds a)) ->
  mBuffer (started e ps ds a) = StringBuffer.mk (now e) "".
Proof.
  intros Hb. unfold the_server. rewrite started_server.
  unfold started. rewrite synced_server. intros Hn.
  case_decide; [|done]. simpl. by apply (synced_buffer _ ts).
Qed.

(** C10, as amended.  In a cycle with a client connected at [Start] and no
    datum dirty at [Finish], nothing is transmitted: [Start] records the
    stamp beside the text of the buffer, which stays empty, and [Finish]
    leaves the adapter, the inbox of every client included, as it is. *)
Theorem Finish_idle_cycle_sends_nothing (e : Env) (a a1 : Adapter)
    (ps : list nat) (ds ds1 : list DeviceDatum) (ts : string) :
  registered a ps ds ->
  mBuffer a = StringBuffer.mk ts "" ->
  Start e a = (inr tt, a1) ->
  0 < Server.numClients (the_server a1) ->
  registered a1 ps ds1 ->
  Forall (fun d => changed d = false) ds1 ->
  mBuffer a1 = StringBuffer.mk (now e) "" /\
  StringBuffer.length (mBuffer a1) = 0 /\
  Finish a1 = (inr tt, a1).
Proof.
  intros Hr Hb HS Hn Hr1 Hclean.
  rewrite (Start_body e a ps ds ts Hr Hb) in HS. injection HS as <-.
  pose proof (started_buffer e ps ds a ts Hb Hn) as Hb1.
  split; [done|]. split; [by rewrite Hb1|].
  by eapply (Finish_clean _ _ ps ds1 (now e));
    [done|apply started_server|done|done].
Qed.

(** ** The send path: framing, own lines, unavailability, full sync *)

Lemma frames_subseteq (l : list DeviceDatum) (fr : list DeviceDatum) :
  fr ∈ frames l -> fr ⊆ l.
Proof.
  intros Hfr x Hx. rewrite <- (frames_concat l).
  apply list_elem_of_In, in_concat. exists fr.
  by split; apply list_elem_of_In.
Qed.

Lemma filter_subseteq (sel : DeviceDatum -> bool) (ds : list DeviceDatum) :
  List.filter sel ds ⊆ ds.
Proof.
  intros x Hx. apply list_elem_of_In in Hx. apply filter_In in Hx as [Hx _].
  by apply list_elem_of_In.
Qed.

Lemma frames_framed (sel : DeviceDatum -> bool) (ts : string)
    (ds : list DeviceDatum) :
  Forall (framed ts ds) (map (line ts) (frames (List.filter sel ds))).
Proof.
  apply Forall_map, Forall_forall. intros fr Hfr. exists fr.
  split; [|split; [|done]].
  - pose proof (frames_alone (List.filter sel ds)) as H.
    rewrite Forall_forall in H. by destruct (H fr Hfr).
  - etrans; [by apply frames_subseteq|apply filter_subseteq].
Qed.

(** C4.  Every message handed to the clients is the stamp of the buffer,
    then the field groups of the datums it carries (at least one), then the
    line terminator: for a single [sendBuffer] on a buffer that holds the
    datums [cur], for the full sync (stamp: the time of the sync) and for
    the diff send (stamp: the one the buffer carries). *)
Theorem messages_framed (a : Adapter) (s : Server.t) (ps : list nat)
    (ds : list DeviceDatum) (ts clock : string) (c : Server.Client) :
  registered a ps ds ->
  mServer a = Some s ->
  mBuffer a = StringBuffer.mk ts "" ->
  (forall b cur,
     mServer b = Some s ->
     mBuffer b = StringBuffer.mk ts (body ts cur) ->
     exists b' msgs,
       sendBuffer b = (inr tt, b') /\
       mServer b' = Some (Server.deliver msgs s) /\
       Forall (framed ts cur) msgs) /\
  (exists a' msgs,
     sendInitialData clock c a = (inr tt, a') /\
     mServer a' = Some (Server.deliver msgs s) /\
     Forall (framed clock ds) msgs) /\
  (exists a' msgs,
     sendChangedData a = (inr tt, a') /\
     mServer a' = Some (Server.deliver msgs s) /\
     Forall (framed ts ds) msgs).
Proof.
  intros Hr Hs Hb. split; [|split].
  - intros b cur Hsb Hbb. do 2 eexists.
    split; [by apply (sendBuffer_body b s ts cur)|]. split; [done|].
    destruct cur as [|d cur]; simpl; [constructor|].
    repeat constructor. by exists (d :: cur).
  - do 2 eexists. split; [by eapply sendInitialData_body|].
    split; [done|]. apply frames_framed.
  - do 2 eexists. split; [by eapply sendChangedData_body|].
    split; [done|]. apply frames_framed.
Qed.

(** C3.  [sendDatum] on a datum that requires its own line flushes what is
    buffered, appends the datum and flushes again, so that the datum is the
    only one of its message; and in the full sync as in the diff send every
    message that carries such a datum carries nothing else. *)
Theorem exclusive_datum_own_line (a : Adapter) (s : Server.t) (ps : list nat)
    (ds : list DeviceDatum) (ts clock : string) (c : Server.Client) :
  registered a ps ds ->
  mServer a = Some s ->
  mBuffer a = StringBuffer.mk ts "" ->
  (forall b cur p d,
     mServer b = Some s ->
     mBuffer b = StringBuffer.mk ts (body ts cur) ->
     heap b !! p = Some d ->
     requiresFlush d = true ->
     exists b',
       sendDatum (Some p) b = (inr tt, b') /\
       mServer b'
       = Some (Server.deliver (map (line ts) (closed cur) ++ [line ts [d]]) s) /\
       mBuffer b' = StringBuffer.mk ts "") /\
  (exists a',
     sendInitialData clock c a = (inr tt, a') /\
     mServer a'
     = Some (Server.deliver
               (map (line clock) (frames (List.filter hasInitialValue ds))) s) /\
     Forall alone_if_exclusive (frames (List.filter hasInitialValue ds))) /\
  (exists a',
     sendChangedData a = (inr tt, a') /\
     mServer a'
     = Some (Server.deliver (map (line ts) (frames (List.filter changed ds))) s) /\
     Forall alone_if_exclusive (frames (List.filter changed ds))).
Proof.
  intros Hr Hs Hb. split; [|split].
  - intros b cur p d Hsb Hbb Hd Hfl. eexists.
    split; [by apply (sendDatum_body b s ts cur p d)|].
    simpl. rewrite Hfl. simpl. by rewrite map_app.
  - eexists. split; [by eapply sendInitialData_body|].
    split; [done|apply frames_alone].
  - eexists. split; [by eapply sendChangedData_body|].
    split; [done|apply frames_alone].
Qed.

(** C6.  [unavailable] marks every registered datum unavailable and runs the
    diff send at once: the lines sent are the groups of all the registered
    datums, in registration order and each with the value UNAVAILABLE,
    whatever was dirty before; they are one single line when no datum
    requires its own line. *)
Theorem unavailable_sends_all (clock : string) (a : Adapter) (s : Server.t)
    (ps : list nat) (ds : list DeviceDatum) (ts : string) :
  registered a ps ds ->
  mServer a = Some s ->
  mDisableFlush a = false ->
  mBuffer a = StringBuffer.mk ts "" ->
  exists a',
    unavailable clock a = (inr tt, a') /\
    registered a' ps (map (fun d => sent (datum_unavailable d)) ds) /\
    Forall (fun d => mValue d = UNAVAILABLE)
      (map (fun d => sent (datum_unavailable d)) ds) /\
    mServer a'
    = Some (Server.deliver
              (map (line ts) (frames (map datum_unavailable ds))) s) /\
    concat (frames (map datum_unavailable ds)) = map datum_unavailable ds /\
    (Forall (fun d => requiresFlush d = false) ds ->
     frames (map datum_unavailable ds) = closed (map datum_unavailable ds)).
Proof.
  intros Hr Hs Hoff Hb. eexists.
  split; [by apply (unavailable_body clock a s ps ds ts)|].
  split; [|split; [|split; [done|split]]].
  - apply (registered_with_send _ _ ds); [done|].
    destruct Hr as (_ & _ & Hnd & Hst).
    replace (map (fun d => sent (datum_unavailable d)) ds)
      with (map (touch changed) (map datum_unavailable ds))
      by (rewrite map_map; by apply map_ext).
    apply stored_alter_all; [done|]. by apply stored_alter_all.
  - apply Forall_map. by apply Forall_true.
  - apply frames_concat.
  - intros Hfl. apply frames_batch. apply Forall_map.
    eapply Forall_impl; [exact Hfl|]. by intros d Hd.
Qed.

(** The clients of the server after [Start]. *)
Lemma started_clients (e : Env) (ps : list nat) (ds : list DeviceDatum)
    (a : Adapter) (c : Server.Client) :
  c ∈ Server.clients (the_server (started e ps ds a)) ->
  exists c0,
    In c0 (Server.clients (Server.connectToClients (pending e) (the_server a)).2) /\
    Server.cid c = Server.cid c0 /\
    Server.inbox c
    = Server.inbox c0
      ++ concat (replicate (length (pending e)) (sync_lines (now e) ds)).
Proof.
  unfold the_server at 1. rewrite started_server. simpl.
  intros Hc. apply list_elem_of_In, filter_In in Hc as [Hc _].
  apply in_map_iff in Hc as (c0 & <- & Hc0). by exists c0.
Qed.

(** The messages around a datum that requires its own line: the datums
    before it, none of which requires its own line, share one message, the
    datum is alone in the next, and the grouping starts afresh after it. *)
Lemma pack_split (l1 l2 : list DeviceDatum) (d : DeviceDatum) :
  forall cur,
    Forall (fun x => requiresFlush x = false) l1 ->
    requiresFlush d = true ->
    pack cur (l1 ++ d :: l2)
    = (closed (cur ++ l1) ++ [d] :: (pack [] l2).1, (pack [] l2).2).
Proof.
  induction l1 as [|x l1 IH]; intros cur Hl1 Hd; simpl.
  - by rewrite Hd, app_nil_r.
  - apply Forall_cons in Hl1 as [Hx Hl1].
    by rewrite Hx, (IH (cur ++ [x]) Hl1 Hd), <- app_assoc.
Qed.

Lemma frames_split (l1 l2 : list DeviceDatum) (d : DeviceDatum) :
  Forall (fun x => requiresFlush x = false) l1 ->
  requiresFlush d = true ->
  frames (l1 ++ d :: l2) = closed l1 ++ [d] :: frames l2.
Proof.
  intros Hl1 Hd. unfold frames. rewrite (pack_split l1 l2 d [] Hl1 Hd).
  simpl. by rewrite <- app_assoc.
Qed.

(** C1, as amended.  For a newly accepted client [sendInitialData] sets
    [mDisableFlush] (which only turns [flush] off) and serializes every datum
    that has a value, dirty or not, once each and in registration order.  A
    datum that requires its own line is alone in its message, in the full
    sync too; the datums in a row before it that do not require their own
    line share one message, and the grouping starts afresh after it.  So
    when no datum with a value requires its own line there is exactly one
    message if some datum has a value, and no message if none has.  In
    [Start] the lines of the full sync are the first lines a client accepted
    in this call receives. *)
Theorem full_sync_on_accept (e : Env) (a : Adapter) (ps : list nat)
    (ds : list DeviceDatum) (ts : string) :
  registered a ps ds ->
  mBuffer a = StringBuffer.mk ts "" ->
  Forall (fun i => i ∉ map Server.cid (Server.clients (the_server a)))
    (pending e) ->
  (forall s c,
     mServer a = Some s ->
     exists a',
       sendInitialData (now e) c a = (inr tt, a') /\
       mServer a'
       = Some (Server.deliver
                 (map (line (now e)) (frames (List.filter hasInitialValue ds)))
                 s) /\
       mDisableFlush a' = false /\
       mBuffer a' = StringBuffer.mk (now e) "") /\
  concat (frames (List.filter hasInitialValue ds))
  = List.filter hasInitialValue ds /\
  Forall alone_if_exclusive (frames (List.filter hasInitialValue ds)) /\
  (forall l1 d l2,
     Forall (fun x => requiresFlush x = false) l1 ->
     requiresFlush d = true ->
     frames (l1 ++ d :: l2) = closed l1 ++ [d] :: frames l2) /\
  (forall l,
     Forall (fun x => requiresFlush x = false) l -> frames l = closed l) /\
  (Forall (fun d => requiresFlush d = false) (List.filter hasInitialValue ds) ->
   (List.filter hasInitialValue ds = [] ->
    frames (List.filter hasInitialValue ds) = []) /\
   (List.filter hasInitialValue ds <> [] ->
    frames (List.filter hasInitialValue ds)
    = [List.filter hasInitialValue ds])) /\
  exists a1,
    Start e a = (inr tt, a1) /\
    forall c,
      c ∈ Server.clients (the_server a1) ->
      Server.cid c ∈ pending e ->
      exists rest,
        Server.inbox c
        = map (line (now e)) (frames (List.filter hasInitialValue ds)) ++ rest.
Proof.
  intros Hr Hb Hfresh. split; [|split; [|split; [|split; [|split; [|split]]]]].
  - intros s c Hs. eexists. split; [by eapply sendInitialData_body|done].
  - apply frames_concat.
  - apply frames_alone.
  - intros l1 d l2 Hl1 Hd. by apply frames_split.
  - apply frames_batch.
  - intros Hplain. rewrite (frames_batch _ Hplain).
    split; [by intros ->|].
    by destruct (List.filter hasInitialValue ds).
  - eexists. split; [by eapply Start_body|]. intros c Hc Hnew.
    apply started_clients in Hc as (c0 & Hc0 & Hid & Hbox).
    rewrite Hid in Hnew. rewrite Hbox. clear Hbox Hid.
    destruct (pending e) as [|i0 is0] eqn:Hp; [by apply elem_of_nil in Hnew|].
    simpl in Hc0. apply in_app_or in Hc0 as [Hold|Hc0].
    + exfalso. rewrite Forall_forall in Hfresh.
      apply (Hfresh _ Hnew). apply list_elem_of_In, in_map_iff. by exists c0.
    + change (In c0 (map (fun i => Server.mkClient i []) (i0 :: is0))) in Hc0.
      apply in_map_iff in Hc0 as (i & <- & _). simpl.
      by eexists.
Qed.

(** ** The registry *)

Lemma array_set_ok (i : nat) (p : ptr) (a : Adapter) :
  i < length (mDeviceData a) ->
  array_set i p a = (inr tt, set_mDeviceData (<[i:=p]> (mDeviceData a)) a).
Proof. intros H. unfold array_set. by case_decide. Qed.

Lemma array_set_out (i : nat) (p : ptr) (a : Adapter) :
  length (mDeviceData a) <= i ->
  array_set i p a = (inl IndexOutOfRangeException, a).
Proof. intros H. unfold array_set. case_decide; [lia|done]. Qed.

(** [addDatum] with room for the datum and for the terminator. *)
Lemma addDatum_ok (p : ptr) (a : Adapter) :
  S (mNumDeviceData a) < length (mDeviceData a) ->
  addDatum p a
  = (inr tt,
     set_mDeviceData
       (<[S (mNumDeviceData a) := None]> (<[mNumDeviceData a := p]> (mDeviceData a)))
       (set_mNumDeviceData (S (mNumDeviceData a)) a)).
Proof.
  intros H. unfold addDatum. unfold bind at 1, gets at 1.
  unfold bind at 1, modify at 1.
  erewrite bind_eq; [|by apply array_set_ok; simpl; lia].
  unfold bind at 1, gets at 1. simpl mNumDeviceData.
  rewrite array_set_ok by (simpl; rewrite length_insert; lia).
  reflexivity.
Qed.

(** [addDatum] without room: the exception of the array. *)
Lemma addDatum_raises (p : ptr) (a : Adapter) :
  length (mDeviceData a) <= S (mNumDeviceData a) ->
  exists a',
    addDatum p a = (inl IndexOutOfRangeException, a') /\
    length (mDeviceData a') = length (mDeviceData a) /\
    heap a' = heap a.
Proof.
  intros H. unfold addDatum. unfold bind at 1, gets at 1.
  unfold bind at 1, modify at 1.
  destruct (decide (mNumDeviceData a < length (mDeviceData a))) as [Hlt|Hge].
  - erewrite bind_eq; [|by apply array_set_ok].
    unfold bind at 1, gets at 1. simpl mNumDeviceData.
    rewrite array_set_out by (simpl; rewrite length_insert; lia).
    eexists. split; [reflexivity|]. simpl. by rewrite length_insert.
  - erewrite bind_throws; [|by apply array_set_out; simpl; lia].
    by eexists.
Qed.

Lemma registered_addDatum (a : Adapter) (ps : list nat)
    (ds : list DeviceDatum) (q : nat) (d : DeviceDatum) :
  registered a ps ds ->
  S (mNumDeviceData a) < length (mDeviceData a) ->
  heap a !! q = Some d ->
  q ∉ ps ->
  registered
    (set_mDeviceData
       (<[S (mNumDeviceData a) := None]>
          (<[mNumDeviceData a := Some q]> (mDeviceData a)))
       (set_mNumDeviceData (S (mNumDeviceData a)) a))
    (ps ++ [q]) (ds ++ [d]).
Proof.
  intros (Hn & Hsl & Hnd & Hst) Hroom Hq Hfresh. repeat split; simpl.
  - rewrite length_app. simpl. lia.
  - intros j p Hj. apply lookup_app_Some in Hj as [Hj|[Hge Hj]].
    + pose proof (lookup_lt_Some _ _ _ Hj).
      rewrite !list_lookup_insert_ne by lia. by apply Hsl.
    + apply list_lookup_singleton_Some in Hj as [Hj <-].
      assert (j = mNumDeviceData a) as -> by lia.
      rewrite list_lookup_insert_ne by lia.
      apply list_lookup_insert_eq. lia.
  - apply NoDup_app. split; [done|]. split; [|apply NoDup_singleton].
    intros x Hx ->%list_elem_of_singleton. done.
  - apply Forall2_app; [done|]. by repeat constructor.
Qed.

(** C7, as amended.  [addDatum] stores the datum at index [mNumDeviceData]
    of the array of 128 pointers, counts it and writes the null terminator at
    the next index, without a capacity check of its own.  While fewer than
    127 datums are registered the datum is appended to the registry, which
    keeps its order; from the 128th registration on, the call ends with the
    [IndexOutOfRangeException] of the managed array, at registration time,
    and nothing is written outside the 128 slots. *)
Theorem addDatum_bounds (a : Adapter) (p : ptr) :
  length (mDeviceData a) = 128 ->
  (mNumDeviceData a < 127 ->
   addDatum p a
   = (inr tt,
      set_mDeviceData
        (<[S (mNumDeviceData a) := None]>
           (<[mNumDeviceData a := p]> (mDeviceData a)))
        (set_mNumDeviceData (S (mNumDeviceData a)) a)) /\
   forall ps ds q d,
     p = Some q -> registered a ps ds -> heap a !! q = Some d -> q ∉ ps ->
     exists a',
       addDatum p a = (inr tt, a') /\ registered a' (ps ++ [q]) (ds ++ [d])) /\
  (127 <= mNumDeviceData a ->
   exists a',
     addDatum p a = (inl IndexOutOfRangeException, a') /\
     length (mDeviceData a') = 128 /\
     heap a' = heap a).
Proof.
  intros Hlen. split.
  - intros Hn. split; [apply addDatum_ok; lia|].
    intros ps ds q d -> Hr Hq Hfresh. eexists.
    split; [apply addDatum_ok; lia|]. apply registered_addDatum; [done|lia|done..].
  - intros Hn. destruct (addDatum_raises p a) as (a' & H1 & H2 & H3); [lia|].
    exists a'. by rewrite H2, Hlen.
Qed.

(** ** The setters of PulseAdapter *)

Lemma bind_inr_inv {St A B : Type} (m : M St A) (k : A -> M St B)
    (a a' : St) (y : B) :
  bind m k a = (inr y, a') ->
  exists x a1, m a = (inr x, a1) /\ k x a1 = (inr y, a').
Proof.
  unfold bind. destruct (m a) as [[e|x] a1]; [done|]. intros H. by exists x, a1.
Qed.

Lemma lift_inr_inv {A : Type} (m : M Adapter A) (pa pa' : PulseAdapter)
    (y : A) :
  lift m pa = (inr y, pa') ->
  exists a', m (base pa) = (inr y, a') /\ pa' = mkPulseAdapter a' (member pa).
Proof.
  unfold lift. destruct (m (base pa)) as [r a'] eqn:Hm.
  intros [= -> <-]. by exists a'.
Qed.

Lemma update_inr_inv (p : ptr) (f : DeviceDatum -> DeviceDatum)
    (a a' : Adapter) :
  update p f a = (inr tt, a') ->
  exists i d,
    p = Some i /\ heap a !! i = Some d /\
    a' = set_heap (alter f i (heap a)) a.
Proof.
  destruct p as [i|]; [|done]. unfold update, bind, load. simpl.
  destruct (heap a !! i) as [d|] eqn:Hd; [|done].
  intros [= <-]. by exists i, d.
Qed.

Lemma addDatum_inr_inv (p : ptr) (a a' : Adapter) :
  addDatum p a = (inr tt, a') ->
  S (mNumDeviceData a) < length (mDeviceData a) /\
  a' = set_mDeviceData
         (<[S (mNumDeviceData a) := None]>
            (<[mNumDeviceData a := p]> (mDeviceData a)))
         (set_mNumDeviceData (S (mNumDeviceData a)) a).
Proof.
  intros H.
  destruct (decide (S (mNumDeviceData a) < length (mDeviceData a))) as [Hlt|Hge].
  - split; [done|]. rewrite addDatum_ok in H by done. by injection H.
  - destruct (addDatum_raises p a) as (a1 & H1 & _); [lia|]. congruence.
Qed.

Lemma members_ok_new : members_ok PulseAdapter_new.
Proof. by split. Qed.

(** [create]: afterwards the member is set; the other members and the datum
    objects that existed are untouched. *)
Lemma create_inr (f : Field) (aName : string) (pa pa' : PulseAdapter) :
  members_ok pa ->
  create f aName pa = (inr tt, pa') ->
  members_ok pa' /\
  (exists p, member pa' f = Some p) /\
  (forall g p, member pa g = Some p -> member pa' g = Some p) /\
  (forall q d, heap (base pa) !! q = Some d -> heap (base pa') !! q = Some d).
Proof.
  intros [Hin Hinj] H. unfold create in H.
  apply bind_inr_inv in H as (p & pa0 & [= <- <-] & H).
  destruct (member pa f) as [p|] eqn:Hf.
  { injection H as <-. split; [by split|]. split; [by exists p|done]. }
  apply bind_inr_inv in H as (q & pa1 & H1 & H).
  apply lift_inr_inv in H1 as (a1 & [= <- <-] & ->).
  apply bind_inr_inv in H as ([] & pa2 & [= <-] & H).
  apply lift_inr_inv in H as (a2 & H & ->). simpl in H.
  apply addDatum_inr_inv in H as [Hroom ->]. simpl in *.
  set (n := mNumDeviceData (base pa)) in *.
  split; [split|split; [|split]]; simpl.
  - intros g p Hg. rewrite length_app. simpl. case_decide as Hgf.
    + injection Hg as <-. split; [lia|]. exists n. split; [lia|].
      rewrite list_lookup_insert_ne by lia. apply list_lookup_insert_eq. lia.
    + destruct (Hin g p Hg) as (Hp & j & Hj & Hjp). split; [lia|].
      exists j. split; [lia|]. by rewrite !list_lookup_insert_ne by lia.
  - intros g1 g2 p Hg1 Hg2. do 2 case_decide; simplify_eq; try done.
    + destruct (Hin g1 _ Hg1). lia.
    + destruct (Hin g2 _ Hg2). lia.
    + by eapply Hinj.
  - exists (length (heap (base pa))). by case_decide.
  - intros g p Hg. case_decide; [congruence|done].
  - intros q d Hq. by apply lookup_app_l_Some.
Qed.

(** A write to the datum of member [f]. *)
Lemma member_update_inr (f : Field) (h : DeviceDatum -> DeviceDatum)
    (pa pa' : PulseAdapter) :
  members_ok pa ->
  lift (update (member pa f) h) pa = (inr tt, pa') ->
  members_ok pa' /\
  (forall g, member pa' g = member pa g) /\
  exists p d,
    member pa f = Some p /\ heap (base pa) !! p = Some d /\
    heap (base pa') = alter h p (heap (base pa)).
Proof.
  intros [Hin Hinj] H.
  apply lift_inr_inv in H as (a1 & H & ->).
  apply update_inr_inv in H as (i & d & Hp & Hd & ->). simpl.
  split; [split|split; [done|by exists i, d]]; simpl.
  - intros g q Hg. rewrite length_alter. by apply (Hin g).
  - done.
Qed.

(** [Available = true]: the availability datum exists afterwards and holds
    AVAILABLE; the members stay, and so do the other datum objects. *)
Lemma Available_true_inr (pa pa' : PulseAdapter) :
  members_ok pa ->
  Available_set true pa = (inr tt, pa') ->
  members_ok pa' /\
  (forall g p, member pa g = Some p -> member pa' g = Some p) /\
  exists q da,
    member pa' f_availability = Some q /\
    heap (base pa') !! q = Some da /\
    mValue da = AVAILABLE /\
    forall p d, p <> q -> heap (base pa) !! p = Some d ->
                heap (base pa') !! p = Some d.
Proof.
  intros Hok H. unfold Available_set in H.
  apply bind_inr_inv in H as ([] & pa1 & Hc & H).
  apply (create_inr _ _ _ _ Hok) in Hc as (Hok1 & _ & Hmem1 & Hheap1).
  apply bind_inr_inv in H as (p & pa2 & [= <- <-] & H).
  apply (member_update_inr _ _ _ _ Hok1) in H
    as (Hok2 & Hmem2 & q & d & Hq & Hd & Hheap2).
  split; [done|]. split; [intros g p Hg; rewrite Hmem2; by apply Hmem1|].
  exists q, (available d). rewrite Hmem2, Hheap2.
  split; [done|]. split; [by rewrite list_lookup_alter_eq, Hd|].
  split; [done|]. intros p d' Hne Hp.
  rewrite list_lookup_alter_ne by done. by apply Hheap1.
Qed.

(** The body shared by the setters of the monitored channels: create the
    datum of member [f] if there is none, write it with [h], then
    [Available = true]. *)
Lemma channel_write_inr (f : Field) (aName : string)
    (h : DeviceDatum -> DeviceDatum) (pa pa' : PulseAdapter) :
  members_ok pa ->
  f <> f_availability ->
  (create f aName ;;
   p <- gets (fun pa => member pa f) ;;
   lift (update p h) ;;
   Available_set true) pa = (inr tt, pa') ->
  members_ok pa' /\
  exists p d q da,
    member pa' f = Some p /\
    heap (base pa') !! p = Some (h d) /\
    member pa' f_availability = Some q /\
    heap (base pa') !! q = Some da /\
    mValue da = AVAILABLE.
Proof.
  intros Hok Hf H.
  apply bind_inr_inv in H as ([] & pa1 & Hc & H).
  apply (create_inr _ _ _ _ Hok) in Hc as (Hok1 & _ & _ & _).
  apply bind_inr_inv in H as (p0 & pa2 & [= <- <-] & H).
  apply bind_inr_inv in H as ([] & pa3 & Hu & H).
  apply (member_update_inr _ _ _ _ Hok1) in Hu
    as (Hok3 & Hmem3 & p & d & Hp & Hd & Hheap3).
  apply (Available_true_inr _ _ Hok3) in H
    as (Hok' & Hmem' & q & da & Hq & Hda & Hval & Hrest).
  split; [done|]. exists p, d, q, da.
  assert (Hp' : member pa' f = Some p) by (apply Hmem'; by rewrite Hmem3).
  split; [done|]. split; [|done].
  apply Hrest.
  - intros ->. destruct Hok' as [_ Hinj]. by apply Hf, (Hinj _ _ q).
  - by rewrite Hheap3, list_lookup_alter_eq, Hd.
Qed.

(** C8.  A write to a monitored channel that returns normally leaves the
    value written in the datum of the channel, marked dirty, and leaves the
    availability datum, created if it was absent and present in the
    registry, with the value AVAILABLE. *)
Theorem write_asserts_available (w : Write) (pa pa' : PulseAdapter) :
  members_ok pa ->
  write w pa = (inr tt, pa') ->
  members_ok pa' /\
  exists p d q da,
    member pa' (channel w) = Some p /\
    heap (base pa') !! p = Some d /\
    mValue d = written w /\
    changed d = true /\
    member pa' f_availability = Some q /\
    heap (base pa') !! q = Some da /\
    mValue da = AVAILABLE /\
    exists j, j < mNumDeviceData (base pa') /\
              mDeviceData (base pa') !! j = Some (Some q).
Proof.
  intros Hok H.
  assert (Hgen : exists h aName,
    (forall d, mValue (h d) = written w /\ changed (h d) = true) /\
    (create (channel w) aName ;;
     p <- gets (fun pa => member pa (channel w)) ;;
     lift (update p h) ;;
     Available_set true) pa = (inr tt, pa')).
  { destruct w as [v|v|v|v|v|v|v|v|v|v|v|v|v|v|[]|[]|v]; simpl in H |- *;
      eexists (setValue _), _; (split; [intros d; split; reflexivity|exact H]). }
  destruct Hgen as (h & aName & Hh & Hrun).
  apply channel_write_inr in Hrun
    as (Hok' & p & d & q & da & Hp & Hd & Hq & Hda & Hval);
    [|done|by destruct w].
  split; [done|]. exists p, (h d), q, da.
  destruct (Hh d) as [Hv Hc]. destruct Hok' as [Hin _].
  destruct (Hin _ _ Hq) as [_ Hreg]. by repeat split.
Qed.

(** ** The adapter stays ready from one operation to the next *)

Lemma ready_buffer (a : Adapter) (ps : list nat) (ds : list DeviceDatum) :
  ready a ps ds ->
  mBuffer a = StringBuffer.mk (StringBuffer.mTimestamp (mBuffer a)) "".
Proof. intros (_ & Hb & _). destruct (mBuffer a). simpl in *. by subst. Qed.

Lemma ready_new : ready Adapter_new [] [].
Proof.
  split; [|done]. split; [done|]. split; [by intros j p H|].
  split; [apply NoDup_nil|constructor]; done.
Qed.

Lemma synced_ready (clock : string) (ps : list nat) (ds : list DeviceDatum)
    (k : nat) (s : Server.t) (a : Adapter) :
  ready a ps ds ->
  ready (synced clock ps ds k s a) ps
    (Nat.iter k (map (touch hasInitialValue)) ds).
Proof.
  intros Hr. destruct k as [|k]; [done|].
  destruct Hr as ((Hn & Hsl & Hnd & Hst) & _ & _).
  split; [|done]. repeat split; [done..|].
  by apply (stored_iter_mark hasInitialValue ps (S k)).
Qed.

Lemma Start_ready (e : Env) (a : Adapter) (ps : list nat)
    (ds : list DeviceDatum) :
  ready a ps ds ->
  exists a',
    Start e a = (inr tt, a') /\
    mServer a' <> None /\
    ready a' ps (Nat.iter (length (pending e)) (map (touch hasInitialValue)) ds).
Proof.
  intros Hr. pose proof (ready_buffer a ps ds Hr) as Hb.
  exists (started e ps ds a).
  split; [by eapply Start_body; [apply Hr|]|].
  split; [by rewrite started_server|].
  unfold started.
  set (s1 := (Server.connectToClients (pending e) (the_server a)).2).
  assert (Hr2 : ready (synced (now e) ps ds (length (pending e)) s1
                         (set_mServer (Some s1) a)) ps
                  (Nat.iter (length (pending e)) (map (touch hasInitialValue)) ds)).
  { apply synced_ready. destruct Hr as ((?&?&?&?) & ? & ?). by repeat split. }
  destruct Hr2 as ((?&?&?&?) & ? & ?).
  case_decide; [by repeat split|]. destruct (pending e); by repeat split.
Qed.

Lemma Finish_ready (a : Adapter) (s : Server.t) (ps : list nat)
    (ds : list DeviceDatum) :
  ready a ps ds ->
  mServer a = Some s ->
  exists a', Finish a = (inr tt, a') /\ mServer a' <> None /\
             exists ds', ready a' ps ds'.
Proof.
  intros Hr Hs. pose proof (ready_buffer a ps ds Hr) as Hb.
  destruct Hr as (Hr & Ht & Hoff).
  rewrite (Finish_body a s ps ds _ Hr Hs Hb).
  case_decide; (eexists; split; [reflexivity|]).
  - split; [done|]. exists (map (touch changed) ds). split; [|done].
    apply (registered_with_send _ _ ds); [done|].
    destruct Hr as (_ & _ & Hnd & Hst). by apply stored_alter_all.
  - split; [by rewrite Hs|]. by exists ds.
Qed.

Lemma unavailable_ready (clock : string) (a : Adapter) (s : Server.t)
    (ps : list nat) (ds : list DeviceDatum) :
  ready a ps ds ->
  mServer a = Some s ->
  exists a', unavailable clock a = (inr tt, a') /\ mServer a' <> None /\
             exists ds', ready a' ps ds'.
Proof.
  intros Hr Hs. pose proof (ready_buffer a ps ds Hr) as Hb.
  destruct Hr as (Hr & Ht & Hoff).
  rewrite (unavailable_body clock a s ps ds _ Hr Hs Hoff Hb).
  eexists. split; [reflexivity|]. split; [done|].
  exists (map (touch changed) (map datum_unavailable ds)). split; [|done].
  apply (registered_with_send _ _ ds); [done|].
  destruct Hr as (_ & _ & Hnd & Hst).
  apply stored_alter_all; [done|]. by apply stored_alter_all.
Qed.

(** ** The hook of [Start] *)

Lemma synced_console (clock : string) (ps : list nat) (ds : list DeviceDatum)
    (k : nat) (s : Server.t) (a : Adapter) :
  console (synced clock ps ds k s a) = console a.
Proof. by destruct k. Qed.

(** X11: [clientsDisconnected] runs in [Start] exactly when no client is
    left after the clients were read and a client was accepted in this very
    call: [hasClients] is a local of [Start]. *)
Lemma Start_hook (e : Env) (a a' : Adapter) (ps : list nat)
    (ds : list DeviceDatum) (ts : string) :
  registered a ps ds ->
  mBuffer a = StringBuffer.mk ts "" ->
  Start e a = (inr tt, a') ->
  console a'
  = if decide (0 < Server.numClients (the_server a')) then console a
    else match pending e with
         | [] => console a
         | _ :: _ => console a ++ ["All clients have disconnected" +:+ LF]
         end.
Proof.
  intros Hr Hb HS. rewrite (Start_body e a ps ds ts Hr Hb) in HS.
  injection HS as <-.
  assert (Hts : the_server (started e ps ds a)
                = Server.readFromClients (alive e)
                    (Server.deliver
                       (concat (replicate (length (pending e))
                                  (sync_lines (now e) ds)))
                       (Server.connectToClients (pending e) (the_server a)).2))
    by (unfold the_server at 1; by rewrite started_server).
  rewrite Hts. unfold started. rewrite synced_server.
  case_decide; simpl; [by rewrite synced_console|].
  by destruct (pending e).
Qed.

(** ** A PulseAdapter never fills its registry *)

Lemma all_fields_complete (f : Field) : f ∈ all_fields.
Proof. destruct f; unfold all_fields; repeat constructor. Qed.

Lemma fields_bound (fs : list Field) : NoDup fs -> length fs <= 18.
Proof.
  intros Hnd. change 18 with (length all_fields).
  apply submseteq_length, NoDup_submseteq; [done|].
  intros f _. apply all_fields_complete.
Qed.

Lemma stored_seq (pre h : list DeviceDatum) :
  stored (pre ++ h) (seq (length pre) (length h)) h.
Proof.
  revert pre. induction h as [|d h IH]; intros pre; simpl; [constructor|].
  constructor.
  - by rewrite list_lookup_middle.
  - specialize (IH (pre ++ [d])). rewrite <- app_assoc in IH. simpl in IH.
    rewrite length_app in IH. simpl in IH.
    by replace (length pre + 1) with (S (length pre)) in IH by lia.
Qed.

(** The registry of a PulseAdapter is well formed: the datums are the
    objects of the heap, in the order of their creation. *)
Lemma pulse_registered (pa : PulseAdapter) :
  pulse_inv pa ->
  registered (base pa) (seq 0 (length (heap (base pa)))) (heap (base pa)).
Proof.
  intros (fs & Hnd & Hmem & Hh & Hn & Hlen & Hsl & Hnames).
  split; [by rewrite length_seq, Hh, Hn|].
  split.
  - intros j p Hj. apply lookup_seq in Hj as [-> Hj]. simpl.
    apply Hsl. lia.
  - split; [apply NoDup_seq|]. apply (stored_seq []).
Qed.

Lemma pulse_members_ok (pa : PulseAdapter) : pulse_inv pa -> members_ok pa.
Proof.
  intros (fs & Hnd & Hmem & Hh & Hn & Hlen & Hsl & Hnames). split.
  - intros f p Hf. apply Hmem in Hf.
    pose proof (lookup_lt_Some _ _ _ Hf) as Hp. split; [lia|].
    exists p. split; [lia|]. by apply Hsl.
  - intros f g p Hf Hg. apply Hmem in Hf, Hg. congruence.
Qed.

Lemma pulse_inv_new : pulse_inv PulseAdapter_new.
Proof.
  exists []. split; [apply NoDup_nil_2|]. split; [by split|].
  repeat split; try done. simpl. lia.
Qed.

Lemma same_wire_refl (a : Adapter) : same_wire a a.
Proof. by repeat split. Qed.

Lemma same_wire_trans (a1 a2 a3 : Adapter) :
  same_wire a1 a2 -> same_wire a2 a3 -> same_wire a1 a3.
Proof.
  intros (H1 & H2 & H3 & H4) (K1 & K2 & K3 & K4).
  repeat split; congruence.
Qed.

(** [create] on a PulseAdapter returns normally: there is room for the datum
    of every member. *)
Lemma create_effect (f : Field) (pa : PulseAdapter) :
  pulse_inv pa ->
  exists pa',
    create f (field_name f) pa = (inr tt, pa') /\
    pulse_inv pa' /\
    is_Some (member pa' f) /\
    (forall g p, member pa g = Some p -> member pa' g = Some p) /\
    (forall g, g <> f -> member pa' g = member pa g) /\
    (forall q d, heap (base pa) !! q = Some d -> heap (base pa') !! q = Some d) /\
    same_wire (base pa) (base pa') /\
    (is_Some (member pa f) -> pa' = pa).
Proof.
  intros Hinv. pose proof Hinv as (fs & Hnd & Hmem & Hh & Hn & Hlen & Hsl & Hnames).
  unfold create. unfold bind at 1, gets at 1.
  destruct (member pa f) as [p|] eqn:Hf.
  { exists pa. unfold ret. split; [done|]. split; [done|]. rewrite Hf.
    repeat split; done. }
  assert (Hfresh : f ∉ fs).
  { intros Hin. apply list_elem_of_lookup in Hin as [i Hi].
    apply Hmem in Hi. congruence. }
  assert (Hroom : S (length fs) <= 18).
  { apply (fields_bound (f :: fs)). by apply NoDup_cons. }
  unfold bind at 1, lift at 1, alloc at 1.
  unfold bind at 1, set_member at 1, modify at 1.
  unfold lift. rewrite addDatum_ok by (simpl; lia). simpl.
  eexists. split; [reflexivity|]. simpl.
  split; [|split; [|split; [|split; [|split; [|split]]]]]; simpl.
  - exists (fs ++ [f]). rewrite Hh, Hn. split; [|split]; [| |repeat split].
    + apply NoDup_app. split; [done|]. split; [|apply NoDup_singleton].
      by intros x Hx ->%list_elem_of_singleton.
    + intros g i. simpl. case_decide as Hg.
      * subst g. split.
        -- intros [= <-]. by apply list_lookup_middle.
        -- intros Hi. apply lookup_app_Some in Hi as [Hi|[Hge Hi]].
           ++ exfalso. apply Hfresh, list_elem_of_lookup. by exists i.
           ++ apply list_lookup_singleton_Some in Hi as [Hi _]. f_equal. lia.
      * rewrite Hmem. split.
        -- intros Hi. by apply lookup_app_l_Some.
        -- intros Hi. apply lookup_app_Some in Hi as [Hi|[Hge Hi]]; [done|].
           apply list_lookup_singleton_Some in Hi as [_ Hi]. congruence.
    + simpl. rewrite !length_app. simpl. lia.
    + simpl. rewrite length_app. simpl. lia.
    + simpl. by rewrite !length_insert.
    + intros i Hi. simpl. rewrite length_app in Hi. simpl in Hi.
      destruct (decide (i = length fs)) as [->|Hne].
      * rewrite list_lookup_insert_ne by lia.
        apply list_lookup_insert_eq. lia.
      * rewrite !list_lookup_insert_ne by lia. apply Hsl. lia.
    + simpl in *. apply lookup_app_Some in H as [Hi|[Hge Hi]].
      * pose proof (lookup_lt_Some _ _ _ Hi).
        rewrite lookup_app_l in H0 by lia. by apply (Hnames i).
      * apply list_lookup_singleton_Some in Hi as [Hi <-].
        assert (i = length (heap (base pa))) as -> by lia.
        rewrite list_lookup_middle in H0 by done. by injection H0 as <-.
    + simpl in *. apply lookup_app_Some in H as [Hi|[Hge Hi]].
      * pose proof (lookup_lt_Some _ _ _ Hi).
        rewrite lookup_app_l in H0 by lia. by apply (Hnames i f0).
      * apply list_lookup_singleton_Some in Hi as [Hi <-].
        assert (i = length (heap (base pa))) as -> by lia.
        rewrite list_lookup_middle in H0 by done. by injection H0 as <-.
  - case_decide; [by eexists|done].
  - intros g p Hg. case_decide; [congruence|done].
  - intros g Hg. by case_decide.
  - intros q d Hq. by apply lookup_app_l_Some.
  - done.
  - by intros [? ?].
Qed.

Lemma write_shape (w : Write) : write w = channel_body (channel w) (written w).
Proof. destruct w as [v|v|v|v|v|v|v|v|v|v|v|v|v|v|[]|[]|v]; reflexivity. Qed.

Lemma channel_not_availability (w : Write) : channel w <> f_availability.
Proof. by destruct w. Qed.

(** A write through a member that is set, with a function that keeps the
    name and the own-line flag of the datum. *)
Lemma update_effect (f : Field) (h : DeviceDatum -> DeviceDatum)
    (pa : PulseAdapter) (p : nat) :
  pulse_inv pa ->
  member pa f = Some p ->
  (forall d, mName (h d) = mName d /\ requiresFlush (h d) = requiresFlush d) ->
  exists d,
    heap (base pa) !! p = Some d /\
    lift (update (Some p) h) pa
    = (inr tt,
       mkPulseAdapter (set_heap (alter h p (heap (base pa))) (base pa))
         (member pa)) /\
    pulse_inv
      (mkPulseAdapter (set_heap (alter h p (heap (base pa))) (base pa))
         (member pa)).
Proof.
  intros (fs & Hnd & Hmem & Hh & Hn & Hlen & Hsl & Hnames) Hf Hkeep.
  pose proof (proj1 (Hmem f p) Hf) as Hfs.
  destruct (lookup_lt_is_Some_2 (heap (base pa)) p) as [d Hd].
  { rewrite Hh. by eapply lookup_lt_Some. }
  exists d. split; [done|]. split.
  - unfold lift. by rewrite (update_Some _ _ _ _ Hd).
  - exists fs. simpl. rewrite length_alter.
    repeat split; try done; try apply Hmem.
    + destruct (decide (i = p)) as [->|Hne].
      * rewrite list_lookup_alter_eq, Hd in H0. injection H0 as <-.
        destruct (Hkeep d) as [-> _]. by apply (Hnames p f0 d).
      * rewrite list_lookup_alter_ne in H0 by done. by apply (Hnames i f0 d0).
    + destruct (decide (i = p)) as [->|Hne].
      * rewrite list_lookup_alter_eq, Hd in H0. injection H0 as <-.
        destruct (Hkeep d) as [_ ->]. by apply (Hnames p f0 d).
      * rewrite list_lookup_alter_ne in H0 by done. by apply (Hnames i f0 d0).
Qed.

(** The common body of the setters on a PulseAdapter: it returns normally;
    the datum of the member holds the value and is dirty, the availability
    datum holds AVAILABLE; nothing is sent, buffered or printed; the datums of
    the other members are as before. *)
Lemma channel_effect (f : Field) (v : Value) (pa : PulseAdapter) :
  pulse_inv pa ->
  f <> f_availability ->
  exists pa',
    channel_body f v pa = (inr tt, pa') /\
    pulse_inv pa' /\
    (exists p d, member pa' f = Some p /\ heap (base pa') !! p = Some d /\
                 mValue d = v /\ changed d = true /\ hasInitialValue d = true) /\
    holds pa' f_availability AVAILABLE /\
    same_wire (base pa) (base pa') /\
    (forall g p, member pa g = Some p -> member pa' g = Some p) /\
    (forall g p d, g <> f -> g <> f_availability ->
       member pa g = Some p -> heap (base pa) !! p = Some d ->
       heap (base pa') !! p = Some d) /\
    (is_Some (member pa f) -> is_Some (member pa f_availability) ->
     mNumDeviceData (base pa') = mNumDeviceData (base pa) /\
     mDeviceData (base pa') = mDeviceData (base pa) /\
     length (heap (base pa')) = length (heap (base pa))) /\
    (exists q da, member pa' f_availability = Some q /\
                  heap (base pa') !! q = Some da /\
                  mValue da = AVAILABLE /\ changed da = true).
Proof.
  intros Hinv Hf. unfold channel_body.
  destruct (create_effect f pa Hinv)
    as (pa1 & Hc1 & Hinv1 & [p Hp] & Hmem1 & Hoth1 & Hheap1 & Hw1 & Hid1).
  rewrite (bind_eq _ _ _ _ _ Hc1). unfold bind at 1, gets at 1. rewrite Hp.
  destruct (update_effect f (setValue v) pa1 p Hinv1 Hp) as (d & Hd & Hu & Hinv2);
    [done|].
  rewrite (bind_eq _ _ _ _ _ Hu).
  set (pa2 := mkPulseAdapter _ _) in *.
  unfold Available_set.
  destruct (create_effect f_availability pa2 Hinv2)
    as (pa3 & Hc3 & Hinv3 & [q Hq] & Hmem3 & Hoth3 & Hheap3 & Hw3 & Hid3).
  rewrite (bind_eq _ _ _ _ _ Hc3). unfold bind at 1, gets at 1. rewrite Hq.
  destruct (update_effect f_availability available pa3 q Hinv3 Hq)
    as (da & Hda & Hu4 & Hinv4); [done|].
  rewrite Hu4.
  assert (Hpq : p <> q).
  { intros ->. apply Hf. destruct (pulse_members_ok _ Hinv3) as [_ Hinj].
    apply (Hinj f f_availability q); [|done]. by apply Hmem3. }
  eexists. split; [reflexivity|]. split; [exact Hinv4|]. simpl.
  split; [|split; [|split; [|split; [|split; [|split]]]]].
  - exists p, (setValue v d).
    split; [by apply Hmem3|]. split; [|done].
    rewrite list_lookup_alter_ne by done. apply Hheap3. subst pa2. simpl.
    by rewrite list_lookup_alter_eq, Hd.
  - exists q, (available da). simpl.
    split; [done|]. by rewrite list_lookup_alter_eq, Hda.
  - eapply same_wire_trans; [exact Hw1|].
    eapply (same_wire_trans _ (base pa3)); [|done]. by subst pa2.
  - intros g r Hg. apply Hmem3. subst pa2. simpl. by apply Hmem1.
  - intros g r dg Hgf Hga Hg Hr.
    assert (Hg3 : member pa3 g = Some r).
    { apply Hmem3. subst pa2. simpl. by apply Hmem1. }
    destruct (pulse_members_ok _ Hinv3) as [_ Hinj].
    rewrite list_lookup_alter_ne
      by (intros ->; apply Hga; by apply (Hinj _ _ r)).
    apply Hheap3. subst pa2. simpl.
    rewrite list_lookup_alter_ne; [by apply Hheap1|].
    intros ->. apply Hgf. apply (Hinj _ _ r); [done|]. by apply Hmem3.
  - intros Hsf Hsa. pose proof (Hid1 Hsf) as E1.
    assert (Hsa2 : is_Some (member pa2 f_availability)).
    { subst pa2. simpl. by rewrite E1. }
    rewrite (Hid3 Hsa2). subst pa2. simpl. rewrite E1.
    by rewrite !length_alter.
  - exists q, (available da).
    split; [done|]. by rewrite list_lookup_alter_eq, Hda.
Qed.

(** ** The shape of the heap is kept by every operation *)

Lemma same_shape_refl (h : list DeviceDatum) : same_shape h h.
Proof. split; [done|]. intros i d Hd. by exists d. Qed.

Lemma same_shape_trans (h1 h2 h3 : list DeviceDatum) :
  same_shape h1 h2 -> same_shape h2 h3 -> same_shape h1 h3.
Proof.
  intros [L1 S1] [L2 S2]. split; [congruence|]. intros i d3 H3.
  destruct (S2 i d3 H3) as (d2 & H2 & N2 & F2).
  destruct (S1 i d2 H2) as (d1 & H1 & N1 & F1).
  exists d1. split; [done|]. split; congruence.
Qed.

Lemma same_shape_alter (f : DeviceDatum -> DeviceDatum) (p : nat)
    (h : list DeviceDatum) :
  (forall d, mName (f d) = mName d /\ requiresFlush (f d) = requiresFlush d) ->
  same_shape h (alter f p h).
Proof.
  intros Hf. split; [apply length_alter|]. intros i d' Hd'.
  destruct (decide (p = i)) as [->|Hne].
  - rewrite list_lookup_alter_eq in Hd'.
    destruct (h !! i) as [d|] eqn:Hd; [|done]. injection Hd' as <-.
    exists d. split; [done|]. apply Hf.
  - rewrite list_lookup_alter_ne in Hd' by done. by exists d'.
Qed.

Lemma same_shape_alter_all (f : DeviceDatum -> DeviceDatum) (ps : list nat) :
  (forall d, mName (f d) = mName d /\ requiresFlush (f d) = requiresFlush d) ->
  forall h, same_shape h (alter_all f ps h).
Proof.
  intros Hf. induction ps as [|p ps IH]; intros h; simpl.
  - apply same_shape_refl.
  - eapply same_shape_trans; [by apply (same_shape_alter f p)|apply IH].
Qed.

Lemma touch_keeps (sel : DeviceDatum -> bool) (d : DeviceDatum) :
  mName (touch sel d) = mName d /\
  requiresFlush (touch sel d) = requiresFlush d.
Proof. unfold touch. by destruct (sel d). Qed.

Lemma same_shape_mark (sel : DeviceDatum -> bool) (ps : list nat)
    (h : list DeviceDatum) :
  same_shape h (mark sel ps h).
Proof. apply same_shape_alter_all, touch_keeps. Qed.

Lemma same_shape_iter_mark (sel : DeviceDatum -> bool) (ps : list nat)
    (k : nat) (h : list DeviceDatum) :
  same_shape h (Nat.iter k (mark sel ps) h).
Proof.
  induction k as [|k IH]; simpl; [apply same_shape_refl|].
  eapply same_shape_trans; [exact IH|apply same_shape_mark].
Qed.

(** An operation of the base class that keeps the registry and the shape of
    the heap keeps the invariant of the setters. *)
Lemma pulse_inv_base (pa : PulseAdapter) (a' : Adapter) :
  pulse_inv pa ->
  mDeviceData a' = mDeviceData (base pa) ->
  mNumDeviceData a' = mNumDeviceData (base pa) ->
  same_shape (heap (base pa)) (heap a') ->
  pulse_inv (mkPulseAdapter a' (member pa)).
Proof.
  intros (fs & Hnd & Hmem & Hh & Hn & Hlen & Hsl & Hnames) Hd Hc [HL HS].
  exists fs. simpl. rewrite Hd, Hc, HL.
  repeat split; try done; try apply Hmem.
  - destruct (HS i d H0) as (d0 & Hd0 & -> & _). by apply (Hnames i f d0).
  - destruct (HS i d H0) as (d0 & Hd0 & _ & ->). by apply (Hnames i f d0).
Qed.

Lemma started_parts (e : Env) (ps : list nat) (ds : list DeviceDatum)
    (a : Adapter) :
  mDeviceData (started e ps ds a) = mDeviceData a /\
  mNumDeviceData (started e ps ds a) = mNumDeviceData a /\
  heap (started e ps ds a)
  = Nat.iter (length (pending e)) (mark hasInitialValue ps) (heap a) /\
  mDisableFlush (started e ps ds a) = 
    match pending e with [] => mDisableFlush a | _ :: _ => false end.
Proof.
  unfold started. case_decide; destruct (pending e); simpl; done.
Qed.

(** ** No call on a PulseAdapter at work raises *)

Lemma text_empty_buffer (a : Adapter) :
  StringBuffer.mBuffer (mBuffer a) = "" ->
  mBuffer a = StringBuffer.mk (StringBuffer.mTimestamp (mBuffer a)) "".
Proof. intros H. destruct (mBuffer a). simpl in *. by subst. Qed.

Lemma serving_wire (pa pa' : PulseAdapter) :
  serving pa -> pulse_inv pa' -> same_wire (base pa) (base pa') -> serving pa'.
Proof.
  intros (_ & Ht & Hoff & Hs) Hinv (W1 & W2 & W3 & W4).
  split; [done|]. rewrite W1, W2, W4. done.
Qed.

Lemma write_serving (w : Write) (pa : PulseAdapter) :
  serving pa -> exists pa', write w pa = (inr tt, pa') /\ serving pa'.
Proof.
  intros Hs. pose proof Hs as (Hinv & _). rewrite write_shape.
  destruct (channel_effect (channel w) (written w) pa Hinv
              (channel_not_availability w))
    as (pa' & H & Hinv' & _ & _ & Hw & _).
  exists pa'. split; [done|]. by apply (serving_wire pa).
Qed.

Lemma run_writes_serving (ws : list Write) :
  forall pa, serving pa ->
    exists pa', run_writes ws pa = (inr tt, pa') /\ serving pa'.
Proof.
  induction ws as [|w ws IH]; intros pa Hs; [by exists pa|].
  destruct (write_serving w pa Hs) as (pa1 & H1 & Hs1).
  destruct ws as [|w' ws]; [by exists pa1|].
  destruct (IH pa1 Hs1) as (pa' & H' & Hs').
  exists pa'. split; [|done].
  change (run_writes (w :: w' :: ws)) with (write w ;; run_writes (w' :: ws)).
  by rewrite (bind_eq _ _ _ _ _ H1).
Qed.

(** [Available::set] on a PulseAdapter: it returns normally and sends
    nothing. *)
Lemma Available_effect (value : bool) (pa : PulseAdapter) :
  pulse_inv pa ->
  exists pa',
    Available_set value pa = (inr tt, pa') /\
    pulse_inv pa' /\
    same_wire (base pa) (base pa') /\
    holds pa' f_availability (if value then AVAILABLE else UNAVAILABLE).
Proof.
  intros Hinv. unfold Available_set.
  destruct (create_effect f_availability pa Hinv)
    as (pa1 & Hc & Hinv1 & [q Hq] & _ & _ & _ & Hw & _).
  change "avail" with (field_name f_availability).
  rewrite (bind_eq _ _ _ _ _ Hc). unfold bind at 1, gets at 1. rewrite Hq.
  destruct value.
  - destruct (update_effect f_availability available pa1 q Hinv1 Hq)
      as (da & Hda & Hu & Hinv2); [done|].
    eexists. split; [exact Hu|]. split; [done|]. split; [done|].
    exists q, (available da). simpl. by rewrite list_lookup_alter_eq, Hda.
  - destruct (update_effect f_availability datum_unavailable pa1 q Hinv1 Hq)
      as (da & Hda & Hu & Hinv2); [done|].
    eexists. split; [exact Hu|]. split; [done|]. split; [done|].
    exists q, (datum_unavailable da). simpl.
    by rewrite list_lookup_alter_eq, Hda.
Qed.

Lemma unavailable_keeps (d : DeviceDatum) :
  mName (datum_unavailable d) = mName d /\
  requiresFlush (datum_unavailable d) = requiresFlush d.
Proof. done. Qed.

Lemma Error_serving (clock : string) (pa : PulseAdapter) :
  serving pa ->
  exists pa', Error_set clock true pa = (inr tt, pa') /\ serving pa' /\
    member pa' = member pa /\
    heap (base pa')
    = mark changed (seq 0 (length (heap (base pa))))
        (alter_all datum_unavailable (seq 0 (length (heap (base pa))))
           (heap (base pa))).
Proof.
  intros (Hinv & Ht & Hoff & Hs).
  destruct (mServer (base pa)) as [s|] eqn:Hsrv; [|done].
  pose proof (pulse_registered pa Hinv) as Hr.
  simpl. unfold lift.
  rewrite (unavailable_body clock (base pa) s _ _ _ Hr Hsrv Hoff
             (text_empty_buffer _ Ht)).
  eexists. split; [reflexivity|]. split; [|done].
  split; [|done].
  apply pulse_inv_base; [done..|]. simpl.
  eapply same_shape_trans; [|apply same_shape_mark].
  apply same_shape_alter_all, unavailable_keeps.
Qed.

Lemma Start_serving (e : Env) (pa : PulseAdapter) :
  pulse_inv pa ->
  StringBuffer.mBuffer (mBuffer (base pa)) = "" ->
  mDisableFlush (base pa) = false ->
  exists pa', lift (Start e) pa = (inr tt, pa') /\ serving pa' /\
              member pa' = member pa.
Proof.
  intros Hinv Ht Hoff. pose proof (pulse_registered pa Hinv) as Hr.
  unfold lift.
  rewrite (Start_body e (base pa) _ _ _ Hr (text_empty_buffer _ Ht)).
  eexists. split; [reflexivity|]. split; [|done].
  destruct (Start_ready e (base pa) _ _ (conj Hr (conj Ht Hoff)))
    as (a' & HS & Hsrv & _ & Ht' & Hoff').
  rewrite (Start_body e (base pa) _ _ _ Hr (text_empty_buffer _ Ht)) in HS.
  injection HS as <-.
  destruct (started_parts e (seq 0 (length (heap (base pa)))) (heap (base pa))
              (base pa)) as (P1 & P2 & P3 & _).
  split; [|done]. apply pulse_inv_base; [done..|]. simpl.
  rewrite P3. apply same_shape_iter_mark.
Qed.

Lemma Finish_serving (pa : PulseAdapter) :
  serving pa ->
  exists pa', lift Finish pa = (inr tt, pa') /\ serving pa' /\
              member pa' = member pa.
Proof.
  intros (Hinv & Ht & Hoff & Hs).
  destruct (mServer (base pa)) as [s|] eqn:Hsrv; [|done].
  pose proof (pulse_registered pa Hinv) as Hr.
  unfold lift.
  rewrite (Finish_body (base pa) s _ _ _ Hr Hsrv (text_empty_buffer _ Ht)).
  case_decide.
  - eexists. split; [reflexivity|]. split; [|done]. split; [|done].
    apply pulse_inv_base; [done..|]. simpl. apply same_shape_mark.
  - exists pa. destruct pa. simpl in *. split; [done|]. split; [|done].
    repeat split; try done. simpl. by rewrite Hsrv.
Qed.

Lemma call_serving (c : Call) (pa : PulseAdapter) :
  serving pa -> exists pa', call c pa = (inr tt, pa') /\ serving pa'.
Proof.
  intros Hs. destruct c as [w|v|v|v|clock v|clock v|e|]; simpl.
  - by apply write_serving.
  - by apply (run_writes_serving (position_writes v)).
  - by apply (run_writes_serving (positionXYZ_writes v)).
  - destruct Hs as (Hinv & Hrest).
    destruct (Available_effect v pa Hinv) as (pa' & H & Hinv' & Hw & _).
    exists pa'. split; [done|]. by apply (serving_wire pa).
  - destruct v; [|by exists pa].
    destruct (Error_serving clock pa Hs) as (pa' & H & Hs' & _). by exists pa'.
  - unfold ErrorCode_set. case_decide as Hz; [by exists pa|].
    destruct (Error_serving clock pa Hs) as (pa' & H & Hs' & _). by exists pa'.
  - destruct Hs as (Hinv & Ht & Hoff & _).
    destruct (Start_serving e pa Hinv Ht Hoff) as (pa' & H & Hs' & _).
    by exists pa'.
  - destruct (Finish_serving pa Hs) as (pa' & H & Hs' & _). by exists pa'.
Qed.

Lemma run_calls_serving (cs : list Call) :
  forall pa, serving pa ->
    exists pa', run_calls cs pa = (inr tt, pa') /\ serving pa'.
Proof.
  induction cs as [|c cs IH]; intros pa Hs; [by exists pa|].
  destruct (call_serving c pa Hs) as (pa1 & H1 & Hs1).
  destruct (IH pa1 Hs1) as (pa' & H' & Hs').
  exists pa'. split; [|done]. simpl. by rewrite (bind_eq _ _ _ _ _ H1).
Qed.

(** ** What the setters do to the datums *)

Lemma holds_kept (pa pa' : PulseAdapter) (g : Field) (v : Value) :
  (forall p, member pa g = Some p -> member pa' g = Some p) ->
  (forall p d, member pa g = Some p -> heap (base pa) !! p = Some d ->
               heap (base pa') !! p = Some d) ->
  holds pa g v -> holds pa' g v.
Proof.
  intros Hm Hh (p & d & Hp & Hd & Hv). exists p, d.
  split; [by apply Hm|]. split; [by apply (Hh p d)|done].
Qed.

(** Writes one after the other on a PulseAdapter: they return normally and
    send nothing; a member that none of them writes keeps its datum; with
    distinct channels every channel holds the value written to it. *)
Lemma run_writes_holds (ws : list Write) :
  forall pa, pulse_inv pa ->
    exists pa',
      run_writes ws pa = (inr tt, pa') /\
      pulse_inv pa' /\
      same_wire (base pa) (base pa') /\
      (forall g p d, g ∉ map channel ws -> g <> f_availability ->
         member pa g = Some p -> heap (base pa) !! p = Some d ->
         member pa' g = Some p /\ heap (base pa') !! p = Some d) /\
      (NoDup (map channel ws) ->
       forall w, w ∈ ws -> holds pa' (channel w) (written w)) /\
      (ws <> [] -> holds pa' f_availability AVAILABLE).
Proof.
  induction ws as [|w ws IH]; intros pa Hinv.
  { exists pa. split; [done|]. split; [done|]. split; [apply same_wire_refl|].
    split; [done|]. split; [|done]. by intros _ w Hw%elem_of_nil. }
  destruct (channel_effect (channel w) (written w) pa Hinv
              (channel_not_availability w))
    as (pa1 & H1 & Hinv1 & (p1 & d1 & Hp1 & Hd1 & Hv1 & _) & Ha1 & Hw1
        & Hm1 & Hf1 & _).
  rewrite <- write_shape in H1.
  destruct (IH pa1 Hinv1) as (pa' & H' & Hinv' & Hw' & Hf' & Hall' & Ha').
  exists pa'. split; [|split; [done|split; [by eapply same_wire_trans|]]].
  { destruct ws as [|w' ws]; [by injection H' as <-|].
    change (run_writes (w :: w' :: ws)) with (write w ;; run_writes (w' :: ws)).
    by rewrite (bind_eq _ _ _ _ _ H1). }
  split; [|split].
  - intros g p d Hg Hga Hgp Hgd. simpl in Hg.
    apply not_elem_of_cons in Hg as [Hgw Hg].
    apply Hf'; [done|done|by apply Hm1|by apply (Hf1 g)].
  - intros Hnd w0 Hw0. simpl in Hnd. apply NoDup_cons in Hnd as [Hfresh Hnd].
    apply elem_of_cons in Hw0 as [->|Hw0]; [|by apply Hall'].
    exists p1, d1.
    destruct (Hf' (channel w) p1 d1 Hfresh (channel_not_availability w) Hp1 Hd1)
      as [Hp' Hd'].
    done.
  - intros _. destruct ws as [|w' ws]; [by injection H' as <-|].
    by apply Ha'.
Qed.

(** X2: a write on a PulseAdapter sends, buffers and prints nothing, and it
    leaves the datum of every other channel as it was. *)
Theorem write_leaves_others (w : Write) (pa : PulseAdapter) :
  pulse_inv pa ->
  exists pa',
    write w pa = (inr tt, pa') /\
    same_wire (base pa) (base pa') /\
    forall g p d,
      g <> channel w -> g <> f_availability ->
      member pa g = Some p -> heap (base pa) !! p = Some d ->
      member pa' g = Some p /\ heap (base pa') !! p = Some d.
Proof.
  intros Hinv. rewrite write_shape.
  destruct (channel_effect (channel w) (written w) pa Hinv
              (channel_not_availability w))
    as (pa' & H & _ & _ & _ & Hw & Hm & Hf & _).
  exists pa'. split; [done|]. split; [done|].
  intros g p d Hg Hga Hp Hd. split; [by apply Hm|by apply (Hf g)].
Qed.

(** X3: the datum of a channel and the availability datum are created at the
    first write only: a write to a channel whose datum exists, while the
    availability datum exists, registers nothing and allocates nothing. *)
Theorem write_registers_once (w : Write) (pa : PulseAdapter) :
  pulse_inv pa ->
  is_Some (member pa (channel w)) ->
  is_Some (member pa f_availability) ->
  exists pa',
    write w pa = (inr tt, pa') /\
    mNumDeviceData (base pa') = mNumDeviceData (base pa) /\
    mDeviceData (base pa') = mDeviceData (base pa) /\
    length (heap (base pa')) = length (heap (base pa)) /\
    forall g, member pa' g = member pa g.
Proof.
  intros Hinv Hc Ha. rewrite write_shape.
  destruct (channel_effect (channel w) (written w) pa Hinv
              (channel_not_availability w))
    as (pa' & H & Hinv' & _ & _ & _ & Hm & _ & Hsame & _).
  destruct (Hsame Hc Ha) as (E1 & E2 & E3).
  exists pa'. split; [done|]. split; [done|]. split; [done|]. split; [done|].
  intros g. destruct (member pa g) as [p|] eqn:Hg; [by apply Hm|].
  destruct (member pa' g) as [p'|] eqn:Hg'; [|done]. exfalso.
  destruct Hinv as (fs & _ & Hmem & Hh & _).
  destruct Hinv' as (fs' & Hnd' & Hmem' & Hh' & _).
  assert (Hp' : p' < length fs) by
    (rewrite <- Hh, <- E3, Hh'; eapply lookup_lt_Some; by apply Hmem').
  destruct (lookup_lt_is_Some_2 fs p' Hp') as [g0 Hg0].
  pose proof (proj2 (Hmem g0 p') Hg0) as Hg0m.
  pose proof (Hm _ _ Hg0m) as Hg0m'.
  apply Hmem' in Hg', Hg0m'. congruence.
Qed.

(** X4: [Position::set] on a PulseAdapter returns normally, sends nothing and
    leaves each of the nine axes with its own coordinate, and the
    availability datum with AVAILABLE; [PositionXYZ::set] writes X, Y and Z
    and leaves the datums of the other members as they were. *)
Theorem Position_set_holds (value : Position) (pa : PulseAdapter) :
  pulse_inv pa ->
  (exists pa',
     Position_set value pa = (inr tt, pa') /\
     same_wire (base pa) (base pa') /\
     holds pa' f_x (SampleValue (pX value)) /\
     holds pa' f_y (SampleValue (pY value)) /\
     holds pa' f_z (SampleValue (pZ value)) /\
     holds pa' f_u (SampleValue (pU value)) /\
     holds pa' f_v (SampleValue (pV value)) /\
     holds pa' f_w (SampleValue (pW value)) /\
     holds pa' f_a (SampleValue (pA value)) /\
     holds pa' f_b (SampleValue (pB value)) /\
     holds pa' f_c (SampleValue (pC value)) /\
     holds pa' f_availability AVAILABLE) /\
  (exists pa',
     PositionXYZ_set value pa = (inr tt, pa') /\
     holds pa' f_x (SampleValue (pX value)) /\
     holds pa' f_y (SampleValue (pY value)) /\
     holds pa' f_z (SampleValue (pZ value)) /\
     forall g p d,
       g ∉ [f_x; f_y; f_z; f_availability] ->
       member pa g = Some p -> heap (base pa) !! p = Some d ->
       member pa' g = Some p /\ heap (base pa') !! p = Some d).
Proof using double_of_long.
  intros Hinv. split.
  - destruct (run_writes_holds (position_writes value) pa Hinv)
      as (pa' & H & _ & Hw & _ & Hall & Ha).
    assert (Hnd : NoDup (map channel (position_writes value))).
    { simpl. repeat (apply NoDup_cons; split;
        [intros Hin; repeat (apply elem_of_cons in Hin as [Hin|Hin];
           [discriminate|]); by apply elem_of_nil in Hin|]).
      apply NoDup_nil_2. }
    exists pa'. split; [exact H|]. split; [done|].
    repeat split;
      try (by apply (Hall Hnd (WX _)); repeat constructor);
      try (by apply (Hall Hnd (WY _)); repeat constructor);
      try (by apply (Hall Hnd (WZ _)); repeat constructor);
      try (by apply (Hall Hnd (WU _)); repeat constructor);
      try (by apply (Hall Hnd (WV _)); repeat constructor);
      try (by apply (Hall Hnd (WW _)); repeat constructor);
      try (by apply (Hall Hnd (WA _)); repeat constructor);
      try (by apply (Hall Hnd (WB _)); repeat constructor);
      try (by apply (Hall Hnd (WC _)); repeat constructor).
    by apply Ha.
  - destruct (run_writes_holds (positionXYZ_writes value) pa Hinv)
      as (pa' & H & _ & _ & Hf & Hall & _).
    assert (Hnd : NoDup (map channel (positionXYZ_writes value))).
    { simpl. repeat (apply NoDup_cons; split;
        [intros Hin; repeat (apply elem_of_cons in Hin as [Hin|Hin];
           [discriminate|]); by apply elem_of_nil in Hin|]).
      apply NoDup_nil_2. }
    exists pa'. split; [exact H|].
    split; [by apply (Hall Hnd (WX _)); repeat constructor|].
    split; [by apply (Hall Hnd (WY _)); repeat constructor|].
    split; [by apply (Hall Hnd (WZ _)); repeat constructor|].
    intros g p d Hg Hp Hd. apply Hf; [| |done..].
    + intros Hin. apply Hg. simpl in Hin.
      repeat (apply elem_of_cons in Hin as [->|Hin]; [by repeat constructor|]).
      by apply elem_of_nil in Hin.
    + intros ->. apply Hg. by repeat constructor.
Qed.

(** ** Errors, and the cycle of a PulseAdapter *)

Lemma after_error_lookup (h : list DeviceDatum) (p : nat) (d : DeviceDatum) :
  h !! p = Some d ->
  mark changed (seq 0 (length h))
    (alter_all datum_unavailable (seq 0 (length h)) h) !! p
  = Some (sent (datum_unavailable d)).
Proof.
  intros Hd.
  assert (Hst : stored
            (mark changed (seq 0 (length h))
               (alter_all datum_unavailable (seq 0 (length h)) h))
            (seq 0 (length h))
            (map (touch changed) (map datum_unavailable h))).
  { apply stored_alter_all; [apply NoDup_seq|].
    apply stored_alter_all; [apply NoDup_seq|]. apply (stored_seq []). }
  eapply (Forall2_lookup_lr _ _ _ p p) in Hst; [exact Hst| |].
  - apply lookup_seq. split; [done|]. by eapply lookup_lt_Some.
  - by rewrite !list_lookup_fmap, Hd.
Qed.

Lemma pulse_no_own_line (pa : PulseAdapter) :
  pulse_inv pa ->
  Forall (fun d => requiresFlush d = false) (heap (base pa)).
Proof.
  intros (fs & _ & _ & Hh & _ & _ & _ & Hnames).
  apply Forall_lookup. intros i d Hd.
  destruct (lookup_lt_is_Some_2 fs i) as [f Hf].
  { rewrite <- Hh. by eapply lookup_lt_Some. }
  by destruct (Hnames i f d Hf Hd).
Qed.

(** X6: the error signal of a PulseAdapter at work.  [Error = true] returns
    normally, leaves the datum of every member that exists with the value
    UNAVAILABLE, the availability datum included, and sends them all in one
    line; [Error = false] and the error code 0 do nothing; every other error
    code does what [Error = true] does. *)
Theorem Error_marks_all (clock : string) (pa : PulseAdapter) (s : Server.t) :
  serving pa ->
  mServer (base pa) = Some s ->
  (exists pa',
     Error_set clock true pa = (inr tt, pa') /\
     (forall g, is_Some (member pa g) -> holds pa' g UNAVAILABLE) /\
     mServer (base pa')
     = Some (Server.deliver
               (map (line (StringBuffer.mTimestamp (mBuffer (base pa))))
                  (closed (map datum_unavailable (heap (base pa))))) s)) /\
  Error_set clock false pa = (inr tt, pa) /\
  ErrorCode_set clock 0 pa = (inr tt, pa) /\
  (forall code, code <> 0%Z ->
     ErrorCode_set clock code pa = Error_set clock true pa).
Proof.
  intros Hs Hsrv. split; [|split; [done|split; [done|]]].
  - destruct (Error_serving clock pa Hs) as (pa' & H & Hs' & Hm & Hh).
    exists pa'. split; [done|]. split.
    + intros g [p Hp]. destruct Hs as (Hinv & _).
      destruct (pulse_members_ok pa Hinv) as [Hin _].
      destruct (Hin g p Hp) as [Hlt _].
      destruct (lookup_lt_is_Some_2 _ _ Hlt) as [d Hd].
      exists p, (sent (datum_unavailable d)). rewrite Hm, Hh.
      split; [done|]. split; [by apply after_error_lookup|done].
    + destruct Hs as (Hinv & Ht & Hoff & _).
      pose proof (pulse_registered pa Hinv) as Hr.
      simpl in H. unfold lift in H.
      rewrite (unavailable_body clock (base pa) s _ _ _ Hr Hsrv Hoff
                 (text_empty_buffer _ Ht)) in H.
      injection H as <-. simpl. rewrite frames_batch; [done|].
      apply Forall_map.
      eapply Forall_impl; [by apply pulse_no_own_line|]. by intros d Hd.
  - intros code Hcode. unfold ErrorCode_set. case_decide; [congruence|done].
Qed.

(** X7: after an error, a write brings back the channel it writes and the
    availability datum only: the datums of the other members stay
    UNAVAILABLE until they are written again. *)
Theorem recovery_after_error (clock : string) (w : Write) (pa : PulseAdapter) :
  serving pa ->
  exists pa1 pa2,
    Error_set clock true pa = (inr tt, pa1) /\
    write w pa1 = (inr tt, pa2) /\
    holds pa2 (channel w) (written w) /\
    holds pa2 f_availability AVAILABLE /\
    forall g,
      g <> channel w -> g <> f_availability -> is_Some (member pa g) ->
      holds pa2 g UNAVAILABLE.
Proof.
  intros Hs. destruct (Error_serving clock pa Hs) as (pa1 & H1 & Hs1 & Hm & Hh).
  pose proof Hs1 as (Hinv1 & _).
  destruct (channel_effect (channel w) (written w) pa1 Hinv1
              (channel_not_availability w))
    as (pa2 & H2 & _ & (p & d & Hp & Hd & Hv & _) & Ha & _ & Hm2 & Hf2 & _).
  rewrite <- write_shape in H2.
  exists pa1, pa2. split; [done|]. split; [done|].
  split; [by exists p, d|]. split; [done|].
  intros g Hg Hga [q Hq]. destruct Hs as (Hinv & _).
  destruct (pulse_members_ok pa Hinv) as [Hin _].
  destruct (Hin g q Hq) as [Hlt _].
  destruct (lookup_lt_is_Some_2 _ _ Hlt) as [dq Hdq].
  exists q, (sent (datum_unavailable dq)).
  assert (Hq1 : member pa1 g = Some q) by (by rewrite Hm).
  split; [by apply Hm2|]. split; [|done].
  apply (Hf2 g); [done..|]. rewrite Hh. by apply after_error_lookup.
Qed.

(** [Finish] on a PulseAdapter at work with a client connected. *)
Lemma pulse_Finish_body (pa : PulseAdapter) (s : Server.t) :
  serving pa ->
  mServer (base pa) = Some s ->
  0 < Server.numClients s ->
  lift Finish pa
  = (inr tt,
     mkPulseAdapter
       (with_send
          (Server.deliver
             (map (line (StringBuffer.mTimestamp (mBuffer (base pa))))
                (closed (List.filter changed (heap (base pa))))) s)
          (StringBuffer.mk (StringBuffer.mTimestamp (mBuffer (base pa))) "")
          (mark changed (seq 0 (length (heap (base pa)))) (heap (base pa)))
          (base pa))
       (member pa)).
Proof.
  intros (Hinv & Ht & Hoff & _) Hsrv Hn.
  pose proof (pulse_registered pa Hinv) as Hr. unfold lift.
  rewrite (Finish_body (base pa) s _ _ _ Hr Hsrv (text_empty_buffer _ Ht)).
  case_decide; [|done]. rewrite frames_batch; [done|].
  pose proof (pulse_no_own_line pa Hinv) as Hno.
  rewrite Forall_forall in Hno |- *. intros d Hd. apply Hno.
  by apply (filter_subseteq changed).
Qed.

(** X8: a PulseAdapter at work sends at most one line in [Finish]: none of
    its datums requires its own line, so the dirty datums, in the order of
    their creation, share the line; all its datums are clean afterwards. *)
Theorem pulse_Finish_one_line (pa : PulseAdapter) (s : Server.t) :
  serving pa ->
  mServer (base pa) = Some s ->
  0 < Server.numClients s ->
  exists pa',
    lift Finish pa = (inr tt, pa') /\
    mServer (base pa')
    = Some (Server.deliver
              (map (line (StringBuffer.mTimestamp (mBuffer (base pa))))
                 (closed (List.filter changed (heap (base pa))))) s) /\
    forall p d, heap (base pa) !! p = Some d ->
                heap (base pa') !! p = Some (sent d).
Proof.
  intros Hs Hsrv Hn. rewrite (pulse_Finish_body pa s Hs Hsrv Hn).
  eexists. split; [reflexivity|]. split; [done|]. simpl.
  intros p d Hd.
  assert (Hst : stored (mark changed (seq 0 (length (heap (base pa))))
                          (heap (base pa)))
                  (seq 0 (length (heap (base pa))))
                  (map (touch changed) (heap (base pa)))).
  { apply stored_alter_all; [apply NoDup_seq|apply (stored_seq [])]. }
  rewrite <- touch_changed.
  eapply (Forall2_lookup_lr _ _ _ p p) in Hst; [exact Hst| |].
  - apply lookup_seq. split; [done|]. by eapply lookup_lt_Some.
  - by rewrite list_lookup_fmap, Hd.
Qed.

Lemma field_name_inj (f g : Field) : field_name f = field_name g -> f = g.
Proof. destruct f, g; simpl; intros H; try reflexivity; discriminate H. Qed.

(** X10: the registry of a PulseAdapter never holds more than 18 datums, far
    from the 128 slots, and no two of its datums share a name. *)
Theorem pulse_registry_names (pa : PulseAdapter) :
  pulse_inv pa ->
  mNumDeviceData (base pa) <= 18 /\
  mNumDeviceData (base pa) = length (heap (base pa)) /\
  NoDup (map mName (heap (base pa))).
Proof.
  intros (fs & Hnd & _ & Hh & Hn & _ & _ & Hnames).
  split; [rewrite Hn; by apply fields_bound|]. split; [congruence|].
  replace (map mName (heap (base pa))) with (map field_name fs).
  - apply NoDup_fmap_2; [|done]. intros f g. apply field_name_inj.
  - apply list_eq. intros i. rewrite !list_lookup_fmap.
    destruct (fs !! i) as [f|] eqn:Hf.
    + destruct (lookup_lt_is_Some_2 (heap (base pa)) i) as [d Hd].
      { rewrite Hh. by eapply lookup_lt_Some. }
      rewrite Hd. simpl. f_equal. symmetry. by apply (Hnames i f d).
    + apply lookup_ge_None in Hf. rewrite <- Hh in Hf.
      apply lookup_ge_None in Hf. by rewrite Hf.
Qed.

Lemma run_writes_ready (ws : list Write) (pa : PulseAdapter) :
  pulse_inv pa ->
  exists pa',
    run_writes ws pa = (inr tt, pa') /\ pulse_inv pa' /\
    same_wire (base pa) (base pa').
Proof.
  intros Hinv.
  destruct (run_writes_holds ws pa Hinv) as (pa' & H & Hinv' & Hw & _).
  by exists pa'.
Qed.

(** X1: a session on a new PulseAdapter never raises: any writes, a first
    [Start], then any calls whatever ([Finish], [Start], writes, positions,
    availability, errors).  The registry stays within 18 datums. *)
Theorem session_never_raises (ws : list Write) (e : Env) (cs : list Call) :
  exists pa',
    (run_writes ws ;; lift (Start e) ;; run_calls cs) PulseAdapter_new
    = (inr tt, pa') /\
    serving pa' /\
    mNumDeviceData (base pa') <= 18.
Proof.
  destruct (run_writes_ready ws PulseAdapter_new pulse_inv_new)
    as (pa1 & H1 & Hinv1 & (W1 & W2 & W3 & W4)).
  destruct (Start_serving e pa1 Hinv1) as (pa2 & H2 & Hs2 & _).
  { by rewrite W2. } { by rewrite W4. }
  destruct (run_calls_serving cs pa2 Hs2) as (pa' & H' & Hs').
  exists pa'. rewrite (bind_eq _ _ _ _ _ H1), (bind_eq _ _ _ _ _ H2).
  split; [done|]. split; [done|].
  destruct Hs' as ((fs & Hnd & _ & _ & Hn & _) & _).
  rewrite Hn. by apply fields_bound.
Qed.

(** ** Before the first [Start] *)

(** The adapter [a] with the text [b] buffered and the datum objects [h]:
    what a send leaves when there is no server. *)
Lemma sendDatum_no_server (a : Adapter) (ts : string)
    (cur : list DeviceDatum) (p : nat) (d : DeviceDatum) :
  mServer a = None ->
  mBuffer a = StringBuffer.mk ts (body ts cur) ->
  heap a !! p = Some d ->
  sendDatum (Some p) a
  = (inr tt,
     set_heap (alter sent p (heap a))
       (set_mBuffer (StringBuffer.mk ts (body ts (cur ++ [d]))) a)).
Proof.
  intros Hs Hb Hd.
  assert (Hd' : alter sent p (heap a) !! p = Some (sent d)).
  { by rewrite list_lookup_alter_eq, Hd. }
  unfold sendDatum, bind at 1. rewrite (load_Some _ _ _ Hd).
  assert (Hrest :
    (DeviceDatum_append (Some p) ;;
     d' <- load (Some p) ;;
     (if requiresFlush d' then sendBuffer else ret tt)) a
    = (inr tt,
       set_heap (alter sent p (heap a))
         (set_mBuffer (StringBuffer.mk ts (body ts (cur ++ [d]))) a))).
  { assert (Ha : DeviceDatum_append (Some p) a
                 = (inr tt,
                    set_heap (alter sent p (heap a))
                      (set_mBuffer
                         (StringBuffer.mk ts (body ts (cur ++ [d]))) a))).
    { unfold DeviceDatum_append.
      rewrite (bind_eq _ _ _ _ _ (load_Some _ _ _ Hd)).
      unfold bind at 1, modify at 1.
      rewrite (update_Some _ p d sent); [|done].
      by rewrite Hb, append_body. }
    rewrite (bind_eq _ _ _ _ _ Ha).
    erewrite (bind_eq _ _ _ _ (sent d));
      [|by apply (load_Some (set_heap _ (set_mBuffer _ a)))].
    destruct (requiresFlush (sent d)); [|done].
    by apply sendBuffer_no_server. }
  destruct (requiresFlush d); [|exact Hrest].
  by rewrite (bind_eq _ _ _ _ _ (sendBuffer_no_server a Hs)).
Qed.

Lemma send_loop_no_server (sel : DeviceDatum -> bool) (ps : list nat) :
  forall (ds : list DeviceDatum) (i : nat) (a : Adapter)
         (ts : string) (cur : list DeviceDatum),
    NoDup ps ->
    stored (heap a) ps ds ->
    (forall j p, ps !! j = Some p -> mDeviceData a !! (i + j) = Some (Some p)) ->
    mServer a = None ->
    mBuffer a = StringBuffer.mk ts (body ts cur) ->
    for_from i (length ps) (fun i =>
      value <- array_get i ;;
      d <- load value ;;
      if sel d then sendDatum value else ret tt) a
    = (inr tt,
       set_heap (mark sel ps (heap a))
         (set_mBuffer
            (StringBuffer.mk ts (body ts (cur ++ List.filter sel ds))) a)).
Proof.
  unfold mark.
  induction ps as [|p ps IH]; intros ds i a ts cur Hnd Hst Hslots Hs Hb.
  - inversion Hst; subst. simpl. rewrite app_nil_r, <- Hb.
    unfold ret. by destruct a.
  - inversion Hst as [|? d ? ds' Hd Hst']; subst.
    apply NoDup_cons in Hnd as [Hp Hnd].
    pose proof (Hslots 0 p eq_refl) as H0. rewrite Nat.add_0_r in H0.
    assert (Hnext : forall j q, ps !! j = Some q ->
              mDeviceData a !! (S i + j) = Some (Some q)).
    { intros j q Hq. simpl. rewrite <- Nat.add_succ_r. by apply Hslots. }
    simpl for_from. simpl List.filter. simpl alter_all.
    unfold bind at 1. rewrite (send_turn sel a i p d H0 Hd).
    destruct (sel d) eqn:Hsel.
    + rewrite (sendDatum_no_server a ts cur p d Hs Hb Hd).
      rewrite (alter_touch_hit sel _ _ _ Hd Hsel).
      erewrite (IH ds'); [| done | | exact Hnext | exact Hs | reflexivity ].
      * simpl. by rewrite <- app_assoc.
      * by apply stored_alter_fresh.
    + rewrite (alter_touch_skip sel _ _ _ Hd Hsel).
      by apply IH.
Qed.

(** X14: before the first [Start] there is no server: [unavailable] returns
    normally and sends nothing, yet it leaves every registered datum
    UNAVAILABLE with its flag of change cleared, and the buffer empty under
    the new stamp.  The change reaches no client as a diff. *)
Theorem unavailable_before_Start (clock : string) (a : Adapter)
    (ps : list nat) (ds : list DeviceDatum) (ts : string) :
  registered a ps ds ->
  mServer a = None ->
  mDisableFlush a = false ->
  mBuffer a = StringBuffer.mk ts "" ->
  exists a',
    unavailable clock a = (inr tt, a') /\
    mServer a' = None /\
    console a' = console a /\
    mBuffer a' = StringBuffer.mk clock "" /\
    registered a' ps (map sent (map datum_unavailable ds)) /\
    Forall (fun d => mValue d = UNAVAILABLE /\ changed d = false)
      (map sent (map datum_unavailable ds)).
Proof.
  intros Hr Hs Hoff Hb. pose proof Hr as (Hn & Hsl & Hnd & Hst).
  exists (set_heap (mark changed ps (alter_all datum_unavailable ps (heap a)))
            (set_mBuffer (StringBuffer.mk clock "") a)).
  split.
  - unfold unavailable. unfold bind at 1, gets at 1. rewrite <- Hn.
    erewrite bind_eq; [|by apply (unavailable_loop ps ds 0 a)].
    unfold flush. unfold bind at 1, gets at 1.
    change (mDisableFlush (set_heap ?h a)) with (mDisableFlush a).
    rewrite Hoff. unfold sendChangedData.
    unfold bind at 1. unfold bind at 1. unfold bind at 1, gets at 1.
    change (mNumDeviceData (set_heap ?h a)) with (mNumDeviceData a).
    rewrite <- Hn.
    erewrite (send_loop_no_server changed ps (map datum_unavailable ds) 0 _ ts []);
      [|done|by apply stored_alter_all|done|done|done].
    rewrite sendBuffer_no_server; [|done]. reflexivity.
  - split; [done|]. split; [done|]. split; [done|]. split.
    + repeat split; [done..|]. simpl. rewrite <- map_touch_changed.
      apply stored_alter_all; [done|]. by apply stored_alter_all.
    + apply Forall_map, Forall_map. by apply Forall_true.
Qed.

(** ** The port *)

Lemma started_Port (e : Env) (ps : list nat) (ds : list DeviceDatum)
    (a : Adapter) (s : Server.t) (value : Z) :
  mServer a = Some s ->
  started e ps ds (Port_set value a) = Port_set value (started e ps ds a).
Proof.
  intros Hs. unfold started, the_server. destruct a. simpl in *. subst.
  destruct (length (pending e)); simpl; case_decide; try done;
    by destruct (pending e).
Qed.

(** X15: the port is read once, by the [Start] that creates the server.  Set
    before the first [Start], it is the port of the server; set later, it
    changes nothing but the field: the server keeps its port and [Start]
    does what it does without the call. *)
Theorem Port_read_once (e : Env) (value : Z) (a : Adapter) (ps : list nat)
    (ds : list DeviceDatum) (ts : string) :
  registered a ps ds ->
  mBuffer a = StringBuffer.mk ts "" ->
  exists a' s',
    Start e (Port_set value a) = (inr tt, a') /\
    mServer a' = Some s' /\
    Port_get a' = value /\
    match mServer a with
    | None => Server.port s' = value
    | Some s =>
        Server.port s' = Server.port s /\
        exists a0, Start e a = (inr tt, a0) /\ a' = Port_set value a0
    end.
Proof.
  intros Hr Hb.
  assert (Hr' : registered (Port_set value a) ps ds).
  { destruct Hr as (?&?&?&?). by repeat split. }
  rewrite (Start_body e _ ps ds ts Hr' Hb).
  eexists _, _. split; [reflexivity|]. split; [apply started_server|].
  split.
  - unfold Port_get, started. case_decide; [|destruct (pending e)];
      simpl; by destruct (length (pending e)).
  - destruct (mServer a) as [s|] eqn:Hs.
    + split.
      * unfold the_server. simpl. rewrite Hs. by destruct (pending e).
      * exists (started e ps ds a). split; [by apply (Start_body e a ps ds ts)|].
        by apply (started_Port e ps ds a s).
    + unfold the_server. simpl. rewrite Hs. by destruct (pending e).
Qed.

(** ** Cycles *)

(** X13: a cycle without clients does nothing: with the server created, no
    client connected and none waiting, [Start] followed by [Finish] returns
    normally and leaves the adapter as it is, the dirty datums still dirty;
    no stamp is taken. *)
Theorem cycle_without_clients (e : Env) (a : Adapter) (s : Server.t) :
  mServer a = Some s ->
  Server.numClients s = 0 ->
  pending e = [] ->
  (Start e ;; Finish) a = (inr tt, a).
Proof.
  intros Hs Hn Hp. destruct s as [port hb cs].
  destruct cs as [|c cs]; [|discriminate Hn].
  destruct a. simpl in *. subst.
  unfold bind, Start, Finish, bind, modify, gets, ret, the_server. simpl.
  rewrite Hp. simpl. reflexivity.
Qed.

(** X12: [sendInitialData] does not use the client it is called for: the full
    sync of [Start] goes to every client connected, so a client connected in
    an earlier cycle that still answers receives it again, once for each
    client accepted in this call. *)
Theorem full_sync_rebroadcast (e : Env) (a : Adapter) (s : Server.t)
    (ps : list nat) (ds : list DeviceDatum) (ts : string) (c : Server.Client) :
  registered a ps ds ->
  mBuffer a = StringBuffer.mk ts "" ->
  mServer a = Some s ->
  c ∈ Server.clients s ->
  alive e (Server.cid c) = true ->
  exists a',
    Start e a = (inr tt, a') /\
    Server.mkClient (Server.cid c)
      (Server.inbox c
       ++ concat (replicate (length (pending e))
                    (map (line (now e))
                       (frames (List.filter hasInitialValue ds)))))
    ∈ Server.clients (the_server a').
Proof.
  intros Hr Hb Hs Hc Hal. exists (started e ps ds a).
  split; [by apply (Start_body e a ps ds ts)|].
  unfold the_server at 1. rewrite started_server. simpl.
  apply list_elem_of_In, filter_In. split; [|done].
  apply in_map_iff. exists c. split; [done|].
  unfold the_server. rewrite Hs.
  destruct (pending e); simpl; [by apply list_elem_of_In|].
  apply in_or_app. left. by apply list_elem_of_In.
Qed.

(** ** A cycle of a PulseAdapter *)

Lemma pulse_member_name (pa : PulseAdapter) (f : Field) (p : nat)
    (d : DeviceDatum) :
  pulse_inv pa -> member pa f = Some p -> heap (base pa) !! p = Some d ->
  mName d = field_name f.
Proof.
  intros (fs & _ & Hmem & _ & _ & _ & _ & Hnames) Hp Hd.
  apply Hmem in Hp. by destruct (Hnames p f d Hp Hd).
Qed.

(** X9: a cycle of a PulseAdapter at work, [Start], a write, [Finish].  None
    of the calls raises.  With a client connected after [Start], [Finish]
    sends one line, stamped with the time of this [Start]; the line holds the
    datum of the channel written, with the value written, and the
    availability datum with AVAILABLE.  With no client, [Finish] changes
    nothing. *)
Theorem pulse_cycle_line (e : Env) (w : Write) (pa : PulseAdapter) :
  serving pa ->
  exists pa1 pa2 pa3 s1,
    lift (Start e) pa = (inr tt, pa1) /\
    mServer (base pa1) = Some s1 /\
    write w pa1 = (inr tt, pa2) /\
    lift Finish pa2 = (inr tt, pa3) /\
    (0 < Server.numClients s1 ->
     exists fr dw da,
       mServer (base pa3) = Some (Server.deliver [line (now e) fr] s1) /\
       dw ∈ fr /\ mName dw = field_name (channel w) /\
       mValue dw = written w /\
       da ∈ fr /\ mName da = field_name f_availability /\
       mValue da = AVAILABLE) /\
    (Server.numClients s1 = 0 -> pa3 = pa2).
Proof.
  intros Hs. pose proof Hs as (Hinv & Ht & Hoff & _).
  destruct (Start_serving e pa Hinv Ht Hoff) as (pa1 & H1 & Hs1 & _).
  pose proof Hs1 as (Hinv1 & Ht1 & Hoff1 & Hsrv1).
  destruct (mServer (base pa1)) as [s1|] eqn:Es1; [|done].
  destruct (channel_effect (channel w) (written w) pa1 Hinv1
              (channel_not_availability w))
    as (pa2 & H2 & Hinv2 & (p & dw & Hp & Hdw & Hvw & Hcw & _) & _
        & (W1 & W2 & W3 & W4) & _ & _ & _ & (q & da & Hq & Hda & Hva & Hca)).
  rewrite <- write_shape in H2.
  assert (Hs2 : serving pa2).
  { apply (serving_wire pa1); [done|done|by repeat split]. }
  assert (Es2 : mServer (base pa2) = Some s1) by (by rewrite W1).
  destruct (decide (0 < Server.numClients s1)) as [Hn|Hn].
  - pose proof (pulse_Finish_body pa2 s1 Hs2 Es2 Hn) as H3.
    eexists pa1, pa2, _, s1.
    split; [exact H1|]. split; [done|]. split; [exact H2|].
    split; [exact H3|]. split; [|intros; lia]. intros _.
    assert (Hstamp : StringBuffer.mTimestamp (mBuffer (base pa2)) = now e).
    { rewrite W2. pose proof (pulse_registered pa Hinv) as Hr.
      unfold lift in H1.
      rewrite (Start_body e (base pa) _ _ _ Hr (text_empty_buffer _ Ht)) in H1.
      injection H1 as <-. simpl in *.
      erewrite started_buffer; [done|by apply text_empty_buffer|].
      unfold the_server. by rewrite Es1. }
    assert (Hin : forall r d, heap (base pa2) !! r = Some d ->
              changed d = true ->
              d ∈ List.filter changed (heap (base pa2))).
    { intros r d Hr Hc. apply list_elem_of_In, filter_In. split; [|done].
      apply list_elem_of_In. by eapply list_elem_of_lookup_2. }
    pose proof (Hin p dw Hdw Hcw) as Hinw.
    exists (List.filter changed (heap (base pa2))), dw, da.
    split.
    { change (Some (Server.deliver
                      (map (line (StringBuffer.mTimestamp (mBuffer (base pa2))))
                         (closed (List.filter changed (heap (base pa2))))) s1)
              = Some (Server.deliver
                        [line (now e) (List.filter changed (heap (base pa2)))]
                        s1)).
      rewrite Hstamp.
      by destruct (List.filter changed (heap (base pa2)));
        [apply elem_of_nil in Hinw|]. }
    split; [done|]. split; [by apply (pulse_member_name pa2 _ p)|].
    split; [done|]. split; [by apply (Hin q)|].
    split; [by apply (pulse_member_name pa2 _ q)|done].
  - exists pa1, pa2, pa2, s1. repeat (split; [done|]).
    split; [|by split; [done|]].
    destruct Hs2 as (_ & Ht2 & _).
    pose proof (pulse_registered pa2 Hinv2) as Hr2. unfold lift.
    rewrite (Finish_body (base pa2) s1 _ _ _ Hr2 Es2 (text_empty_buffer _ Ht2)).
    case_decide; [done|]. by destruct pa2.
Qed.

(** X5: [Available = false] writes UNAVAILABLE to the availability datum,
    which it creates and registers when there is none, and to this datum
    only: the datum of every other member is as before, and nothing is
    sent, buffered or printed. *)
Theorem Available_false_only (pa : PulseAdapter) :
  pulse_inv pa ->
  exists pa',
    Available_set false pa = (inr tt, pa') /\
    pulse_inv pa' /\
    same_wire (base pa) (base pa') /\
    holds pa' f_availability UNAVAILABLE /\
    forall g p d, g <> f_availability -> member pa g = Some p ->
      heap (base pa) !! p = Some d ->
      member pa' g = Some p /\ heap (base pa') !! p = Some d.
Proof.
  intros Hinv. unfold Available_set.
  destruct (create_effect f_availability pa Hinv)
    as (pa1 & Hc & Hinv1 & [q Hq] & Hmem1 & _ & Hheap1 & Hw & _).
  change "avail" with (field_name f_availability).
  rewrite (bind_eq _ _ _ _ _ Hc). unfold bind at 1, gets at 1. rewrite Hq.
  destruct (update_effect f_availability datum_unavailable pa1 q Hinv1 Hq)
    as (da & Hda & Hu & Hinv2); [done|].
  eexists. split; [exact Hu|]. split; [done|]. split; [done|]. split.
  - exists q, (datum_unavailable da). simpl.
    by rewrite list_lookup_alter_eq, Hda.
  - intros g p d Hg Hp Hd. simpl. split; [by apply Hmem1|].
    destruct (pulse_members_ok _ Hinv1) as [_ Hinj].
    rewrite list_lookup_alter_ne; [by apply Hheap1|].
    intros Heq. subst p. apply Hg.
    apply (Hinj _ _ q); [by apply Hmem1|done].
Qed.

Lemma at_work_serving : serving at_work.
Proof.
  unfold at_work.
  destruct (run_writes_ready [WX (double_of_long 0); WRunning true]
              PulseAdapter_new pulse_inv_new)
    as (pa1 & H1 & Hinv1 & (W1 & W2 & W3 & W4)).
  destruct (Start_serving joining pa1 Hinv1) as (pa2 & H2 & Hs2 & _).
  { by rewrite W2. } { by rewrite W4. }
  by rewrite (bind_eq _ _ _ _ _ H1), H2.
Qed.

End MTConnectAdapter.

Arguments UNAVAILABLE {double}.
Arguments AVAILABLE {double}.
Arguments EventValue {double} s.
Arguments ExecutionValue {double} e.
Arguments ModeValue {double} m.
Arguments mkDatum {double}.
Arguments mkAdapter {double}.

(** ** The theorems at concrete adapters *)

Ltac not_in_here :=
  let H := fresh in
  intros H; repeat (apply elem_of_cons in H as [H|H]; [discriminate|]);
  by apply elem_of_nil in H.

Ltac registered_here :=
  split; [reflexivity|];
  split; [by intros [|[|[|?]]] ? [= <-]|];
  split; [by repeat (apply NoDup_cons; split; [not_in_here|]); apply NoDup_nil
         |by repeat constructor].

(** [Finish_sends_changed] at the adapter [busy]: client 1 receives the
    program name, then the alarm on a line of its own. *)
Lemma Finish_sends_changed_witness :
  registered unit (busy unit) [0; 1; 2]
    [d_program unit; d_execution unit; d_alarm unit] /\
  exists a',
    Finish unit show_unit (busy unit) = (inr tt, a') /\
    inbox_of unit 1 a' = [["T0|program|O100" +:+ LF; "T0|alarm|E42" +:+ LF]].
Proof.
  split; [registered_here|].
  destruct (Finish_sends_changed unit show_unit (busy unit) one_client
              [0; 1; 2] [d_program unit; d_execution unit; d_alarm unit] "T0")
    as [H _]; [registered_here|reflexivity|reflexivity|].
  destruct H as (a' & HF & Hs & _); [vm_compute; lia|].
  exists a'. split; [exact HF|].
  unfold inbox_of, the_server. rewrite Hs. reflexivity.
Defined.

(** [Finish_twice] at the adapter [busy]. *)
Lemma Finish_twice_witness :
  0 < Server.numClients one_client /\
  exists a1,
    Finish unit show_unit (busy unit) = (inr tt, a1) /\
    Finish unit show_unit a1 = (inr tt, a1).
Proof.
  split; [vm_compute; lia|].
  destruct (Finish_twice unit show_unit (busy unit) one_client
              [0; 1; 2] [d_program unit; d_execution unit; d_alarm unit] "T0")
    as (a1 & H1 & _ & H2); [registered_here|reflexivity|reflexivity|vm_compute; lia|].
  by exists a1.
Defined.

(** [Finish_idle_cycle_sends_nothing] at the adapter [idle], in a cycle where
    the network does nothing. *)
Lemma Finish_idle_cycle_sends_nothing_witness :
  Start unit show_unit quiet (idle unit)
  = (inr tt, (Start unit show_unit quiet (idle unit)).2) /\
  Finish unit show_unit (Start unit show_unit quiet (idle unit)).2
  = (inr tt, (Start unit show_unit quiet (idle unit)).2).
Proof.
  split; [reflexivity|].
  apply (Finish_idle_cycle_sends_nothing unit show_unit quiet (idle unit)
           (Start unit show_unit quiet (idle unit)).2
           [0] [d_execution unit] [d_execution unit] "T0");
    [registered_here|reflexivity|reflexivity|vm_compute; lia|registered_here
    |by repeat constructor].
Defined.

(** C10: a cycle with client 1 connected at [Start] and nothing dirty.  The
    stamp "T1" is recorded, the buffer is empty, and after [Finish] client 1
    has received no line at all, not even the stamp with a terminator. *)
Lemma Finish_idle_counterexample :
  Server.numClients
    (the_server unit (Start unit show_unit quiet (idle unit)).2) = 1 /\
  mBuffer unit (Start unit show_unit quiet (idle unit)).2
  = StringBuffer.mk "T1" "" /\
  inbox_of unit 1
    (Finish unit show_unit (Start unit show_unit quiet (idle unit)).2).2
  = [[]] /\
  inbox_of unit 1
    (Finish unit show_unit (Start unit show_unit quiet (idle unit)).2).2
  <> [["T1" +:+ LF]].
Proof. by vm_compute. Qed.

(** [full_sync_on_accept] at the adapter [busy] when client 7 joins. *)
Lemma full_sync_on_accept_witness :
  Forall (fun i => i ∉ map Server.cid (Server.clients (the_server unit (busy unit))))
    (pending joining) /\
  exists a1,
    Start unit show_unit joining (busy unit) = (inr tt, a1) /\
    forall c,
      c ∈ Server.clients (the_server unit a1) ->
      Server.cid c ∈ pending joining ->
      exists rest,
        Server.inbox c
        = map (line unit show_unit (now joining))
            (frames unit
               (List.filter (hasInitialValue unit)
                  [d_program unit; d_execution unit; d_alarm unit]))
          ++ rest.
Proof.
  assert (Hfresh : Forall
    (fun i => i ∉ map Server.cid (Server.clients (the_server unit (busy unit))))
    (pending joining)) by (repeat constructor; not_in_here).
  split; [exact Hfresh|].
  apply (full_sync_on_accept unit show_unit joining (busy unit) [0; 1; 2]
           [d_program unit; d_execution unit; d_alarm unit] "T0");
    [registered_here|reflexivity|exact Hfresh].
Defined.

(** C1: client 7 is accepted while a program name, an execution state and an
    alarm that requires its own line have a value.  The full sync reaches
    client 7 in two messages, and the first one lacks the alarm. *)
Lemma full_sync_counterexample :
  inbox_of unit 7 (Start unit show_unit joining (busy unit)).2
  = [["T1|program|O100|execution|ACTIVE" +:+ LF; "T1|alarm|E42" +:+ LF]].
Proof. by vm_compute. Qed.

(** [exclusive_datum_own_line] at the adapter [busy]. *)
Lemma exclusive_datum_own_line_witness :
  registered unit (busy unit) [0; 1; 2]
    [d_program unit; d_execution unit; d_alarm unit] /\
  exists a',
    sendChangedData unit show_unit (busy unit) = (inr tt, a') /\
    mServer unit a'
    = Some (Server.deliver
              (map (line unit show_unit "T0")
                 (frames unit
                    (List.filter (changed unit)
                       [d_program unit; d_execution unit; d_alarm unit])))
              one_client) /\
    Forall (alone_if_exclusive unit)
      (frames unit
         (List.filter (changed unit)
            [d_program unit; d_execution unit; d_alarm unit])).
Proof.
  split; [registered_here|].
  apply (exclusive_datum_own_line unit show_unit (busy unit) one_client
           [0; 1; 2] [d_program unit; d_execution unit; d_alarm unit]
           "T0" "T1" (Server.mkClient 7 []));
    [registered_here|reflexivity|reflexivity].
Defined.

(** [messages_framed] at the adapter [busy]. *)
Lemma messages_framed_witness :
  registered unit (busy unit) [0; 1; 2]
    [d_program unit; d_execution unit; d_alarm unit] /\
  exists a' msgs,
    sendChangedData unit show_unit (busy unit) = (inr tt, a') /\
    mServer unit a' = Some (Server.deliver msgs one_client) /\
    Forall (framed unit show_unit "T0"
              [d_program unit; d_execution unit; d_alarm unit]) msgs.
Proof.
  split; [registered_here|].
  apply (messages_framed unit show_unit (busy unit) one_client
           [0; 1; 2] [d_program unit; d_execution unit; d_alarm unit]
           "T0" "T1" (Server.mkClient 7 []));
    [registered_here|reflexivity|reflexivity].
Defined.

(** [unavailable_sends_all] at the adapter [busy]: client 1 receives all
    three datums, the alarm on a line of its own. *)
Lemma unavailable_sends_all_witness :
  mDisableFlush unit (busy unit) = false /\
  exists a',
    unavailable unit show_unit "T2" (busy unit) = (inr tt, a') /\
    inbox_of unit 1 a'
    = [["T0|program|UNAVAILABLE|execution|UNAVAILABLE" +:+ LF;
        "T0|alarm|UNAVAILABLE" +:+ LF]].
Proof.
  split; [reflexivity|].
  destruct (unavailable_sends_all unit show_unit "T2" (busy unit) one_client
              [0; 1; 2] [d_program unit; d_execution unit; d_alarm unit] "T0")
    as (a' & HU & _ & _ & Hs & _);
    [registered_here|reflexivity|reflexivity|reflexivity|].
  exists a'. split; [exact HU|].
  unfold inbox_of, the_server. rewrite Hs. reflexivity.
Defined.

(** [addDatum_bounds] at the adapter just constructed. *)
Lemma addDatum_bounds_witness :
  length (mDeviceData unit (Adapter_new unit)) = 128 /\
  addDatum unit (Some 0) (Adapter_new unit)
  = (inr tt,
     set_mDeviceData unit (<[1 := None]> (<[0 := Some 0]> (replicate 128 None)))
       (set_mNumDeviceData unit 1 (Adapter_new unit))).
Proof.
  split; [reflexivity|].
  apply (addDatum_bounds unit (Adapter_new unit) (Some 0)); [reflexivity|].
  simpl. lia.
Defined.

(** C7: 127 datums are registered in the array of 128 pointers.  The 128th
    registration does not exceed 128 datums, yet it ends with the exception
    of the array, raised by the write of the terminator after the datum was
    stored and counted. *)
Lemma addDatum_counterexample :
  mNumDeviceData unit (crowded unit) = 127 /\
  length (mDeviceData unit (crowded unit)) = 128 /\
  (addDatum unit (Some 127) (crowded unit)).1 = inl IndexOutOfRangeException /\
  mNumDeviceData unit (addDatum unit (Some 127) (crowded unit)).2 = 128 /\
  mDeviceData unit (addDatum unit (Some 127) (crowded unit)).2 !! 127
  = Some (Some 127).
Proof. by vm_compute. Qed.

(** [write_asserts_available] for the first write of X on a new
    [PulseAdapter]. *)
Lemma write_asserts_available_witness :
  members_ok unit (PulseAdapter_new unit) /\
  exists p d q da,
    member unit
      (write unit unit_of_long (WX unit tt) (PulseAdapter_new unit)).2 f_x
    = Some p /\
    heap unit
      (base unit (write unit unit_of_long (WX unit tt) (PulseAdapter_new unit)).2)
      !! p = Some d /\
    mValue unit d = SampleValue unit tt /\
    changed unit d = true /\
    member unit
      (write unit unit_of_long (WX unit tt) (PulseAdapter_new unit)).2
      f_availability
    = Some q /\
    heap unit
      (base unit (write unit unit_of_long (WX unit tt) (PulseAdapter_new unit)).2)
      !! q = Some da /\
    mValue unit da = AVAILABLE /\
    exists j,
      j < mNumDeviceData unit
            (base unit
               (write unit unit_of_long (WX unit tt) (PulseAdapter_new unit)).2) /\
      mDeviceData unit
        (base unit (write unit unit_of_long (WX unit tt) (PulseAdapter_new unit)).2)
        !! j = Some (Some q).
Proof.
  split; [by split|].
  apply (write_asserts_available unit unit_of_long (WX unit tt)
           (PulseAdapter_new unit)
           (write unit unit_of_long (WX unit tt) (PulseAdapter_new unit)).2);
    [by split|by vm_compute].
Defined.

(** C5.  Client 1 was connected in an earlier cycle and is found gone when
    [Start] reads the clients, no client being accepted in this call: the
    count goes from 1 to 0 and [clientsDisconnected] prints nothing.  The
    hook runs only when a client is accepted in the very call in which the
    count reaches 0. *)
Theorem Start_misses_disconnect :
  Server.numClients (the_server unit (busy unit)) = 1 /\
  (Start unit show_unit dropping (busy unit)).1 = inr tt /\
  Server.numClients
    (the_server unit (Start unit show_unit dropping (busy unit)).2) = 0 /\
  console unit (Start unit show_unit dropping (busy unit)).2 = [] /\
  console unit (Start unit show_unit join_and_drop (busy unit)).2
  = ["All clients have disconnected" +:+ LF].
Proof. by vm_compute. Qed.

(** ** The further theorems at concrete adapters *)

(** [write_leaves_others] for a write of the mode on the PulseAdapter
    [at_work]. *)
Lemma write_leaves_others_witness :
  pulse_inv unit (at_work unit show_unit unit_of_long) /\
  exists pa',
    write unit unit_of_long (WManual unit true)
      (at_work unit show_unit unit_of_long) = (inr tt, pa') /\
    same_wire unit (base unit (at_work unit show_unit unit_of_long))
      (base unit pa').
Proof.
  split; [apply at_work_serving|].
  destruct (write_leaves_others unit unit_of_long (WManual unit true)
              (at_work unit show_unit unit_of_long))
    as (pa' & H & Hw & _); [apply at_work_serving|].
  exists pa'. split; [exact H|exact Hw].
Defined.

(** [write_registers_once] for a second write of X. *)
Lemma write_registers_once_witness :
  is_Some (member unit (at_work unit show_unit unit_of_long)
             (channel unit (WX unit tt))) /\
  is_Some (member unit (at_work unit show_unit unit_of_long) f_availability) /\
  exists pa',
    write unit unit_of_long (WX unit tt)
      (at_work unit show_unit unit_of_long) = (inr tt, pa') /\
    mNumDeviceData unit (base unit pa') = 3.
Proof.
  assert (Hx : is_Some (member unit (at_work unit show_unit unit_of_long)
                          (channel unit (WX unit tt))))
    by (exists 0; by vm_compute).
  assert (Ha : is_Some (member unit (at_work unit show_unit unit_of_long)
                          f_availability))
    by (exists 1; by vm_compute).
  split; [exact Hx|]. split; [exact Ha|].
  destruct (write_registers_once unit unit_of_long (WX unit tt)
              (at_work unit show_unit unit_of_long))
    as (pa' & H & Hn & _); [apply at_work_serving|exact Hx|exact Ha|].
  exists pa'. split; [exact H|]. rewrite Hn. by vm_compute.
Defined.

(** [Position_set_holds] on the PulseAdapter [at_work]. *)
Lemma Position_set_holds_witness :
  pulse_inv unit (at_work unit show_unit unit_of_long) /\
  exists pa',
    Position_set unit (mkPosition unit tt tt tt tt tt tt tt tt tt)
      (at_work unit show_unit unit_of_long) = (inr tt, pa') /\
    holds unit pa' f_c (SampleValue unit tt) /\
    holds unit pa' f_availability AVAILABLE.
Proof.
  split; [apply at_work_serving|].
  destruct (Position_set_holds unit unit_of_long
              (mkPosition unit tt tt tt tt tt tt tt tt tt)
              (at_work unit show_unit unit_of_long))
    as [(pa' & H & _ & _ & _ & _ & _ & _ & _ & _ & _ & Hc & Ha) _];
    [apply at_work_serving|].
  exists pa'. split; [exact H|]. split; [exact Hc|exact Ha].
Defined.

(** [Available_false_only] on the PulseAdapter [at_work]. *)
Lemma Available_false_only_witness :
  pulse_inv unit (at_work unit show_unit unit_of_long) /\
  exists pa',
    Available_set unit false (at_work unit show_unit unit_of_long)
    = (inr tt, pa') /\
    holds unit pa' f_availability UNAVAILABLE.
Proof.
  split; [apply at_work_serving|].
  destruct (Available_false_only unit (at_work unit show_unit unit_of_long))
    as (pa' & H & _ & _ & Hu & _); [apply at_work_serving|].
  exists pa'. split; [exact H|exact Hu].
Defined.

(** [Error_marks_all] on the PulseAdapter [at_work]. *)
Lemma Error_marks_all_witness :
  serving unit (at_work unit show_unit unit_of_long) /\
  exists pa',
    Error_set unit show_unit "T2" true (at_work unit show_unit unit_of_long)
    = (inr tt, pa') /\
    holds unit pa' f_x UNAVAILABLE /\
    holds unit pa' f_execution UNAVAILABLE.
Proof.
  split; [apply at_work_serving|].
  destruct (Error_marks_all unit show_unit "T2"
              (at_work unit show_unit unit_of_long)
              (the_server unit (base unit (at_work unit show_unit unit_of_long))))
    as [(pa' & H & Hall & _) _]; [apply at_work_serving|by vm_compute|].
  exists pa'. split; [exact H|].
  split; apply Hall; [exists 0|exists 2]; by vm_compute.
Defined.

(** [recovery_after_error]: an error on [at_work], then a write of X. *)
Lemma recovery_after_error_witness :
  serving unit (at_work unit show_unit unit_of_long) /\
  exists pa1 pa2,
    Error_set unit show_unit "T2" true (at_work unit show_unit unit_of_long)
    = (inr tt, pa1) /\
    write unit unit_of_long (WX unit tt) pa1 = (inr tt, pa2) /\
    holds unit pa2 f_x (SampleValue unit tt) /\
    holds unit pa2 f_execution UNAVAILABLE.
Proof.
  split; [apply at_work_serving|].
  destruct (recovery_after_error unit show_unit unit_of_long "T2"
              (WX unit tt) (at_work unit show_unit unit_of_long))
    as (pa1 & pa2 & H1 & H2 & Hx & _ & Hrest); [apply at_work_serving|].
  exists pa1, pa2. split; [exact H1|]. split; [exact H2|].
  split; [exact Hx|].
  apply Hrest; [discriminate|discriminate|exists 2; by vm_compute].
Defined.

(** [pulse_Finish_one_line] on the PulseAdapter [at_work]. *)
Lemma pulse_Finish_one_line_witness :
  serving unit (at_work unit show_unit unit_of_long) /\
  0 < Server.numClients
        (the_server unit (base unit (at_work unit show_unit unit_of_long))) /\
  exists pa',
    lift unit (Finish unit show_unit) (at_work unit show_unit unit_of_long)
    = (inr tt, pa') /\
    forall p d,
      heap unit (base unit (at_work unit show_unit unit_of_long)) !! p
      = Some d ->
      heap unit (base unit pa') !! p = Some (sent unit d).
Proof.
  split; [apply at_work_serving|]. split; [vm_compute; lia|].
  destruct (pulse_Finish_one_line unit show_unit
              (at_work unit show_unit unit_of_long)
              (the_server unit (base unit (at_work unit show_unit unit_of_long))))
    as (pa' & H & _ & Hsent);
    [apply at_work_serving|by vm_compute|vm_compute; lia|].
  exists pa'. split; [exact H|exact Hsent].
Defined.

(** [pulse_cycle_line]: a cycle of [at_work] in which X is written. *)
Lemma pulse_cycle_line_witness :
  serving unit (at_work unit show_unit unit_of_long) /\
  exists pa1 pa2 pa3,
    lift unit (Start unit show_unit quiet)
      (at_work unit show_unit unit_of_long) = (inr tt, pa1) /\
    write unit unit_of_long (WX unit tt) pa1 = (inr tt, pa2) /\
    lift unit (Finish unit show_unit) pa2 = (inr tt, pa3).
Proof.
  split; [apply at_work_serving|].
  destruct (pulse_cycle_line unit show_unit unit_of_long quiet (WX unit tt)
              (at_work unit show_unit unit_of_long))
    as (pa1 & pa2 & pa3 & s1 & H1 & _ & H2 & H3 & _); [apply at_work_serving|].
  exists pa1, pa2, pa3. split; [exact H1|]. split; [exact H2|exact H3].
Defined.

(** [pulse_registry_names] on the PulseAdapter [at_work]. *)
Lemma pulse_registry_names_witness :
  pulse_inv unit (at_work unit show_unit unit_of_long) /\
  mNumDeviceData unit (base unit (at_work unit show_unit unit_of_long)) <= 18 /\
  NoDup (map (mName unit)
           (heap unit (base unit (at_work unit show_unit unit_of_long)))).
Proof.
  split; [apply at_work_serving|].
  destruct (pulse_registry_names unit (at_work unit show_unit unit_of_long))
    as (Hn & _ & Hnd); [apply at_work_serving|].
  split; [exact Hn|exact Hnd].
Defined.

(** [Start_hook] at the adapter [busy], when client 7 joins and every client
    is found gone. *)
Lemma Start_hook_witness :
  registered unit (busy unit) [0; 1; 2]
    [d_program unit; d_execution unit; d_alarm unit] /\
  console unit (Start unit show_unit join_and_drop (busy unit)).2
  = ["All clients have disconnected" +:+ LF].
Proof.
  split; [registered_here|].
  rewrite (Start_hook unit show_unit join_and_drop (busy unit)
             (Start unit show_unit join_and_drop (busy unit)).2
             [0; 1; 2] [d_program unit; d_execution unit; d_alarm unit] "T0");
    [by vm_compute|registered_here|reflexivity|by vm_compute].
Defined.

(** [full_sync_rebroadcast] at the adapter [busy] when client 7 joins:
    client 1 receives the full sync too. *)
Lemma full_sync_rebroadcast_witness :
  registered unit (busy unit) [0; 1; 2]
    [d_program unit; d_execution unit; d_alarm unit] /\
  Server.mkClient 1 [] ∈ Server.clients one_client /\
  exists a',
    Start unit show_unit joining (busy unit) = (inr tt, a') /\
    Server.mkClient 1
      ["T1|program|O100|execution|ACTIVE" +:+ LF; "T1|alarm|E42" +:+ LF]
    ∈ Server.clients (the_server unit a').
Proof.
  split; [registered_here|].
  assert (Hc : Server.mkClient 1 [] ∈ Server.clients one_client)
    by apply list_elem_of_here.
  split; [exact Hc|].
  destruct (full_sync_rebroadcast unit show_unit joining (busy unit) one_client
              [0; 1; 2] [d_program unit; d_execution unit; d_alarm unit] "T0"
              (Server.mkClient 1 []))
    as (a' & H & Hin); [registered_here|reflexivity|reflexivity|exact Hc
                       |reflexivity|].
  exists a'. split; [exact H|exact Hin].
Defined.

(** [cycle_without_clients] at the adapter [deserted]. *)
Lemma cycle_without_clients_witness :
  Server.numClients (Server.new 7878 10000) = 0 /\
  (Start unit show_unit quiet ;; Finish unit show_unit) (deserted unit)
  = (inr tt, deserted unit).
Proof.
  split; [reflexivity|].
  apply (cycle_without_clients unit show_unit quiet (deserted unit)
           (Server.new 7878 10000)); reflexivity.
Defined.

(** [unavailable_before_Start] at the adapter [unstarted]. *)
Lemma unavailable_before_Start_witness :
  registered unit (unstarted unit) [0; 1; 2]
    [d_program unit; d_execution unit; d_alarm unit] /\
  exists a',
    unavailable unit show_unit "T2" (unstarted unit) = (inr tt, a') /\
    mServer unit a' = None /\
    mBuffer unit a' = StringBuffer.mk "T2" "".
Proof.
  split; [registered_here|].
  destruct (unavailable_before_Start unit show_unit "T2" (unstarted unit)
              [0; 1; 2] [d_program unit; d_execution unit; d_alarm unit] "T0")
    as (a' & H & Hs & _ & Hb & _);
    [registered_here|reflexivity|reflexivity|reflexivity|].
  exists a'. split; [exact H|]. split; [exact Hs|exact Hb].
Defined.

(** [Port_read_once] at the adapter [busy], whose server listens on 7878. *)
Lemma Port_read_once_witness :
  registered unit (busy unit) [0; 1; 2]
    [d_program unit; d_execution unit; d_alarm unit] /\
  exists a' s',
    Start unit show_unit quiet (Port_set unit 9000 (busy unit))
    = (inr tt, a') /\
    mServer unit a' = Some s' /\
    Port_get unit a' = 9000%Z /\
    Server.port s' = 7878%Z.
Proof.
  split; [registered_here|].
  destruct (Port_read_once unit show_unit quiet 9000 (busy unit)
              [0; 1; 2] [d_program unit; d_execution unit; d_alarm unit] "T0")
    as (a' & s' & H & Hs & Hp & Hport & _); [registered_here|reflexivity|].
  exists a', s'. split; [exact H|]. split; [exact Hs|].
  split; [exact Hp|exact Hport].
Defined.

(** * The logger *)

Lemma bytes_length (s : string) : length (Logger.bytes s) = String.length s.
Proof. induction s as [|c s IH]; simpl; [done|by rewrite IH]. Qed.

Lemma bytes_app (s1 s2 : string) :
  Logger.bytes (s1 +:+ s2) = Logger.bytes s1 ++ Logger.bytes s2.
Proof.
  induction s1 as [|c s1 IH]; [done|].
  rewrite string_app_cons. simpl. by rewrite IH.
Qed.

(** The C string read back from the bytes of a text without NUL, whatever
    follows the terminator. *)
Lemma c_str_bytes (text : string) (rest : list ascii) :
  Logger.NUL ∉ Logger.bytes text ->
  Logger.c_str (Logger.bytes text ++ Logger.NUL :: rest) = text.
Proof.
  induction text as [|c text IH]; intros Hc.
  - done.
  - apply not_elem_of_cons in Hc as [Hne Hc].
    change (Logger.c_str (Logger.bytes (String c text) ++ Logger.NUL :: rest))
      with (if decide (c = Logger.NUL) then ""
            else String c (Logger.c_str
                             (Logger.bytes text ++ Logger.NUL :: rest))).
    case_decide; [congruence|]. by rewrite IH.
Qed.

Lemma sprintf_fits (aBuffer : list ascii) (text : string) :
  String.length text < length aBuffer ->
  Logger.sprintf aBuffer text
  = Some (Logger.bytes text ++
          Logger.NUL :: drop (S (String.length text)) aBuffer) /\
  length (Logger.bytes text ++
          Logger.NUL :: drop (S (String.length text)) aBuffer)
  = length aBuffer.
Proof.
  intros Hlt. unfold Logger.sprintf.
  rewrite length_app, bytes_length. simpl.
  rewrite Nat.add_1_r. case_decide; [|lia]. split.
  - by rewrite <- app_assoc.
  - rewrite length_app, bytes_length. simpl. rewrite length_drop. lia.
Qed.

Lemma sprintf_overflow (aBuffer : list ascii) (text : string) :
  length aBuffer <= String.length text -> Logger.sprintf aBuffer text = None.
Proof.
  intros Hle. unfold Logger.sprintf.
  rewrite length_app, bytes_length. simpl. case_decide; [lia|done].
Qed.

(** X16: [Logger::format] returns the whole message whenever [vsprintf] stays
    within the buffer: the terminator it writes at [aLen - 1] lies at or
    after the end of the text and cuts nothing.  It is no protection either:
    a message of [aLen] characters or more has overrun the buffer in
    [vsprintf], before the terminator is written. *)
Theorem format_whole (aBuffer : list ascii) (aLen : nat) (text : string) :
  length aBuffer = aLen ->
  Logger.NUL ∉ Logger.bytes text ->
  (String.length text < aLen ->
   exists b, Logger.format aBuffer aLen text = Some b /\
             length b = aLen /\ Logger.c_str b = text) /\
  (aLen <= String.length text -> Logger.format aBuffer aLen text = None).
Proof.
  intros Hlen Hc. split.
  - intros Hlt. unfold Logger.format.
    destruct (sprintf_fits aBuffer text) as [-> Hl]; [lia|].
    case_decide; [|lia]. eexists. split; [reflexivity|].
    split; [rewrite length_insert; lia|].
    destruct (decide (aLen - 1 = String.length text)) as [E|E].
    + rewrite E, <- bytes_length.
      rewrite (insert_app_r_alt _ _ (length (Logger.bytes text)))
        by lia.
      rewrite Nat.sub_diag. simpl. by apply c_str_bytes.
    + rewrite <- (bytes_length text) in *.
      rewrite insert_app_r_alt by lia.
      destruct (aLen - 1 - length (Logger.bytes text)) as [|j] eqn:Ej; [lia|].
      simpl. by apply c_str_bytes.
  - intros Hle. unfold Logger.format.
    rewrite sprintf_overflow; [done|lia].
Qed.

(** ** The stamp of a line *)

Lemma pretty_N_char_clean (x : N) : pretty_N_char x <> Logger.NUL.
Proof. unfold pretty_N_char. by repeat case_match. Qed.

Lemma pretty_N_go_clean (x : N) :
  forall s, Logger.NUL ∉ Logger.bytes s ->
            Logger.NUL ∉ Logger.bytes (pretty_N_go x s).
Proof.
  induction (N.lt_wf_0 x) as [x _ IH]. intros s Hs.
  destruct (decide (x = 0%N)) as [->|Hx]; [by rewrite pretty_N_go_0|].
  rewrite pretty_N_go_step by lia. apply IH.
  - apply N.div_lt; lia.
  - simpl. apply not_elem_of_cons. split; [|done].
    intros E. by apply (pretty_N_char_clean (x `mod` 10)%N).
Qed.

Lemma pretty_N_go_length (k : nat) :
  forall (x : N) (s : string),
    (x < 10 ^ N.of_nat k)%N ->
    String.length (pretty_N_go x s) <= k + String.length s.
Proof.
  induction k as [|k IH]; intros x s Hx.
  - assert (x = 0%N) as -> by (simpl in Hx; lia). by rewrite pretty_N_go_0.
  - destruct (decide (x = 0%N)) as [->|Hne]; [rewrite pretty_N_go_0; lia|].
    rewrite pretty_N_go_step by lia.
    rewrite Nat2N.inj_succ, N.pow_succ_r' in Hx.
    etrans; [apply IH|simpl; lia].
    apply N.Div0.div_lt_upper_bound. lia.
Qed.

Lemma pretty_length (k : nat) (x : N) :
  0 < k -> (x < 10 ^ N.of_nat k)%N -> String.length (pretty x) <= k.
Proof.
  intros Hk Hx. unfold pretty, pretty_N. case_decide; [simpl; lia|].
  etrans; [by apply (pretty_N_go_length k)|simpl; lia].
Qed.

Lemma pretty_clean (x : N) : Logger.NUL ∉ Logger.bytes (pretty x).
Proof.
  unfold pretty, pretty_N. case_decide.
  - simpl. apply not_elem_of_cons. split; [done|apply not_elem_of_nil].
  - apply pretty_N_go_clean. apply not_elem_of_nil.
Qed.

Lemma fill_length (c : ascii) (n : nat) : String.length (Logger.fill c n) = n.
Proof. induction n as [|n IH]; simpl; [done|by rewrite IH]. Qed.

Lemma fill_clean (c : ascii) (n : nat) :
  c <> Logger.NUL -> Logger.NUL ∉ Logger.bytes (Logger.fill c n).
Proof.
  intros Hc. induction n as [|n IH]; simpl; [apply not_elem_of_nil|].
  apply not_elem_of_cons. by split.
Qed.

Lemma pad_length (c : ascii) (width k : nat) (x : N) :
  0 < k -> (x < 10 ^ N.of_nat k)%N ->
  String.length (Logger.pad c width x) <= Nat.max width k.
Proof.
  intros Hk Hx. unfold Logger.pad.
  rewrite string_length_app, fill_length.
  pose proof (pretty_length k x Hk Hx). lia.
Qed.

Lemma pad_clean (c : ascii) (width : nat) (x : N) :
  c <> Logger.NUL -> Logger.NUL ∉ Logger.bytes (Logger.pad c width x).
Proof.
  intros Hc. unfold Logger.pad. rewrite bytes_app.
  apply not_elem_of_app. split; [by apply fill_clean|apply pretty_clean].
Qed.

Lemma timestamp_text_length (st : Logger.SYSTEMTIME) :
  Logger.valid st -> String.length (Logger.timestamp_text st) <= 26.
Proof.
  intros (Hy & Hmo & Hd & Hh & Hmi & Hs & Hms).
  unfold Logger.timestamp_text. rewrite !string_length_app. simpl.
  pose proof (pad_length " " 4 5 (Logger.wYear st)).
  pose proof (pad_length "0" 2 2 (Logger.wMonth st)).
  pose proof (pad_length "0" 2 2 (Logger.wDay st)).
  pose proof (pad_length "0" 2 2 (Logger.wHour st)).
  pose proof (pad_length "0" 2 2 (Logger.wMinute st)).
  pose proof (pad_length "0" 2 2 (Logger.wSecond st)).
  pose proof (pad_length "0" 4 3 (Logger.wMilliseconds st)).
  simpl in *. lia.
Qed.

Lemma timestamp_text_clean (st : Logger.SYSTEMTIME) :
  Logger.NUL ∉ Logger.bytes (Logger.timestamp_text st).
Proof.
  unfold Logger.timestamp_text. rewrite !bytes_app.
  repeat (apply not_elem_of_app; split);
    try (by apply pad_clean);
    simpl; apply not_elem_of_cons; (split; [done|apply not_elem_of_nil]).
Qed.

Lemma timestamp_ok (aBuffer : list ascii) (st : Logger.SYSTEMTIME) :
  length aBuffer = Logger.TS_SIZE ->
  Logger.valid st ->
  exists b, Logger.timestamp aBuffer st = Some b /\
            length b = Logger.TS_SIZE /\
            Logger.c_str b = Logger.timestamp_text st.
Proof.
  intros Hlen Hv. pose proof (timestamp_text_length st Hv) as Hl.
  unfold Logger.timestamp.
  destruct (sprintf_fits aBuffer (Logger.timestamp_text st)) as [-> Hl'].
  { rewrite Hlen. unfold Logger.TS_SIZE. lia. }
  eexists. split; [reflexivity|]. split; [by rewrite Hl'|].
  apply c_str_bytes, timestamp_text_clean.
Qed.

(** X17: the stamp of a log line fits the array [char ts[32]] of the caller:
    for every time [GetSystemTime] can return, [Logger::timestamp] writes at
    most 26 characters and the terminator, inside the array, and the string
    read back is the whole stamp. *)
Theorem timestamp_fits (aBuffer : list ascii) (st : Logger.SYSTEMTIME) :
  length aBuffer = Logger.TS_SIZE ->
  Logger.valid st ->
  String.length (Logger.timestamp_text st) <= 26 /\
  exists b, Logger.timestamp aBuffer st = Some b /\
            length b = Logger.TS_SIZE /\
            Logger.c_str b = Logger.timestamp_text st.
Proof.
  intros Hlen Hv. split; [by apply timestamp_text_length|].
  by apply timestamp_ok.
Qed.

(** ** The threshold *)

Lemma print_ok (lbl : string) (fr : Logger.Frame) (text : string)
    (g : Logger.t) :
  Logger.sized fr ->
  Logger.valid (Logger.clock fr) ->
  Logger.NUL ∉ Logger.bytes text ->
  String.length text < Logger.LOGGER_BUFFER_SIZE ->
  Logger.print lbl fr text g
  = Some (Logger.mk (Logger.mLogLevel g)
            (Logger.stderr g ++
             [Logger.timestamp_text (Logger.clock fr) +:+ " - " +:+ lbl +:+
              ": " +:+ text +:+ LF])).
Proof.
  intros [Hts Hbuf] Hv Hc Hlt. unfold Logger.print.
  destruct (timestamp_ok (Logger.ts fr) (Logger.clock fr) Hts Hv)
    as (t' & -> & _ & ->).
  unfold Logger.format.
  destruct (sprintf_fits (Logger.buffer fr) text) as [-> Hl]; [lia|].
  case_decide as Hin; [|unfold Logger.LOGGER_BUFFER_SIZE in *; lia].
  do 5 f_equal.
  rewrite <- (bytes_length text) in *.
  rewrite insert_app_r_alt
    by (unfold Logger.LOGGER_BUFFER_SIZE in *; lia).
  destruct (Logger.LOGGER_BUFFER_SIZE - 1 - length (Logger.bytes text))
    as [|j] eqn:Ej; simpl; by rewrite c_str_bytes.
Qed.

(** X18: the four methods of the logger make one threshold: a message logged
    at level [v] is written, as one line with the stamp and the label of the
    level, exactly when [mLogLevel] is not above [v], and the level is never
    changed.  So [error] writes at every level, and a new logger, at
    [eINFO], drops the messages of [debug] only. *)
Theorem log_threshold (v : Logger.LogLevel) (fr : Logger.Frame)
    (text : string) (g : Logger.t) :
  Logger.sized fr ->
  Logger.valid (Logger.clock fr) ->
  Logger.NUL ∉ Logger.bytes text ->
  String.length text < Logger.LOGGER_BUFFER_SIZE ->
  exists g',
    Logger.log v fr text g = Some g' /\
    Logger.mLogLevel g' = Logger.mLogLevel g /\
    Logger.stderr g'
    = (if decide (Logger.rank (Logger.mLogLevel g) <= Logger.rank v)
       then Logger.stderr g ++
            [Logger.timestamp_text (Logger.clock fr) +:+ " - " +:+
             Logger.label v +:+ ": " +:+ text +:+ LF]
       else Logger.stderr g).
Proof.
  intros Hsz Hv Hc Hlt.
  pose proof (print_ok (Logger.label v) fr text g Hsz Hv Hc Hlt) as Hp.
  assert (Hgate : forall (m : Logger.t -> option Logger.t),
            m g = (if decide (Logger.rank v < Logger.rank (Logger.mLogLevel g))
                   then Some g
                   else Logger.print (Logger.label v) fr text g) ->
            exists g',
              m g = Some g' /\
              Logger.mLogLevel g' = Logger.mLogLevel g /\
              Logger.stderr g'
              = (if decide (Logger.rank (Logger.mLogLevel g) <= Logger.rank v)
                 then Logger.stderr g ++
                      [Logger.timestamp_text (Logger.clock fr) +:+ " - " +:+
                       Logger.label v +:+ ": " +:+ text +:+ LF]
                 else Logger.stderr g)).
  { intros m ->.
    destruct (decide (Logger.rank v < Logger.rank (Logger.mLogLevel g)))
      as [Hg|Hg].
    - exists g. split; [done|]. split; [done|].
      rewrite decide_False; [done|lia].
    - rewrite Hp. eexists. split; [reflexivity|]. split; [done|].
      rewrite decide_True; [done|lia]. }
  destruct v; apply Hgate; try reflexivity.
  unfold Logger.log, Logger.error. rewrite decide_False; [done|].
  destruct (Logger.mLogLevel g); simpl; lia.
Qed.

(** ** The theorems of the logger at concrete calls *)

(** [format_whole] for a message of five characters in a buffer of eight. *)
Lemma format_whole_witness :
  length (replicate 8 "x"%char) = 8 /\
  (Logger.NUL ∉ Logger.bytes "hello") /\
  exists b,
    Logger.format (replicate 8 "x"%char) 8 "hello" = Some b /\
    length b = 8 /\ Logger.c_str b = "hello".
Proof.
  assert (Hc : Logger.NUL ∉ Logger.bytes "hello") by (simpl; not_in_here).
  split; [reflexivity|]. split; [exact Hc|].
  apply (format_whole (replicate 8 "x"%char) 8 "hello"); [reflexivity|exact Hc|].
  simpl. lia.
Defined.

(** [timestamp_fits] on the 5th of March 2024, at 07:08:09.123. *)
Lemma timestamp_fits_witness :
  Logger.valid (Logger.mkSYSTEMTIME 2024 3 5 7 8 9 123) /\
  exists b,
    Logger.timestamp (replicate 32 "x"%char)
      (Logger.mkSYSTEMTIME 2024 3 5 7 8 9 123) = Some b /\
    length b = Logger.TS_SIZE /\
    Logger.c_str b = "2024-03-05T07:08:09.0123Z".
Proof.
  assert (Hv : Logger.valid (Logger.mkSYSTEMTIME 2024 3 5 7 8 9 123))
    by (unfold Logger.valid; simpl; lia).
  split; [exact Hv|].
  destruct (timestamp_fits (replicate 32 "x"%char)
              (Logger.mkSYSTEMTIME 2024 3 5 7 8 9 123))
    as (_ & b & H & Hl & Hs); [reflexivity|exact Hv|].
  exists b. split; [exact H|]. split; [exact Hl|].
  rewrite Hs. by vm_compute.
Defined.

(** [log_threshold] for a warning and a debug message on a new logger. *)
Lemma log_threshold_witness :
  Logger.sized
    (Logger.mkFrame (Logger.mkSYSTEMTIME 2024 3 5 7 8 9 123)
       (replicate 32 "x"%char) (replicate 1024 "y"%char)) /\
  (exists g',
     Logger.log Logger.eWARNING
       (Logger.mkFrame (Logger.mkSYSTEMTIME 2024 3 5 7 8 9 123)
          (replicate 32 "x"%char) (replicate 1024 "y"%char))
       "hello" Logger.new = Some g' /\
     Logger.stderr g'
     = ["2024-03-05T07:08:09.0123Z - Warning: hello" +:+ LF]) /\
  (exists g',
     Logger.log Logger.eDEBUG
       (Logger.mkFrame (Logger.mkSYSTEMTIME 2024 3 5 7 8 9 123)
          (replicate 32 "x"%char) (replicate 1024 "y"%char))
       "hello" Logger.new = Some g' /\
     Logger.stderr g' = []).
Proof.
  assert (Hsz : Logger.sized
            (Logger.mkFrame (Logger.mkSYSTEMTIME 2024 3 5 7 8 9 123)
               (replicate 32 "x"%char) (replicate 1024 "y"%char)))
    by (split; by vm_compute).
  assert (Hv : Logger.valid (Logger.mkSYSTEMTIME 2024 3 5 7 8 9 123))
    by (unfold Logger.valid; simpl; lia).
  assert (Hc : Logger.NUL ∉ Logger.bytes "hello") by (simpl; not_in_here).
  assert (Hlt : String.length "hello" < Logger.LOGGER_BUFFER_SIZE)
    by (vm_compute; lia).
  split; [exact Hsz|]. split.
  - destruct (log_threshold Logger.eWARNING _ "hello" Logger.new Hsz Hv Hc Hlt)
      as (g' & H & _ & Hs).
    exists g'. split; [exact H|]. rewrite Hs. by vm_compute.
  - destruct (log_threshold Logger.eDEBUG _ "hello" Logger.new Hsz Hv Hc Hlt)
      as (g' & H & _ & Hs).
    exists g'. split; [exact H|]. rewrite Hs. by vm_compute.
Defined.
